(** * arXiv combinatorics frontend: ingestion, tagging and presentation

    A shallow embedding of [arxiv/src/app.py], [arxiv/src/fetch_arxiv.py]
    and [arxiv/src/tags_helper.py], and the properties of the written
    specification checked against it.

    Text is modelled by [string], one [ascii] per character.  The character
    classes used by the code ([A-Z], [a-z], [str.isalnum], [str.isspace],
    the digits of [%Y-%m-%d]) are the ones Python gives to code points
    below 128.  From 128 on Python's [str.isalnum], [str.isspace] and [\d]
    hold further characters (letters and digits of other scripts, U+0085,
    U+00A0, U+3000, ...), which are not modelled: what is stated about
    [split()], [strip()], [isalnum] and [strptime] is stated for text that
    is ASCII ([isascii]).

    The table declarations are not among the sources.  The constraints of
    the columns and the unique key of [paper_authors] are parameters of the
    store; the key used in examples is the one the specification words,
    positions that are unique within a paper. *)

From Stdlib Require Import List String Ascii Arith Bool Lia ZArith DecimalString.
Import ListNotations.
Open Scope string_scope.

Set Implicit Arguments.

(** ** Exceptions and results *)

Inductive exn : Type :=
| IndexError          (* [l[-1]] on an empty list *)
| ValueError          (* [datetime.strptime] on a malformed date *)
| DataError           (* the store rejects a value for a column *)
| ProgrammingError    (* the store rejects the statement itself *)
| HTTPError.          (* the arXiv client fails while paging *)

Inductive result (A : Type) : Type :=
| Ok (a : A)
| Raise (e : exn).

Arguments Ok {A} a.
Arguments Raise {A} e.

(** ** Characters and strings, as Python sees them *)

Module Text.

Definition code (c : ascii) : nat := nat_of_ascii c.

Definition between (lo hi : nat) (c : ascii) : bool :=
  ((lo <=? code c) && (code c <=? hi))%nat.

(** [A-Z] *)
Definition is_upper : ascii -> bool := between 65 90.
(** [a-z] *)
Definition is_lower : ascii -> bool := between 97 122.
(** [0-9] *)
Definition is_digit : ascii -> bool := between 48 57.
(** [str.isalnum] on one character of ASCII text *)
Definition isalnum (c : ascii) : bool := is_digit c || is_upper c || is_lower c.
(** [str.isspace] on one character of ASCII text: tab, LF, VT, FF, CR, FS,
    GS, RS, US, space *)
Definition isspace (c : ascii) : bool := between 9 13 c || between 28 32 c.
(** [-/] *)
Definition is_hyphen_or_slash (c : ascii) : bool :=
  Ascii.eqb c "-" || Ascii.eqb c "/".

(** A code point below 128 *)
Definition is_ascii (c : ascii) : bool := (code c <? 128)%nat.

Definition snoc (s : string) (c : ascii) : string := s ++ String c "".

Fixpoint str_filter (p : ascii -> bool) (s : string) : string :=
  match s with
  | "" => ""
  | String c s' => if p c then String c (str_filter p s') else str_filter p s'
  end.

Fixpoint str_forallb (p : ascii -> bool) (s : string) : bool :=
  match s with
  | "" => true
  | String c s' => p c && str_forallb p s'
  end.

Fixpoint str_existsb (p : ascii -> bool) (s : string) : bool :=
  match s with
  | "" => false
  | String c s' => p c || str_existsb p s'
  end.

Fixpoint str_rev (s : string) : string :=
  match s with
  | "" => ""
  | String c s' => snoc (str_rev s') c
  end.

(** [sep in s] for a one-character [sep] *)
Definition contains_char (c : ascii) (s : string) : bool :=
  str_existsb (Ascii.eqb c) s.

(** [s.isascii()] *)
Definition isascii (s : string) : bool := str_forallb is_ascii s.

(** [s.split(sep)] for a non-empty [sep]: the separators are found from the
    left and do not overlap.  [skip] counts the characters of a separator
    that was matched and is still being consumed, [cur] is the piece read
    so far. *)
Fixpoint split_go (sep : string) (skip : nat) (cur : string) (s : string)
  : list string :=
  match s with
  | "" => [cur]
  | String c s' =>
      match skip with
      | S k => split_go sep k cur s'
      | O =>
          if String.prefix sep s
          then cur :: split_go sep (String.length sep - 1) "" s'
          else split_go sep 0 (snoc cur c) s'
      end
  end.

Definition split (sep : string) (s : string) : list string :=
  split_go sep 0 "" s.

(** [s.split()] on ASCII text: pieces between runs of whitespace, no empty
    piece *)
Fixpoint split_ws_go (cur : string) (s : string) : list string :=
  match s with
  | "" => match cur with "" => [] | _ => [cur] end
  | String c s' =>
      if isspace c
      then match cur with
           | "" => split_ws_go "" s'
           | _ => cur :: split_ws_go "" s'
           end
      else split_ws_go (snoc cur c) s'
  end.

Definition split_ws (s : string) : list string := split_ws_go "" s.

(** [l[-1]] *)
Fixpoint last_item (A : Type) (l : list A) : result A :=
  match l with
  | [] => Raise IndexError
  | [x] => Ok x
  | _ :: l' => last_item l'
  end.

(** [l[0]] *)
Definition first_item (A : Type) (l : list A) : result A :=
  match l with
  | [] => Raise IndexError
  | x :: _ => Ok x
  end.

(** [str(n)] for a non-negative integer *)
Definition str_of_nat (n : nat) : string :=
  NilEmpty.string_of_uint (Nat.to_uint n).

(** [sep.join(l)] *)
Fixpoint join (sep : string) (l : list string) : string :=
  match l with
  | [] => ""
  | [x] => x
  | x :: l' => x ++ sep ++ join sep l'
  end.

Definition newline : string := String (ascii_of_nat 10) "".

(** [s.lstrip()] and [s.strip()] on ASCII text *)
Fixpoint lstrip (s : string) : string :=
  match s with
  | String c s' => if isspace c then lstrip s' else s
  | "" => ""
  end.

Definition strip (s : string) : string :=
  str_rev (lstrip (str_rev (lstrip s))).

End Text.

Import Text.

(** ** Citation export: protecting capitals ([app.py]) *)

Definition protect_match (text : string) : string := "{" ++ text ++ "}".

(** [re.sub(r'[A-Z]{2,}', protect_match, title)].  [run] is the run of
    capitals read so far; a run is replaced when it ends, if it has two
    capitals or more. *)
Definition flush_run (run : string) : string :=
  if (2 <=? String.length run)%nat then protect_match run else run.

Fixpoint sub_runs (run : string) (s : string) : string :=
  match s with
  | "" => flush_run run
  | String c s' =>
      if is_upper c
      then sub_runs (snoc run c) s'
      else flush_run run ++ String c (sub_runs "" s')
  end.

(** [re.sub(r'(?<=[p])[A-Z]', protect_match, s)]: the look-behind reads the
    character before the capital in the string being scanned. *)
Fixpoint sub_after (p : ascii -> bool) (prev : option ascii) (s : string)
  : string :=
  match s with
  | "" => ""
  | String c s' =>
      let behind := match prev with Some b => p b | None => false end in
      (if is_upper c && behind
       then protect_match (String c "")
       else String c "")
      ++ sub_after p (Some c) s'
  end.

Definition protect_capitals_for_bibtex (title : string) : string :=
  let result := sub_runs "" title in
  let result := sub_after is_lower None result in
  let result := sub_after is_hyphen_or_slash None result in
  result.

(** ** Calendar dates ([datetime.date]) *)

Record date : Type := mkDate { d_year : nat; d_month : nat; d_day : nat }.

Module Calendar.

Definition date_eqb (a b : date) : bool :=
  ((d_year a =? d_year b) && (d_month a =? d_month b) && (d_day a =? d_day b))%nat.

(** [a <= b] *)
Definition date_leb (a b : date) : bool :=
  ((d_year a <? d_year b)
   || ((d_year a =? d_year b)
       && ((d_month a <? d_month b)
           || ((d_month a =? d_month b) && (d_day a <=? d_day b)))))%nat.

Definition is_leap (y : nat) : bool :=
  (((y mod 4 =? 0) && negb (y mod 100 =? 0)) || (y mod 400 =? 0))%nat.

Definition days_in_month (y m : nat) : nat :=
  match m with
  | 1 | 3 | 5 | 7 | 8 | 10 | 12 => 31
  | 4 | 6 | 9 | 11 => 30
  | 2 => if is_leap y then 29 else 28
  | _ => 0
  end.

Definition digit_val (c : ascii) : option nat :=
  if is_digit c then Some (code c - 48) else None.

(** [%Y]: the regular expression [\d\d\d\d] *)
Definition parse_Y (s : string) : option nat :=
  match s with
  | String a (String b (String c (String d ""))) =>
      match digit_val a, digit_val b, digit_val c, digit_val d with
      | Some a, Some b, Some c, Some d => Some (1000 * a + 100 * b + 10 * c + d)
      | _, _, _, _ => None
      end
  | _ => None
  end.

(** One or two digits naming a number from 1 to [hi]: [%m] is
    [1[0-2]|0[1-9]|[1-9]] ([hi = 12]) and the digit forms of [%d] are
    [3[0-1]|[1-2]\d|0[1-9]|[1-9]] ([hi = 31]). *)
Definition parse_1_to (hi : nat) (s : string) : option nat :=
  match s with
  | String a "" =>
      match digit_val a with
      | Some n => if (1 <=? n)%nat then Some n else None
      | None => None
      end
  | String a (String b "") =>
      match digit_val a, digit_val b with
      | Some x, Some y =>
          let n := 10 * x + y in
          if ((1 <=? n) && (n <=? hi))%nat then Some n else None
      | _, _ => None
      end
  | _ => None
  end.

Definition parse_m : string -> option nat := parse_1_to 12.

(** [%d] also accepts a space followed by one digit from 1 to 9. *)
Definition parse_d (s : string) : option nat :=
  match s with
  | String " " (String b "") => parse_1_to 31 (String b "")
  | _ => parse_1_to 31 s
  end.

(** [datetime.strptime(s, '%Y-%m-%d').date()] on ASCII text: the three
    fields are read between the hyphens, the whole string is consumed, and
    the date must exist in the calendar (years start at 1). *)
Definition strptime (s : string) : result date :=
  match split "-" s with
  | [y; m; d] =>
      match parse_Y y, parse_m m, parse_d d with
      | Some y, Some m, Some d =>
          if ((1 <=? y) && (d <=? days_in_month y m))%nat
          then Ok (mkDate y m d)
          else Raise ValueError
      | _, _, _ => Raise ValueError
      end
  | _ => Raise ValueError
  end.

End Calendar.

Import Calendar.

(** ** The relational schema *)

(** The tag types that the docstrings of [tags_helper.py] list *)
Inductive tag_type : Type := msc | personal | arxiv | other.

Record PaperRow : Type := mkPaper {
  p_id : nat;
  p_arxiv_id : string;
  p_title : string;
  p_abstract : string;
  p_published_date : date;
  p_updated_date : option date;
  p_comment : option string;
  p_journal_ref : option string;
  p_doi : option string;
  p_primary_category : string
}.

Record AuthorRow : Type := mkAuthor { a_id : nat; a_name : string }.

Record PaperAuthor : Type := mkPaperAuthor {
  pa_paper_id : nat;
  pa_author_id : nat;
  pa_author_order : nat
}.

Record TagRow : Type := mkTag {
  t_id : nat;
  t_name : string;
  t_tag_type : tag_type;
  t_description : option string
}.

Record PaperTag : Type := mkPaperTag { pt_paper_id : nat; pt_tag_id : nat }.

(** Modelled from the spec: the table declarations are not among the source
    files.  The five tables and their columns are the ones that the
    statements of the three programs read and write; rows are kept in
    insertion order; the [id] columns are auto-increment counters, as the
    uses of [cursor.lastrowid] show. *)
Record DB : Type := mkDB {
  papers : list PaperRow;
  authors : list AuthorRow;
  paper_authors : list PaperAuthor;
  tags : list TagRow;
  paper_tags : list PaperTag;
  next_paper_id : nat;
  next_author_id : nat;
  next_tag_id : nat
}.

Definition empty_db : DB := mkDB [] [] [] [] [] 1 1 1.

Definition tag_type_eqb (a b : tag_type) : bool :=
  match a, b with
  | msc, msc | personal, personal | arxiv, arxiv | other, other => true
  | _, _ => false
  end.

(** [SELECT ... FROM papers WHERE arxiv_id = %s] followed by [fetchone()] *)
Definition select_paper (db : DB) (arxiv_id : string) : option PaperRow :=
  find (fun p => String.eqb (p_arxiv_id p) arxiv_id) (papers db).

(** [SELECT id, name FROM authors WHERE name = %s] followed by [fetchone()] *)
Definition select_author (db : DB) (name : string) : option AuthorRow :=
  find (fun a => String.eqb (a_name a) name) (authors db).

(** ** Sorting and paging of result sets *)

Section ResultSets.
Variable A : Type.

(** [ORDER BY]: [first a b] says that [a] may come before [b]. *)
Variable first : A -> A -> bool.

Fixpoint insert_row (x : A) (l : list A) : list A :=
  match l with
  | [] => [x]
  | y :: l' => if first x y then x :: l else y :: insert_row x l'
  end.

Definition order_by (l : list A) : list A := fold_right insert_row [] l.

(** [LIMIT limit OFFSET offset]; the store refuses a negative offset. *)
Definition limit_offset (limit offset : Z) (rows : list A) : result (list A) :=
  if (offset <? 0)%Z
  then Raise ProgrammingError
  else Ok (firstn (Z.to_nat limit) (skipn (Z.to_nat offset) rows)).
End ResultSets.

(** ** Presentation layer ([app.py]) *)

(** A paper row together with its ['authors'] entry *)
Definition paper_view : Type := (PaperRow * list string)%type.

Inductive response : Type :=
| render_index (papers : list paper_view) (page total_pages total total_authors : Z)
               (latest_date : option date)
| render_paper (paper : paper_view)
| render_author (author : AuthorRow) (papers : list paper_view)
                (page total_pages total : Z) (latest_date : option date)
| render_date (d : date) (papers : list paper_view)
| render_search (papers : list paper_view) (query : string)
                (paging : option (Z * Z)) (total : Z) (latest_date : option date)
| text_plain (body : string)
| abort (code : nat).

Definition status (r : response) : nat :=
  match r with
  | abort code => code
  | _ => 200
  end.

(** [ORDER BY pa.author_order] *)
Definition by_author_order (a b : PaperAuthor) : bool :=
  (pa_author_order a <=? pa_author_order b)%nat.

(** [ORDER BY published_date DESC, id DESC] *)
Definition newest_first (a b : PaperRow) : bool :=
  if date_eqb (p_published_date a) (p_published_date b)
  then (p_id b <=? p_id a)%nat
  else date_leb (p_published_date b) (p_published_date a).

(** [ORDER BY id DESC] *)
Definition by_id_desc (a b : PaperRow) : bool := (p_id b <=? p_id a)%nat.

Definition get_paper_authors (db : DB) (paper_id : nat) : list string :=
  let links :=
    order_by by_author_order
      (filter (fun pa => (pa_paper_id pa =? paper_id)%nat) (paper_authors db)) in
  flat_map
    (fun pa =>
       map a_name
         (filter (fun a => (a_id a =? pa_author_id pa)%nat) (authors db)))
    links.

Definition with_authors (db : DB) (papers : list PaperRow) : list paper_view :=
  map (fun p => (p, get_paper_authors db (p_id p))) papers.

(** [SELECT MAX(published_date) FROM papers] *)
Definition latest_published (db : DB) : option date :=
  fold_left
    (fun acc p =>
       match acc with
       | None => Some (p_published_date p)
       | Some d => if date_leb d (p_published_date p)
                   then Some (p_published_date p) else Some d
       end)
    (papers db) None.

Definition per_page : Z := 20.

(** [(total + per_page - 1) // per_page] *)
Definition total_pages_of (total : Z) : Z := ((total + per_page - 1) / per_page)%Z.

(** The three lines every paged view shares: the offset of the page, the
    rows of the page, the number of pages. *)
Definition paginate (A : Type) (rows : list A) (page : Z)
  : result (list A * Z * Z) :=
  let offset := ((page - 1) * per_page)%Z in
  let total := Z.of_nat (List.length rows) in
  match limit_offset per_page offset rows with
  | Raise e => Raise e
  | Ok shown => Ok (shown, total, total_pages_of total)
  end.

Definition index (db : DB) (page : Z) : result response :=
  let total_authors := Z.of_nat (List.length (authors db)) in
  let latest_date := latest_published db in
  match paginate (order_by newest_first (papers db)) page with
  | Raise e => Raise e
  | Ok (shown, total, total_pages) =>
      Ok (render_index (with_authors db shown) page total_pages total
            total_authors latest_date)
  end.

Definition paper_detail (db : DB) (arxiv_id : string) : response :=
  match select_paper db arxiv_id with
  | None => abort 404
  | Some paper => render_paper (paper, get_paper_authors db (p_id paper))
  end.

(** [FROM papers p JOIN paper_authors pa ON p.id = pa.paper_id
     WHERE pa.author_id = %s] *)
Definition papers_of_author (db : DB) (author_id : nat) : list PaperRow :=
  flat_map
    (fun p =>
       map (fun _ => p)
         (filter
            (fun pa => ((pa_paper_id pa =? p_id p) && (pa_author_id pa =? author_id))%nat)
            (paper_authors db)))
    (papers db).

Definition author_papers (db : DB) (author_name : string) (page : Z)
  : result response :=
  match select_author db author_name with
  | None => Ok (abort 404)
  | Some author =>
      let latest_date := latest_published db in
      match paginate (order_by newest_first (papers_of_author db (a_id author))) page with
      | Raise e => Raise e
      | Ok (shown, total, total_pages) =>
          Ok (render_author author (with_authors db shown) page total_pages
                total latest_date)
      end
  end.

(** The search view.  [like value pattern] is the [LIKE] operator of the
    store.  The statement selects distinct rows of [papers]: a paper is
    listed once, however many of its authors match. *)
Definition search_matches (like : string -> string -> bool) (db : DB)
  (search_term : string) (p : PaperRow) : bool :=
  like (p_title p) search_term
  || like (p_abstract p) search_term
  || existsb
       (fun pa =>
          (pa_paper_id pa =? p_id p)%nat
          && existsb
               (fun a => (a_id a =? pa_author_id pa)%nat
                         && like (a_name a) search_term)
               (authors db))
       (paper_authors db).

Definition search (like : string -> string -> bool) (db : DB) (q : string)
  (page : Z) : result response :=
  let query := strip q in
  match query with
  | "" => Ok (render_search [] "" None 0 None)
  | _ =>
      let search_term := "%" ++ query ++ "%" in
      let latest_date := latest_published db in
      let rows := filter (search_matches like db search_term) (papers db) in
      match paginate (order_by newest_first rows) page with
      | Raise e => Raise e
      | Ok (shown, total, total_pages) =>
          Ok (render_search (with_authors db shown) query
                (Some (page, total_pages)) total latest_date)
      end
  end.

Definition papers_by_date (db : DB) (date_str : string) : response :=
  match strptime date_str with
  | Raise _ => abort 404
  | Ok d =>
      let rows :=
        order_by by_id_desc
          (filter (fun p => date_eqb (p_published_date p) d) (papers db)) in
      render_date d (with_authors db rows)
  end.

(** *** Citation export *)

(** The key: surname of the first author, the year and the letter x *)
Definition bibtex_key (paper_authors : list string) (year : nat) : result string :=
  match paper_authors with
  | first_author :: _ =>
      match last_item (split_ws first_author) with
      | Raise e => Raise e
      | Ok last_name =>
          let last_name := str_filter isalnum last_name in
          Ok (last_name ++ str_of_nat year ++ "x")
      end
  | [] => Ok ("arxiv" ++ str_of_nat year ++ "x")
  end.

Definition clean_arxiv_id (arxiv_id : string) : result string :=
  if contains_char "v" arxiv_id
  then first_item (split "v" arxiv_id)
  else Ok arxiv_id.

(** Truth value of an optional text column: [NULL] and [''] are false. *)
Definition truthy (s : option string) : option string :=
  match s with
  | Some "" => None
  | _ => s
  end.

Definition bibtex_text (paper : PaperRow) (paper_authors : list string)
  : result string :=
  let year := d_year (p_published_date paper) in
  match bibtex_key paper_authors year with
  | Raise e => Raise e
  | Ok key =>
      let author_str :=
        match paper_authors with
        | [] => "Unknown"
        | _ => join " and " paper_authors
        end in
      match clean_arxiv_id (p_arxiv_id paper) with
      | Raise e => Raise e
      | Ok clean_id =>
          let protected_title := protect_capitals_for_bibtex (p_title paper) in
          let text :=
            "@article{" ++ key ++ "," ++ newline
            ++ "Author = {" ++ author_str ++ "}," ++ newline
            ++ "Title = {" ++ protected_title ++ "}," ++ newline
            ++ "Year = {" ++ str_of_nat year ++ "}," ++ newline
            ++ "Eprint = {" ++ clean_id ++ "}," ++ newline
            ++ "  url = {https://arxiv.org/abs/" ++ clean_id ++ "}," ++ newline
            ++ "journal = {arXiv e-prints}" in
          let text :=
            match truthy (p_journal_ref paper) with
            | Some j => text ++ "," ++ newline ++ "journalref = {" ++ j ++ "}"
            | None => text
            end in
          let text :=
            match truthy (p_doi paper) with
            | Some d => text ++ "," ++ newline ++ "doi = {" ++ d ++ "}"
            | None => text
            end in
          Ok (text ++ newline ++ "}")
      end
  end.

Definition bibtex (db : DB) (arxiv_id : string) : result response :=
  match select_paper db arxiv_id with
  | None => Ok (abort 404)
  | Some paper =>
      match bibtex_text paper (get_paper_authors db (p_id paper)) with
      | Raise e => Raise e
      | Ok text => Ok (text_plain text)
      end
  end.

(** *** Routing

    The rules ['/paper/<arxiv_id>'], ['/api/bibtex/<arxiv_id>'],
    ['/author/<author_name>'] and ['/date/<date_str>'] use the default
    converter: the variable part is one segment of the path, not empty and
    without a slash.  No other rule of [app.py] matches a path that starts
    like one of them, and a path that no rule matches is answered with 404
    before any view runs. *)
Definition path_segment (s : string) : bool :=
  negb (String.eqb s "") && negb (contains_char "/" s).

(** The answers to [GET /paper/rest], [GET /api/bibtex/rest],
    [GET /author/rest?page=page] and [GET /date/rest] *)
Definition route_paper_detail (db : DB) (rest : string) : response :=
  if path_segment rest then paper_detail db rest else abort 404.

Definition route_bibtex (db : DB) (rest : string) : result response :=
  if path_segment rest then bibtex db rest else Ok (abort 404).

Definition route_author_papers (db : DB) (rest : string) (page : Z)
  : result response :=
  if path_segment rest then author_papers db rest page else Ok (abort 404).

Definition route_papers_by_date (db : DB) (rest : string) : response :=
  if path_segment rest then papers_by_date db rest else abort 404.

(** ** The store session: state and exceptions

    A statement either changes the tables or raises and changes nothing;
    what earlier statements of the same transaction did stays in place. *)

Definition M (A : Type) : Type := DB -> DB * result A.

Definition ret (A : Type) (a : A) : M A := fun db => (db, Ok a).

Definition bind (A B : Type) (m : M A) (k : A -> M B) : M B :=
  fun db =>
    match m db with
    | (db', Ok a) => k a db'
    | (db', Raise e) => (db', Raise e)
    end.

Notation "x <- m ;; k" := (bind m (fun x => k))
  (at level 61, m at next level, right associativity).
Notation "m ;;; k" := (bind m (fun _ => k))
  (at level 61, right associativity).

(** A record of the arXiv API ([arxiv.Result]) *)
Record ArxivResult : Type := mkResult {
  entry_id : string;
  title : string;
  summary : string;
  published : date;
  updated : option date;
  comment : option string;
  journal_ref : option string;
  doi : option string;
  primary_category : string;
  authors_of : list string
}.

(** [paper.entry_id.split('/abs/')[-1]]; a split is never empty *)
Definition external_id (paper : ArxivResult) : string :=
  match last_item (split "/abs/" (entry_id paper)) with
  | Ok x => x
  | Raise _ => ""
  end.

Section Store.

(** What the table declarations decide and the programs do not: which
    values the columns of [papers], [authors] and [tags] accept, and when
    two rows of [paper_authors] collide on a unique key (the condition
    under which [INSERT IGNORE] drops the new row). *)
Variable accepts_paper : PaperRow -> bool.
Variable accepts_author : string -> bool.
Variable accepts_tag : string -> tag_type -> option string -> bool.
Variable duplicate_link : PaperAuthor -> PaperAuthor -> bool.

(** *** Ingestion ([fetch_arxiv.py]) *)

Definition row_of (paper_id : nat) (arxiv_id : string) (paper : ArxivResult)
  : PaperRow :=
  mkPaper paper_id arxiv_id (title paper) (summary paper) (published paper)
    (updated paper) (comment paper) (journal_ref paper) (doi paper)
    (primary_category paper).

(** [SELECT id FROM papers WHERE arxiv_id = %s] *)
Definition select_paper_id (arxiv_id : string) : M (option nat) :=
  fun db => (db, Ok (option_map p_id (select_paper db arxiv_id))).

(** [UPDATE papers SET ... WHERE id = %s] *)
Definition update_paper (paper_id : nat) (paper : ArxivResult) : M unit :=
  fun db =>
    if forallb
         (fun p => negb (p_id p =? paper_id)%nat
                   || accepts_paper (row_of paper_id (p_arxiv_id p) paper))
         (papers db)
    then
      (mkDB
         (map (fun p => if (p_id p =? paper_id)%nat
                        then row_of paper_id (p_arxiv_id p) paper
                        else p)
            (papers db))
         (authors db) (paper_authors db) (tags db) (paper_tags db)
         (next_paper_id db) (next_author_id db) (next_tag_id db),
       Ok tt)
    else (db, Raise DataError).

(** [DELETE FROM paper_authors WHERE paper_id = %s] *)
Definition delete_paper_authors (paper_id : nat) : M unit :=
  fun db =>
    (mkDB (papers db) (authors db)
       (filter (fun pa => negb (pa_paper_id pa =? paper_id)%nat) (paper_authors db))
       (tags db) (paper_tags db)
       (next_paper_id db) (next_author_id db) (next_tag_id db),
     Ok tt).

(** [INSERT INTO papers (...) VALUES (...)], then [cursor.lastrowid] *)
Definition insert_paper (arxiv_id : string) (paper : ArxivResult) : M nat :=
  fun db =>
    let paper_id := next_paper_id db in
    let row := row_of paper_id arxiv_id paper in
    if accepts_paper row
    then
      (mkDB (papers db ++ [row]) (authors db) (paper_authors db) (tags db)
         (paper_tags db) (S paper_id) (next_author_id db) (next_tag_id db),
       Ok paper_id)
    else (db, Raise DataError).

(** [INSERT INTO authors (name) VALUES (%s)
     ON DUPLICATE KEY UPDATE id=LAST_INSERT_ID(id)], then [cursor.lastrowid] *)
Definition insert_author (author_name : string) : M nat :=
  fun db =>
    if accepts_author author_name
    then
      match select_author db author_name with
      | Some a => (db, Ok (a_id a))
      | None =>
          let author_id := next_author_id db in
          (mkDB (papers db) (authors db ++ [mkAuthor author_id author_name])
             (paper_authors db) (tags db) (paper_tags db)
             (next_paper_id db) (S author_id) (next_tag_id db),
           Ok author_id)
      end
    else (db, Raise DataError).

(** [INSERT IGNORE INTO paper_authors (paper_id, author_id, author_order)] *)
Definition insert_ignore_paper_author (link : PaperAuthor) : M unit :=
  fun db =>
    if existsb (fun old => duplicate_link old link) (paper_authors db)
    then (db, Ok tt)
    else
      (mkDB (papers db) (authors db) (paper_authors db ++ [link]) (tags db)
         (paper_tags db) (next_paper_id db) (next_author_id db) (next_tag_id db),
       Ok tt).

(** The first half of the upsert: look the paper up, then update the row
    and clear its links, or insert a new row. *)
Definition upsert_row (paper : ArxivResult) : M nat :=
  let arxiv_id := external_id paper in
  found <- select_paper_id arxiv_id ;;
  match found with
  | Some paper_id =>
      update_paper paper_id paper ;;;
      delete_paper_authors paper_id ;;;
      ret paper_id
  | None => insert_paper arxiv_id paper
  end.

(** [for order, author in enumerate(paper.authors, start=1)] *)
Fixpoint link_authors (paper_id : nat) (order : nat) (names : list string)
  : M unit :=
  match names with
  | [] => ret tt
  | author_name :: rest =>
      author_id <- insert_author author_name ;;
      insert_ignore_paper_author (mkPaperAuthor paper_id author_id order) ;;;
      link_authors paper_id (S order) rest
  end.

Definition insert_or_update_paper (paper : ArxivResult) : M nat :=
  paper_id <- upsert_row paper ;;
  link_authors paper_id 1 (authors_of paper) ;;;
  ret paper_id.

(** *** Batches *)

(** What the arXiv API sends for a query: records, one after the other,
    until the listing ends or the transfer fails. *)
Inductive feed : Type :=
| Done
| Yield (paper : ArxivResult) (rest : feed)
| Broken (e : exn).

(** [client.results(search)] with [search.max_results = n]: the client
    stops after [n] records. *)
Fixpoint results (max_results : nat) (f : feed) : feed :=
  match max_results, f with
  | O, _ => Done
  | S n, Yield paper rest => Yield paper (results n rest)
  | S _, Done => Done
  | S _, Broken e => Broken e
  end.

Inductive conn_event : Type := Commit | Rollback.

(** A connection: what the store holds durably, what the open transaction
    sees, and the commits and rollbacks issued so far. *)
Record Conn : Type := mkConn {
  committed : DB;
  session : DB;
  history : list conn_event
}.

Definition get_db_connection (db : DB) : Conn := mkConn db db [].

Definition commit (c : Conn) : Conn :=
  mkConn (session c) (session c) (history c ++ [Commit]).

Definition rollback (c : Conn) : Conn :=
  mkConn (committed c) (committed c) (history c ++ [Rollback]).

(** The loop over the records; [count] and [errors] are the two counters.
    It ends with [Some e] when the iterator itself raises. *)
Fixpoint process (f : feed) (db : DB) (count errors : nat)
  : DB * nat * nat * option exn :=
  match f with
  | Done => (db, count, errors, None)
  | Broken e => (db, count, errors, Some e)
  | Yield paper rest =>
      match insert_or_update_paper paper db with
      | (db', Ok _) => process rest db' (S count) errors
      | (db', Raise _) => process rest db' count (S errors)
      end
  end.

(** The body shared by the two batch modes, from [client.results(search)]
    to the [finally] clause.  The result is the connection as it is
    closed, and the two counters or the exception that is re-raised. *)
Definition fetch_batch (max_results : nat) (matching : feed) (db : DB)
  : Conn * result (nat * nat) :=
  let conn := get_db_connection db in
  match process (results max_results matching) (session conn) 0 0 with
  | (db', count, errors, None) =>
      (commit (mkConn (committed conn) db' (history conn)), Ok (count, errors))
  | (db', _, _, Some e) =>
      (rollback (mkConn (committed conn) db' (history conn)), Raise e)
  end.

Definition fetch_recent_papers (matching : feed) (db : DB)
  : Conn * result (nat * nat) :=
  fetch_batch 500 matching db.

Definition fetch_date_range (start_date_str end_date_str : string)
  (matching : feed) (db : DB) : Conn * result (nat * nat) :=
  match strptime start_date_str, strptime end_date_str with
  | Ok _, Ok _ => fetch_batch 5000 matching db
  | Raise e, _ => (get_db_connection db, Raise e)
  | _, Raise e => (get_db_connection db, Raise e)
  end.

(** *** Tagging ([tags_helper.py]) *)

Definition select_tag (db : DB) (tag_name : string) (ty : tag_type)
  : option TagRow :=
  find (fun t => String.eqb (t_name t) tag_name && tag_type_eqb (t_tag_type t) ty)
    (tags db).

Definition get_or_create_tag (tag_name : string) (ty : tag_type)
  (description : option string) : M nat :=
  fun db =>
    match select_tag db tag_name ty with
    | Some t => (db, Ok (t_id t))
    | None =>
        if accepts_tag tag_name ty description
        then
          let tag_id := next_tag_id db in
          (mkDB (papers db) (authors db) (paper_authors db)
             (tags db ++ [mkTag tag_id tag_name ty description])
             (paper_tags db)
             (next_paper_id db) (next_author_id db) (S tag_id),
           Ok tag_id)
        else (db, Raise DataError)
    end.

(** Modelled from the spec: the declaration of [paper_tags] is not among
    the source files; a Paper-Tag link has no duplicates, so the pair
    (paper, tag) is its unique key. *)
Definition same_paper_tag (a b : PaperTag) : bool :=
  ((pt_paper_id a =? pt_paper_id b) && (pt_tag_id a =? pt_tag_id b))%nat.

(** [INSERT IGNORE INTO paper_tags (paper_id, tag_id)] *)
Definition insert_ignore_paper_tag (link : PaperTag) : M unit :=
  fun db =>
    if existsb (same_paper_tag link) (paper_tags db)
    then (db, Ok tt)
    else
      (mkDB (papers db) (authors db) (paper_authors db) (tags db)
         (paper_tags db ++ [link])
         (next_paper_id db) (next_author_id db) (next_tag_id db),
       Ok tt).

(** [DELETE FROM paper_tags WHERE paper_id = %s AND tag_id = %s] *)
Definition delete_paper_tag (link : PaperTag) : M unit :=
  fun db =>
    (mkDB (papers db) (authors db) (paper_authors db) (tags db)
       (filter (fun old => negb (same_paper_tag link old)) (paper_tags db))
       (next_paper_id db) (next_author_id db) (next_tag_id db),
     Ok tt).

(** The committed tables after the call, and the Boolean it returns. *)
Definition add_tag_to_paper (arxiv_id tag_name : string) (ty : tag_type)
  (description : option string) (db : DB) : DB * bool :=
  match select_paper db arxiv_id with
  | None => (db, false)
  | Some paper =>
      let body :=
        tag_id <- get_or_create_tag tag_name ty description ;;
        insert_ignore_paper_tag (mkPaperTag (p_id paper) tag_id) in
      match body db with
      | (db', Ok _) => (db', true)
      | (_, Raise _) => (db, false)
      end
  end.

Definition remove_tag_from_paper (arxiv_id tag_name : string) (ty : tag_type)
  (db : DB) : DB * bool :=
  match select_paper db arxiv_id, select_tag db tag_name ty with
  | Some paper, Some tag =>
      match delete_paper_tag (mkPaperTag (p_id paper) (t_id tag)) db with
      | (db', Ok _) => (db', true)
      | (_, Raise _) => (db, false)
      end
  | _, _ => (db, false)
  end.

End Store.

(** ** Definitions used to state the properties *)

(** The base form of an external ID, as the specification words it: the ID
    without its trailing version marker (the letter v followed by digits,
    at the very end), and nothing else removed. *)
Fixpoint drop_digits (s : string) : string :=
  match s with
  | String c s' => if is_digit c then drop_digits s' else s
  | "" => ""
  end.

Definition base_form_spec (arxiv_id : string) : string :=
  match str_rev arxiv_id with
  | String c back =>
      if is_digit c
      then match drop_digits back with
           | String "v" base => str_rev base
           | _ => arxiv_id
           end
      else arxiv_id
  | "" => arxiv_id
  end.

(** The escaping, as the specification words it, in one pass over the
    title: a maximal run of capitals is wrapped, once, when it has two
    letters or more or when the character before it is a lowercase letter,
    a hyphen or a slash.  [prev] is the character before the run, [run] the
    run read so far. *)
Definition protects (prev : option ascii) : bool :=
  match prev with
  | Some b => is_lower b || is_hyphen_or_slash b
  | None => false
  end.

Definition close_run (prev : option ascii) (run : string) : string :=
  match run with
  | "" => ""
  | _ => if (2 <=? String.length run)%nat || protects prev
         then protect_match run else run
  end.

Fixpoint protect_go (prev : option ascii) (run : string) (s : string) : string :=
  match s with
  | "" => close_run prev run
  | String c s' =>
      if is_upper c
      then protect_go prev (snoc run c) s'
      else close_run prev run ++ String c (protect_go (Some c) "" s')
  end.

Definition protect_spec (title : string) : string := protect_go None "" title.

Definition not_space (c : ascii) : bool := negb (isspace c).

(** [without keep s r]: [r] is [s] with the characters that are not in the
    class [keep] removed, and nothing else changed. *)
Inductive without (keep : ascii -> bool) : string -> string -> Prop :=
| without_end : without keep "" ""
| without_kept (c : ascii) (s r : string) :
    keep c = true -> without keep s r -> without keep (String c s) (String c r)
| without_removed (c : ascii) (s r : string) :
    keep c = false -> without keep s r -> without keep (String c s) r.

(** The two lines of an exported entry that carry the external ID *)
Definition eprint_lines (id : string) : string :=
  "Eprint = {" ++ id ++ "}," ++ newline
  ++ "  url = {https://arxiv.org/abs/" ++ id ++ "}," ++ newline.

(** The number that a text of decimal digits names *)
Definition number (s : string) : nat :=
  fold_left (fun n c => 10 * n + (code c - 48)) (list_ascii_of_string s) 0.

Definition digits (s : string) : bool := str_forallb is_digit s.

(** The texts that name the date [d] under ['%Y-%m-%d']: a year of four
    digits, a month of one or two digits and a day of one or two digits
    (or of a space and one digit), joined by hyphens, where the year is at
    least 1, the month is from 1 to 12 and the day is from 1 to the length
    of the month.  [2024-01-05], [2024-1-5] and [2024-01- 5] name the same
    date. *)
Definition day_text (s : string) (day : nat) : Prop :=
  ((String.length s = 1 \/ String.length s = 2)
   /\ digits s = true /\ number s = day)
  \/ (exists c, s = String " " (String c "")
                /\ is_digit c = true /\ number (String c "") = day).

Definition date_text (s : string) (d : date) : Prop :=
  exists y m dd,
    s = y ++ "-" ++ m ++ "-" ++ dd
    /\ (String.length y = 4 /\ digits y = true /\ number y = d_year d)
    /\ ((String.length m = 1 \/ String.length m = 2)
        /\ digits m = true /\ number m = d_month d)
    /\ day_text dd (d_day d)
    /\ 1 <= d_year d
    /\ 1 <= d_month d <= 12
    /\ 1 <= d_day d <= days_in_month (d_year d) (d_month d).

(** A name ends a piece of text when the text is empty or ends with a
    whitespace character: what follows starts a new token. *)
Definition token_boundary (pre : string) : Prop :=
  pre = "" \/ exists p c, pre = snoc p c /\ isspace c = true.

(** Rows of [papers] carrying an external ID *)
Definition rows_with (db : DB) (arxiv_id : string) : list PaperRow :=
  filter (fun p => String.eqb (p_arxiv_id p) arxiv_id) (papers db).

(** Paper-Author links of a paper *)
Definition links_of (db : DB) (paper_id : nat) : list PaperAuthor :=
  filter (fun pa => (pa_paper_id pa =? paper_id)%nat) (paper_authors db).

(** [enumerate(l, start)] *)
Fixpoint enumerate (A : Type) (start : nat) (l : list A) : list (nat * A) :=
  match l with
  | [] => []
  | x :: l' => (start, x) :: enumerate (S start) l'
  end.

Definition author_id_of (db : DB) (name : string) : nat :=
  match select_author db name with
  | Some a => a_id a
  | None => 0
  end.

(** The link that places the author called [name] at position [order] *)
Definition link_for (db : DB) (paper_id : nat) (entry : nat * string)
  : PaperAuthor :=
  mkPaperAuthor paper_id (author_id_of db (snd entry)) (fst entry).

(** Paper-Tag links between the papers carrying an external ID and the tags
    carrying a name and a type (the join of [get_paper_tags]) *)
Definition links_between (db : DB) (arxiv_id tag_name : string) (ty : tag_type)
  : list PaperTag :=
  filter
    (fun pt =>
       existsb (fun p => String.eqb (p_arxiv_id p) arxiv_id
                         && (p_id p =? pt_paper_id pt)%nat) (papers db)
       && existsb (fun t => String.eqb (t_name t) tag_name
                            && tag_type_eqb (t_tag_type t) ty
                            && (t_id t =? pt_tag_id pt)%nat) (tags db))
    (paper_tags db).

(** The constraints of the schema: primary keys, the unique keys on the
    external ID, on author names and on (tag name, tag type), no repeated
    Paper-Tag link, auto-increment counters above the ids in use, and links
    that point to rows of [papers]. *)
Record well_formed (db : DB) : Prop := mkWf {
  wf_paper_ids : NoDup (map p_id (papers db));
  wf_arxiv_ids : NoDup (map p_arxiv_id (papers db));
  wf_paper_next : Forall (fun p => p_id p < next_paper_id db) (papers db);
  wf_author_ids : NoDup (map a_id (authors db));
  wf_author_next : Forall (fun a => a_id a < next_author_id db) (authors db);
  wf_author_names : NoDup (map a_name (authors db));
  wf_links : Forall (fun pa => In (pa_paper_id pa) (map p_id (papers db)))
               (paper_authors db);
  wf_tag_keys : NoDup (map (fun t => (t_name t, t_tag_type t)) (tags db));
  wf_paper_tags : NoDup (paper_tags db)
}.

(** The records a feed delivers, and the failure that ends it, if any *)
Fixpoint records (f : feed) : list ArxivResult :=
  match f with
  | Yield paper rest => paper :: records rest
  | _ => []
  end.

Fixpoint failure (f : feed) : option exn :=
  match f with
  | Yield _ rest => failure rest
  | Done => None
  | Broken e => Some e
  end.

(** A feed that delivers [l] and goes on as [rest] *)
Definition deliver (l : list ArxivResult) (rest : feed) : feed :=
  fold_right Yield rest l.

Section StoreStatements.

Variable accepts_paper : PaperRow -> bool.
Variable accepts_author : string -> bool.
Variable duplicate_link : PaperAuthor -> PaperAuthor -> bool.

Let upsert := insert_or_update_paper accepts_paper accepts_author duplicate_link.

(** The tables after the statements of the upserts of [l] have run, one
    record after the other, whether an upsert returned or raised *)
Definition run_all (l : list ArxivResult) (db : DB) : DB :=
  fold_left (fun db paper => fst (upsert paper db)) l db.

(** The tables after the upserts of [l] if every upsert that raises left
    no trace *)
Definition run_atomically (l : list ArxivResult) (db : DB) : DB :=
  fold_left
    (fun db paper =>
       match upsert paper db with
       | (db', Ok _) => db'
       | (_, Raise _) => db
       end)
    l db.

(** How many upserts of [l] raise *)
Fixpoint count_errors (l : list ArxivResult) (db : DB) : nat :=
  match l with
  | [] => 0
  | paper :: rest =>
      match upsert paper db with
      | (db', Ok _) => count_errors rest db'
      | (db', Raise _) => S (count_errors rest db')
      end
  end.

(** What a batch mode that reads at most [cap] records does with what
    the API sends: when the listing ends, one commit of the tables that
    all the upserts left, and the two counters; when the transfer fails,
    one rollback to the tables the batch started from, and the
    exception. *)
Definition batch_outcome (cap : nat)
  (run : feed -> DB -> Conn * result (nat * nat)) (matching : feed) (db : DB)
  : Prop :=
  let read := records (results cap matching) in
  (failure (results cap matching) = None ->
   exists count errors,
     run matching db
     = (mkConn (run_all read db) (run_all read db) [Commit], Ok (count, errors))
     /\ errors = count_errors read db
     /\ count + errors = List.length read)
  /\ (forall e,
         failure (results cap matching) = Some e ->
         run matching db = (mkConn db db [Rollback], Raise e)).

(** A unique key of [paper_authors] is made of the paper and of the
    author or the position. *)
Definition key_within_paper : Prop :=
  forall a b,
    duplicate_link a b = true ->
    pa_paper_id a = pa_paper_id b
    /\ (pa_author_id a = pa_author_id b
        \/ pa_author_order a = pa_author_order b).

(** The uniqueness the specification words: the positions of a paper are
    unique.  Two links are duplicates only if they place an author at the
    same position of the same paper; a table without a unique key, and a
    table with the key (paper_id, author_order), are of this kind. *)
Definition position_key : Prop :=
  forall a b,
    duplicate_link a b = true ->
    pa_paper_id a = pa_paper_id b /\ pa_author_order a = pa_author_order b.

End StoreStatements.

(** Instances of the schema's choices, for examples: columns that accept
    every value, a name column of 255 characters, and on [paper_authors]
    the unique key (paper_id, author_order) of the specification: the
    positions of a paper are unique. *)
Definition any_paper (_ : PaperRow) : bool := true.
Definition any_author (_ : string) : bool := true.
Definition any_tag (_ : string) (_ : tag_type) (_ : option string) : bool := true.
Definition varchar (n : nat) (s : string) : bool := (String.length s <=? n)%nat.
Definition paper_author_key (a b : PaperAuthor) : bool :=
  ((pa_paper_id a =? pa_paper_id b)
   && (pa_author_order a =? pa_author_order b))%nat.

Fixpoint replicate (n : nat) (c : ascii) : string :=
  match n with
  | O => ""
  | S k => String c (replicate k c)
  end.

Definition example_paper (id : string) (names : list string) : ArxivResult :=
  mkResult ("http://arxiv.org/abs/" ++ id) "Example Paper" "An abstract."
    (mkDate 2024 1 15) (Some (mkDate 2024 1 15)) None None None "math.CO" names.

(** Primary key, counter and unique key of [authors] *)
Definition authors_ok (db : DB) : Prop :=
  NoDup (map a_id (authors db))
  /\ Forall (fun a => a_id a < next_author_id db) (authors db)
  /\ NoDup (map a_name (authors db)).

(** [INSERT IGNORE] of the rows of [new], one after the other, into a
    table whose duplicates are told by [dup] *)
Fixpoint insert_all (dup : PaperAuthor -> PaperAuthor -> bool)
  (links new : list PaperAuthor) : list PaperAuthor :=
  match new with
  | [] => links
  | link :: rest =>
      insert_all dup
        (if existsb (fun old => dup old link) links
         then links else (links ++ [link])%list)
        rest
  end.

(** No stored link of the paper stands in the way of the links that the
    loop is about to insert from position [order] on. *)
Definition no_clash (paper_id order : nat) (names : list string) (db : DB) : Prop :=
  forall pa,
    In pa (paper_authors db) ->
    pa_paper_id pa = paper_id ->
    pa_author_order pa < order
    /\ pa_author_id pa < next_author_id db
    /\ (forall n a, In n names -> select_author db n = Some a ->
                    a_id a <> pa_author_id pa).

(** The row that [UPDATE papers ... WHERE id = paper_id] writes *)
Definition rewritten (paper_id : nat) (paper : ArxivResult) (p : PaperRow) : PaperRow :=
  if (p_id p =? paper_id)%nat then row_of paper_id (p_arxiv_id p) paper else p.

Definition one_paper_one_tag : DB :=
  mkDB
    [mkPaper 1 "2401.12345v1" "Example Paper" "An abstract." (mkDate 2024 1 15)
       None None None None "math.CO"]
    [] [] [mkTag 1 "symmetric-functions" personal None] [] 2 1 2.

Definition doe_and_roe : ArxivResult :=
  example_paper "2401.12345v1" ["Jane A. Doe"; "John Roe"].

Definition after_doe_and_roe : DB :=
  fst (insert_or_update_paper any_paper any_author paper_author_key
         doe_and_roe empty_db).

(** Two authors of one paper who bear the same name, and the record of
    the same paper with another author list *)
Definition two_wangs : ArxivResult :=
  example_paper "2401.54321v1" ["Wei Wang"; "Wei Wang"].



(** A batch of two records; the second has an author name of 256
    characters, which a name column of 255 characters refuses. *)
Definition long_name : string := replicate 256 "a".

Definition good_record : ArxivResult :=
  example_paper "2401.00001v1" ["Jane A. Doe"].

Definition bad_record : ArxivResult :=
  example_paper "2401.00002v1" ["John Roe"; long_name].

Definition two_records : feed := Yield good_record (Yield bad_record Done).

Definition broken_feed : feed := Yield good_record (Broken HTTPError).

From Stdlib Require Import Sorted Permutation.

(** ** The rest of the programs *)

(** *** Single-ID fetch and the command line ([fetch_arxiv.py]) *)

Section SingleFetch.

Variable accepts_paper : PaperRow -> bool.
Variable accepts_author : string -> bool.
Variable duplicate_link : PaperAuthor -> PaperAuthor -> bool.

(** [fetch_by_arxiv_id]: [next(client.results(search))] takes the first
    record of what the API sends for the ID; [StopIteration] is caught
    apart from the other exceptions, with neither commit nor rollback. *)
Definition fetch_by_arxiv_id (matching : feed) (db : DB) : Conn * result unit :=
  let conn := get_db_connection db in
  match matching with
  | Done => (conn, Ok tt)
  | Broken e => (rollback conn, Raise e)
  | Yield paper _ =>
      match insert_or_update_paper accepts_paper accepts_author duplicate_link
              paper (session conn) with
      | (db', Ok _) =>
          (commit (mkConn (committed conn) db' (history conn)), Ok tt)
      | (db', Raise e) =>
          (rollback (mkConn (committed conn) db' (history conn)), Raise e)
      end
  end.

(** The arguments, as [argparse] hands them over when it accepts the
    command line: the three modes are mutually exclusive and one of them
    is required; [--days] is an integer, 2 when it is not given. *)
Record Args : Type := mkArgs {
  arg_recent : bool;
  arg_backfill : bool;
  arg_arxiv_id : option string;
  arg_days : Z;
  arg_start_date : option string;
  arg_end_date : option string
}.

(** What [parser.parse_args()] does with a command line: it returns the
    arguments, or prints the help and leaves with status 0 ([-h]), or
    prints the usage and leaves with status 2 (no mode or two modes, an
    option it does not know, a value of [--days] that is not an integer).
    The call stands before the [try] of [main]. *)
Inductive command_line : Type :=
| parsed (args : Args)
| help
| usage_error.

(** [datetime.now() - timedelta(days=days)] in [fetch_recent_papers]:
    [today] is the ordinal of the current day (1 is 0001-01-01, 3652059 is
    9999-12-31).  [timedelta] takes at most 999999999 days either way, and
    the day that the subtraction gives must exist; otherwise
    [OverflowError] is raised ([None]), before a connection is opened. *)
Definition max_ordinal : Z := 3652059.

Definition window_start (today days : Z) : option Z :=
  if ((Z.abs days <=? 999999999)
      && (1 <=? today - days) && (today - days <=? max_ordinal))%Z
  then Some (today - days)%Z
  else None.

(** [main]: the connection as it is closed and the exit status of the
    process.  [matching] is what the API sends for the query of the run.
    Every exception that a mode raises is caught and turned into status
    1; [sys.exit(1)] for a backfill without its two dates passes through
    the handler, since [SystemExit] is not an [Exception]. *)
Definition main (cmd : command_line) (today : Z) (matching : feed) (db : DB)
  : Conn * nat :=
  match cmd with
  | usage_error => (get_db_connection db, 2)
  | help => (get_db_connection db, 0)
  | parsed args =>
      if arg_recent args
      then
        match window_start today (arg_days args) with
        | None => (get_db_connection db, 1)
        | Some _ =>
            match fetch_recent_papers accepts_paper accepts_author
                    duplicate_link matching db with
            | (conn, Ok _) => (conn, 0)
            | (conn, Raise _) => (conn, 1)
            end
        end
      else if arg_backfill args
      then
        match truthy (arg_start_date args), truthy (arg_end_date args) with
        | Some start_date, Some end_date =>
            match fetch_date_range accepts_paper accepts_author duplicate_link
                    start_date end_date matching db with
            | (conn, Ok _) => (conn, 0)
            | (conn, Raise _) => (conn, 1)
            end
        | _, _ => (get_db_connection db, 1)
        end
      else
        match truthy (arg_arxiv_id args) with
        | Some _ =>
            match fetch_by_arxiv_id matching db with
            | (conn, Ok _) => (conn, 0)
            | (conn, Raise _) => (conn, 1)
            end
        | None => (get_db_connection db, 0)
        end
  end.

End SingleFetch.

(** The dates of a command line are ASCII text: the text for which
    [strptime] is modelled. *)
Definition ascii_dates (cmd : command_line) : bool :=
  match cmd with
  | parsed args =>
      match arg_start_date args with Some s => isascii s | None => true end
      && match arg_end_date args with Some s => isascii s | None => true end
  | _ => true
  end.

(** An old-style external ID, with its slash *)
Definition old_style_record : ArxivResult :=
  example_paper "math/0601001v2" ["Jane A. Doe"].

Definition after_old_style_record : DB :=
  fst (insert_or_update_paper any_paper any_author paper_author_key
         old_style_record empty_db).

(** *** Tag queries ([tags_helper.py]) *)

(** [papers p JOIN paper_tags pt ON p.id = pt.paper_id
     JOIN tags t ON pt.tag_id = t.id]: the rows of the join, as triples *)
Definition tag_join (db : DB) : list (PaperRow * PaperTag * TagRow) :=
  flat_map
    (fun p =>
       flat_map
         (fun pt =>
            if (p_id p =? pt_paper_id pt)%nat
            then map (fun t => (p, pt, t))
                   (filter (fun t => (t_id t =? pt_tag_id pt)%nat) (tags db))
            else [])
         (paper_tags db))
    (papers db).

(** [LIMIT limit]; the store refuses a negative limit. *)
Definition sql_limit (A : Type) (limit : Z) (rows : list A) : result (list A) :=
  if (limit <? 0)%Z
  then Raise ProgrammingError
  else Ok (firstn (Z.to_nat limit) rows).

(** [ORDER BY p.published_date DESC] *)
Definition by_date_desc (a b : PaperRow) : bool :=
  date_leb (p_published_date b) (p_published_date a).

Section TagQueries.

(** The orders of [ORDER BY t.tag_type, t.name] and [ORDER BY t.name]:
    they follow the column types and the collation of the store. *)
Variable by_type_then_name : TagRow -> TagRow -> bool.
Variable by_name : TagRow -> TagRow -> bool.

(** [get_paper_tags]: name, type and description of the tags of a paper *)
Definition get_paper_tags (arxiv_id : string) (db : DB)
  : list (string * tag_type * option string) :=
  let rows :=
    filter (fun row => String.eqb (p_arxiv_id (fst (fst row))) arxiv_id)
      (tag_join db) in
  map (fun t => (t_name t, t_tag_type t, t_description t))
    (order_by by_type_then_name (map snd rows)).

(** [search_by_tag]: [tag_type] is [None] when the caller gives no type
    (or an empty one); external ID, title and date of the papers *)
Definition search_by_tag (tag_name : string) (ty : option tag_type) (limit : Z)
  (db : DB) : result (list (string * string * date)) :=
  let wanted (t : TagRow) :=
    String.eqb (t_name t) tag_name
    && match ty with
       | Some ty => tag_type_eqb (t_tag_type t) ty
       | None => true
       end in
  let rows := filter (fun row => wanted (snd row)) (tag_join db) in
  match sql_limit limit (order_by by_date_desc (map (fun row => fst (fst row)) rows)) with
  | Raise e => Raise e
  | Ok shown =>
      Ok (map (fun p => (p_arxiv_id p, p_title p, p_published_date p)) shown)
  end.

(** [get_all_tags]: every tag (of the type, when one is given) with the
    number of its Paper-Tag links; [LEFT JOIN] keeps the tags without
    links, with count 0.  [GROUP BY t.id] groups by the primary key of
    [tags]: every row of [tags] is a group of its own. *)
Definition get_all_tags (ty : option tag_type) (db : DB) : list (TagRow * nat) :=
  let counted (t : TagRow) :=
    (t, List.length
          (filter (fun pt => (pt_tag_id pt =? t_id t)%nat) (paper_tags db))) in
  match ty with
  | Some ty =>
      map counted
        (order_by by_name
           (filter (fun t => tag_type_eqb (t_tag_type t) ty) (tags db)))
  | None => map counted (order_by by_type_then_name (tags db))
  end.

End TagQueries.

(** ** More definitions used to state properties *)

(** [sep in s] *)
Fixpoint occurs (sep s : string) : bool :=
  match s with
  | "" => String.prefix sep ""
  | String _ s' => String.prefix sep s || occurs sep s'
  end.

(** The committed tables meet the constraints of the schema. *)
Definition keeps_schema (conn : Conn) : Prop := well_formed (committed conn).

(** Split a conjunction into its parts, and nothing else. *)
Ltac conjs := repeat match goal with |- _ /\ _ => split end.

(** The characters that [protect_match] adds, and a text without them *)
Definition is_brace (c : ascii) : bool :=
  (Ascii.eqb c "{" || Ascii.eqb c "}")%char.

Definition without_braces (s : string) : string :=
  str_filter (fun c => negb (is_brace c)) s.

(** A record whose only author has a name of one space *)
Definition blank_author : ArxivResult := example_paper "2401.00003v1" [" "].

Definition after_blank_author : DB :=
  fst (insert_or_update_paper any_paper any_author paper_author_key
         blank_author empty_db).

(** ** Reading a paged view page by page *)

(** The papers that a response lists, and the number of pages it reports *)
Definition papers_shown (r : result response) : list paper_view :=
  match r with
  | Ok (render_index papers _ _ _ _ _) => papers
  | Ok (render_author _ papers _ _ _ _) => papers
  | Ok (render_search papers _ _ _ _) => papers
  | Ok (render_date _ papers) => papers
  | _ => []
  end.

Definition pages_reported (r : result response) : Z :=
  match r with
  | Ok (render_index _ _ total_pages _ _ _) => total_pages
  | Ok (render_author _ _ _ total_pages _ _) => total_pages
  | Ok (render_search _ _ (Some (_, total_pages)) _ _) => total_pages
  | _ => 0
  end.

(** What a reader sees who asks for page 1 and then for every page up to
    the number of pages that page 1 reports *)
Definition all_pages (view : Z -> result response) : list paper_view :=
  flat_map (fun k => papers_shown (view (Z.of_nat k)))
    (seq 1 (Z.to_nat (pages_reported (view 1%Z)))).

(** ** The calendar view ([browse_by_date] in [app.py]) *)

(** [datetime.date(year, month, day)]: the date must exist, in a year from
    1 to 9999, or the constructor raises [ValueError].  (For a year that
    does not fit a C [int] it raises [OverflowError] instead; the
    properties of the view keep to years that fit.) *)
Definition make_date (year : Z) (month day : nat) : result date :=
  if ((1 <=? year) && (year <=? 9999))%Z
     && ((1 <=? month) && (month <=? 12))%nat
     && ((1 <=? day) && (day <=? days_in_month (Z.to_nat year) month))%nat
  then Ok (mkDate (Z.to_nat year) month day)
  else Raise ValueError.

(** [date.toordinal()] and [date.weekday()]: Monday is 0. *)
Definition days_before_year (year : Z) : Z :=
  let y := (year - 1)%Z in
  (y * 365 + y / 4 - y / 100 + y / 400)%Z.

Definition days_before_month (y m : nat) : nat :=
  list_sum (map (days_in_month y) (seq 1 (m - 1))).

Definition toordinal (y m d : nat) : Z :=
  (days_before_year (Z.of_nat y) + Z.of_nat (days_before_month y m)
   + Z.of_nat d)%Z.

Definition weekday (y m d : nat) : nat :=
  Z.to_nat ((toordinal y m d + 6) mod 7).

(** The year that [calendar.weekday] uses: a year outside 1..9999 is
    replaced by [2000 + year % 400], which has the same week days and the
    same leap years. *)
Definition calendar_year (year : Z) : nat :=
  if ((1 <=? year) && (year <=? 9999))%Z
  then Z.to_nat year
  else Z.to_nat (2000 + year mod 400).

(** [calendar.Calendar(firstweekday=0).itermonthdays(year, month)]: zeros
    for the days of the first week before the month, the days of the
    month, zeros to the end of the last week. *)
Definition itermonthdays (year : Z) (month : nat) : list nat :=
  let y := calendar_year year in
  let day1 := weekday y month 1 in
  let ndays := days_in_month y month in
  let days_before := day1 in
  let days_after := (7 - (day1 + ndays) mod 7) mod 7 in
  (repeat 0 days_before ++ seq 1 ndays ++ repeat 0 days_after)%list.

(** [calendar.monthcalendar(year, month)]:
    [[days[i:i+7] for i in range(0, len(days), 7)]] *)
Definition monthcalendar (year : Z) (month : nat) : list (list nat) :=
  let days := itermonthdays year month in
  map (fun k => firstn 7 (skipn (7 * k) days))
    (seq 0 ((List.length days + 6) / 7)).

(** [GROUP BY] with [COUNT( * )]: one entry for each value, with the
    number of rows that have it *)
Fixpoint count_into (A : Type) (eqb : A -> A -> bool) (x : A)
  (groups : list (A * nat)) : list (A * nat) :=
  match groups with
  | [] => [(x, 1)]
  | (y, n) :: rest =>
      if eqb x y then (y, S n) :: rest else (y, n) :: count_into eqb x rest
  end.

Definition group_count (A : Type) (eqb : A -> A -> bool) (l : list A)
  : list (A * nat) :=
  fold_right (count_into eqb) [] l.

(** [SELECT DATE(published_date) as date, COUNT( * ) as count FROM papers
     WHERE YEAR(published_date) = %s GROUP BY DATE(published_date)], as the
    dictionary [date_counts] *)
Definition date_counts (db : DB) (year : Z) : list (date * nat) :=
  group_count date_eqb
    (map p_published_date
       (filter (fun p => (Z.of_nat (d_year (p_published_date p)) =? year)%Z)
          (papers db))).

(** [date_counts.get(key, default)] *)
Definition dict_get (d : list (date * nat)) (key : date) (default : nat) : nat :=
  match find (fun entry => date_eqb (fst entry) key) d with
  | Some (_, count) => count
  | None => default
  end.

(** [SELECT YEAR(published_date) as year, COUNT( * ) as count FROM papers
     GROUP BY YEAR(published_date) ORDER BY year DESC] *)
Definition available_years (db : DB) : list (nat * nat) :=
  order_by (fun a b => (fst b <=? fst a)%nat)
    (group_count Nat.eqb (map (fun p => d_year (p_published_date p)) (papers db))).

(** The format specifications [04d] and [02d]: the decimal digits of the
    number, with zeros in front up to the width (the sign counts in the
    width); a number with more digits is written in full. *)
Definition digit_char (d : Z) : ascii := ascii_of_nat (48 + Z.to_nat d).

Definition format_04d (n : Z) : string :=
  if (n <? 0)%Z
  then
    "-" ++ (if (- n <? 1000)%Z
            then String (digit_char (- n / 100))
                   (String (digit_char (- n / 10 mod 10))
                      (String (digit_char (- n mod 10)) ""))
            else str_of_nat (Z.to_nat (- n)))
  else if (n <? 10000)%Z
  then String (digit_char (n / 1000))
         (String (digit_char (n / 100 mod 10))
            (String (digit_char (n / 10 mod 10))
               (String (digit_char (n mod 10)) "")))
  else str_of_nat (Z.to_nat n).

Definition format_02d (n : nat) : string :=
  if (n <? 100)%nat
  then String (digit_char (Z.of_nat n / 10))
         (String (digit_char (Z.of_nat n mod 10)) "")
  else str_of_nat n.

(** [f"{year:04d}-{month:02d}-{day:02d}"] *)
Definition date_str_of (year : Z) (month day : nat) : string :=
  format_04d year ++ "-" ++ format_02d month ++ "-" ++ format_02d day.

Record DayCell : Type := mkCell {
  cell_day : nat;
  cell_count : nat;
  cell_date_str : option string
}.

Record BrowsePage : Type := mkBrowse {
  b_year : Z;
  b_month_data : list (string * list DayCell);
  b_available_years : list (nat * nat)
}.

Definition month_names : list string :=
  [""; "January"; "February"; "March"; "April"; "May"; "June";
   "July"; "August"; "September"; "October"; "November"; "December"].

(** A loop whose body may raise: the first exception ends it. *)
Fixpoint for_each (A B : Type) (body : A -> result B) (l : list A)
  : result (list B) :=
  match l with
  | [] => Ok []
  | x :: l' =>
      match body x with
      | Raise e => Raise e
      | Ok y =>
          match for_each body l' with
          | Raise e => Raise e
          | Ok ys => Ok (y :: ys)
          end
      end
  end.

(** The body of [for day in week] *)
Definition day_cell (counts : list (date * nat)) (year : Z) (month day : nat)
  : result DayCell :=
  if (day =? 0)%nat
  then Ok (mkCell 0 0 None)
  else
    match make_date year month day with
    | Raise e => Raise e
    | Ok date_obj =>
        Ok (mkCell day (dict_get counts date_obj 0)
              (Some (date_str_of year month day)))
    end.

(** The body of [for month in range(1, 13)] *)
Definition month_entry (counts : list (date * nat)) (year : Z) (month : nat)
  : result (string * list DayCell) :=
  let cal := monthcalendar year month in
  match for_each (day_cell counts year month) (List.concat cal) with
  | Raise e => Raise e
  | Ok days => Ok (nth month month_names "", days)
  end.

Definition browse_by_date (db : DB) (year : Z) : result BrowsePage :=
  let counts := date_counts db year in
  match for_each (month_entry counts year) (seq 1 12) with
  | Raise e => Raise e
  | Ok month_data => Ok (mkBrowse year month_data (available_years db))
  end.

(** The cells of a month of the page, and the papers of a date page *)
Definition cells_of (page : BrowsePage) (month : nat) : list DayCell :=
  snd (nth (month - 1) (b_month_data page) ("", [])).

(** A date that [datetime.date] and a [DATE] column can hold *)
Definition real_date (d : date) : bool :=
  match make_date (Z.of_nat (d_year d)) (d_month d) (d_day d) with
  | Ok _ => true
  | Raise _ => false
  end.

(** The cell that the view gives to an entry of the month calendar, when
    the year is one of [datetime.date] *)
Definition cell_for (counts : list (date * nat)) (year : Z) (month day : nat)
  : DayCell :=
  if (day =? 0)%nat
  then mkCell 0 0 None
  else mkCell day (dict_get counts (mkDate (Z.to_nat year) month day) 0)
         (Some (date_str_of year month day)).

(** The number of papers published on a date *)
Definition published_on (db : DB) (d : date) : nat :=
  List.length (filter (fun p => date_eqb (p_published_date p) d) (papers db)).

(** The page of the year 2024, for a catalogue with one paper of
    2024-01-15 *)
Definition page_2024 : BrowsePage :=
  mkBrowse 2024
    (map (fun month =>
            (nth month month_names "",
             map (cell_for (date_counts after_doe_and_roe 2024) 2024 month)
               (itermonthdays 2024 month)))
       (seq 1 12))
    (available_years after_doe_and_roe).

(** The latest date that a response reports *)
Definition latest_shown (r : result response) : option date :=
  match r with
  | Ok (render_index _ _ _ _ _ latest_date) => latest_date
  | Ok (render_author _ _ _ _ _ latest_date) => latest_date
  | Ok (render_search _ _ _ _ latest_date) => latest_date
  | _ => None
  end.

Ltac fields :=
  cbn [papers authors paper_authors tags paper_tags
       next_paper_id next_author_id next_tag_id] in *.

Ltac concrete_wf :=
  constructor; simpl;
  repeat match goal with
         | |- NoDup [] => constructor
         | |- NoDup (_ :: _) => constructor
         | |- Forall _ [] => constructor
         | |- Forall _ (_ :: _) => constructor
         | |- ~ _ => simpl; intuition (try discriminate; try lia)
         | |- _ < _ => simpl; lia
         | |- In _ _ => simpl; auto
         end.

(** * Properties *)

Unset Implicit Arguments.

(** ** Strings *)

Lemma append_nil_r (s : string) : s ++ "" = s.
Proof. induction s as [|c s IH]; simpl; [reflexivity | now rewrite IH]. Qed.

Lemma append_assoc (a b c : string) : (a ++ b) ++ c = a ++ (b ++ c).
Proof. induction a as [|x a IH]; simpl; [reflexivity | now rewrite IH]. Qed.

Lemma snoc_append (cur : string) (c : ascii) (s : string) :
  snoc cur c ++ s = cur ++ String c s.
Proof. unfold snoc. now rewrite append_assoc. Qed.

Lemma append_not_empty_r (a b : string) : b <> "" -> a ++ b <> "".
Proof. destruct a; simpl; [auto | discriminate]. Qed.

(** ** Whitespace splitting *)

Lemma split_ws_go_spaces (post : string) :
  str_forallb isspace post = true -> split_ws_go "" post = [].
Proof.
  induction post as [|c post IH]; simpl; [reflexivity|].
  intros H. apply andb_true_iff in H as [Hc Hpost].
  rewrite Hc. auto.
Qed.

Lemma split_ws_go_flush (cur post : string) :
  cur <> "" -> str_forallb isspace post = true -> split_ws_go cur post = [cur].
Proof.
  intros Hcur. destruct post as [|c post]; simpl.
  - destruct cur; [contradiction | reflexivity].
  - intros H. apply andb_true_iff in H as [Hc Hpost]. rewrite Hc.
    rewrite (split_ws_go_spaces _ Hpost).
    destruct cur; [contradiction | reflexivity].
Qed.

Lemma split_ws_go_token (tok : string) :
  forall cur post,
    str_forallb not_space tok = true ->
    str_forallb isspace post = true ->
    cur ++ tok <> "" ->
    split_ws_go cur (tok ++ post) = [cur ++ tok].
Proof.
  induction tok as [|c tok IH]; intros cur post Htok Hpost Hne; simpl.
  - rewrite append_nil_r in *. now apply split_ws_go_flush.
  - simpl in Htok. apply andb_true_iff in Htok as [Hc Htok].
    unfold not_space in Hc. apply negb_true_iff in Hc. rewrite Hc.
    rewrite IH; auto.
    + now rewrite snoc_append.
    + rewrite snoc_append. apply append_not_empty_r. discriminate.
Qed.

Lemma last_item_cons (A : Type) (x : A) (l : list A) (y : A) :
  last_item l = Ok y -> last_item (x :: l) = Ok y.
Proof. destruct l; simpl; [discriminate | auto]. Qed.

Lemma split_ws_go_after_space (p : string) :
  forall cur c rest t,
    isspace c = true ->
    last_item (split_ws_go "" rest) = Ok t ->
    last_item (split_ws_go cur (snoc p c ++ rest)) = Ok t.
Proof.
  induction p as [|d p IH]; intros cur c rest t Hc Hlast.
  - simpl. rewrite Hc. destruct cur; [assumption | now apply last_item_cons].
  - change (snoc (String d p) c ++ rest) with (String d (snoc p c ++ rest)).
    simpl. destruct (isspace d).
    + destruct cur; [now apply IH | apply last_item_cons; now apply IH].
    + now apply IH.
Qed.

Lemma split_ws_last_token (pre tok post : string) :
  token_boundary pre ->
  tok <> "" ->
  str_forallb not_space tok = true ->
  str_forallb isspace post = true ->
  last_item (split_ws (pre ++ tok ++ post)) = Ok tok.
Proof.
  intros Hpre Hne Htok Hpost.
  assert (Hone : last_item (split_ws_go "" (tok ++ post)) = Ok tok).
  { rewrite split_ws_go_token; auto. }
  destruct Hpre as [-> | (p & c & -> & Hc)].
  - exact Hone.
  - unfold split_ws. now apply split_ws_go_after_space.
Qed.

(** ** Citation export *)

Lemma upper_not_lower (c : ascii) : is_upper c = true -> is_lower c = false.
Proof.
  unfold is_upper, is_lower, between. intros H.
  apply andb_true_iff in H as [_ H]. apply Nat.leb_le in H.
  apply andb_false_iff. left. apply Nat.leb_gt. lia.
Qed.

Lemma upper_not_hyphen_or_slash (c : ascii) :
  is_upper c = true -> is_hyphen_or_slash c = false.
Proof.
  unfold is_hyphen_or_slash. intros H.
  destruct (Ascii.eqb c "-"%char) eqn:E1; [apply Ascii.eqb_eq in E1; now subst|].
  destruct (Ascii.eqb c "/"%char) eqn:E2; [apply Ascii.eqb_eq in E2; now subst|].
  reflexivity.
Qed.

(** A look-behind substitution passes over a character that is no capital
    and goes on from it. *)
Lemma sub_after_app (p : ascii -> bool) (a : string) :
  forall prev c rest,
    is_upper c = false ->
    sub_after p prev (a ++ String c rest)
    = sub_after p prev a ++ String c (sub_after p (Some c) rest).
Proof.
  induction a as [|x a IH]; intros prev c rest Hc.
  - cbn [append sub_after]. now rewrite Hc.
  - cbn [append sub_after]. rewrite IH by exact Hc. now rewrite append_assoc.
Qed.

(** It leaves a run of capitals alone when the character before the run
    does not trigger it. *)
Lemma sub_after_run (p : ascii -> bool) (run : string) :
  (forall c, is_upper c = true -> p c = false) ->
  str_forallb is_upper run = true ->
  forall b, p b = false -> sub_after p (Some b) run = run.
Proof.
  intros Hp. induction run as [|c run IH]; intros Hrun b Hb; [reflexivity|].
  cbn [str_forallb] in Hrun. apply andb_true_iff in Hrun as [Hc Hrun].
  cbn [sub_after]. rewrite Hb, andb_false_r. cbn [append].
  now rewrite IH by auto.
Qed.

Lemma sub_after_wrapped (p : ascii -> bool) (prev : option ascii) (run : string) :
  (forall c, is_upper c = true -> p c = false) ->
  p "{"%char = false ->
  str_forallb is_upper run = true ->
  sub_after p prev (protect_match run) = protect_match run.
Proof.
  intros Hp Hbrace Hrun. unfold protect_match.
  change ("{" ++ run ++ "}") with (String "{" (run ++ String "}" "")).
  cbn [sub_after]. replace (is_upper "{"%char) with false by reflexivity.
  cbn [andb append]. f_equal.
  rewrite sub_after_app by reflexivity.
  now rewrite sub_after_run.
Qed.

(** The three substitutions on a run of capitals that has ended *)
Lemma layered_on_run (prev : option ascii) (run : string) :
  str_forallb is_upper run = true ->
  sub_after is_hyphen_or_slash prev (sub_after is_lower prev (flush_run run))
  = close_run prev run.
Proof.
  intros Hrun. destruct run as [|c [|d run]].
  - reflexivity.
  - (* one capital *)
    cbn [str_forallb] in Hrun. apply andb_true_iff in Hrun as [Hc _].
    assert (Hone : str_forallb is_upper (String c "") = true)
      by (cbn [str_forallb]; now rewrite Hc).
    unfold flush_run, close_run. cbn [String.length Nat.leb orb].
    cbn [sub_after]. rewrite append_nil_r, Hc. cbn [andb].
    destruct prev as [b|]; cbn [protects].
    + destruct (is_lower b) eqn:Hl; cbn [orb].
      * rewrite sub_after_wrapped; auto. apply upper_not_hyphen_or_slash.
      * cbn [sub_after]. rewrite append_nil_r, Hc. cbn [andb].
        now destruct (is_hyphen_or_slash b).
    + cbn [sub_after]. now rewrite append_nil_r, Hc.
  - (* two capitals or more *)
    unfold flush_run, close_run. cbn [String.length Nat.leb orb].
    rewrite !sub_after_wrapped; auto.
    + apply upper_not_hyphen_or_slash.
    + apply upper_not_lower.
Qed.

Lemma str_forallb_snoc (p : ascii -> bool) (s : string) (c : ascii) :
  str_forallb p s = true -> p c = true -> str_forallb p (snoc s c) = true.
Proof.
  induction s as [|x s IH]; simpl; intros Hs Hc; [now rewrite Hc|].
  apply andb_true_iff in Hs as [Hx Hs]. rewrite Hx. simpl. auto.
Qed.

Lemma layered_is_one_pass (s : string) :
  forall prev run,
    str_forallb is_upper run = true ->
    sub_after is_hyphen_or_slash prev (sub_after is_lower prev (sub_runs run s))
    = protect_go prev run s.
Proof.
  induction s as [|c s IH]; intros prev run Hrun.
  - cbn [sub_runs protect_go]. now apply layered_on_run.
  - cbn [sub_runs protect_go]. destruct (is_upper c) eqn:Hc.
    + apply IH. now apply str_forallb_snoc.
    + rewrite sub_after_app by exact Hc.
      rewrite sub_after_app by exact Hc.
      rewrite layered_on_run by exact Hrun.
      now rewrite IH.
Qed.

(** The three layered substitutions wrap the maximal runs of capitals that
    have two letters or more or that follow a lowercase letter, a hyphen or
    a slash, each once, and change nothing else. *)
Lemma protect_capitals_layers (title : string) :
  protect_capitals_for_bibtex title = protect_spec title.
Proof.
  unfold protect_capitals_for_bibtex, protect_spec.
  now apply layered_is_one_pass.
Qed.

(** C5.  The citation-export escaping leaves a capital that starts a word
    after a space untouched: on the title of the function's own docstring
    it returns [{RNA}-{B}inding Proteins], not the
    [{RNA}-{B}inding {P}roteins] that the docstring and the specification
    give. *)
Theorem protect_capitals_docstring_example :
  protect_capitals_for_bibtex "RNA-Binding Proteins" = "{RNA}-{B}inding Proteins"
  /\ protect_capitals_for_bibtex "RNA-Binding Proteins"
     <> "{RNA}-{B}inding {P}roteins".
Proof. split; [reflexivity | discriminate]. Qed.

Lemma str_filter_without (keep : ascii -> bool) (s : string) :
  without keep s (str_filter keep s).
Proof.
  induction s as [|c s IH]; simpl; [constructor|].
  destruct (keep c) eqn:E; now constructor.
Qed.

Lemma without_kept_class (keep : ascii -> bool) (s r : string) :
  without keep s r -> str_forallb keep r = true.
Proof.
  induction 1 as [|c s r Hc _ IH|c s r _ _ IH]; simpl; [reflexivity| |exact IH].
  now rewrite Hc, IH.
Qed.

(** C6.  For a first author whose name is ASCII text and ends with a
    token [tok] (text without whitespace, at the start of the name or
    after a whitespace character, followed by whitespace only), the
    citation key is [tok] with its non-alphanumeric characters removed,
    followed by the year and the letter x: "Jane A. Doe" and 2024 give
    [Doe2024x], "Conor O'Brien-Smith" gives [OBrienSmith2024x].  With no
    author the key is [arxiv], the year and x. *)
Theorem bibtex_key_surname_year :
  (forall pre tok post rest year,
      isascii (pre ++ tok ++ post) = true ->
      token_boundary pre ->
      tok <> "" ->
      str_forallb not_space tok = true ->
      str_forallb isspace post = true ->
      exists surname,
        without isalnum tok surname
        /\ str_forallb isalnum surname = true
        /\ bibtex_key ((pre ++ tok ++ post) :: rest) year
           = Ok (surname ++ str_of_nat year ++ "x"))
  /\ (forall year, bibtex_key [] year = Ok ("arxiv" ++ str_of_nat year ++ "x"))
  /\ bibtex_key ["Jane A. Doe"] 2024 = Ok "Doe2024x"
  /\ bibtex_key ["Conor O'Brien-Smith"] 2024 = Ok "OBrienSmith2024x".
Proof.
  split; [|split; [|split]; reflexivity].
  intros pre tok post rest year _ Hpre Hne Htok Hpost.
  exists (str_filter isalnum tok).
  split; [apply str_filter_without|].
  split; [apply (without_kept_class isalnum tok), str_filter_without|].
  unfold bibtex_key. now rewrite split_ws_last_token.
Qed.

(** A first author whose name holds no token: [split()] is empty and
    [[-1]] raises. *)
Lemma bibtex_key_blank_name (name : string) (rest : list string) (year : nat) :
  str_forallb isspace name = true ->
  bibtex_key (name :: rest) year = Raise IndexError.
Proof.
  intros Hblank. unfold bibtex_key, split_ws.
  now rewrite split_ws_go_spaces.
Qed.

Lemma bibtex_key_surname_year_witness :
  isascii ("Conor " ++ "O'Brien" ++ "") = true
  /\ token_boundary "Conor "
  /\ "O'Brien" <> ""
  /\ str_forallb not_space "O'Brien" = true
  /\ str_forallb isspace "" = true
  /\ without isalnum "O'Brien" "OBrien"
  /\ exists surname,
       without isalnum "O'Brien" surname
       /\ str_forallb isalnum surname = true
       /\ bibtex_key ["Conor O'Brien"; "Jane A. Doe"] 2024
          = Ok (surname ++ str_of_nat 2024 ++ "x").
Proof.
  assert (Hb : token_boundary "Conor ").
  { right. exists "Conor", " "%char. split; reflexivity. }
  assert (Hn : "O'Brien" <> "") by discriminate.
  split; [reflexivity|]. split; [exact Hb|]. split; [exact Hn|].
  split; [reflexivity|]. split; [reflexivity|].
  split.
  - repeat (first [ apply without_end
                  | apply without_kept; [reflexivity|]
                  | apply without_removed; [reflexivity|] ]).
  - exact (proj1 bibtex_key_surname_year "Conor " "O'Brien" "" ["Jane A. Doe"]
             2024 eq_refl Hb Hn eq_refl eq_refl).
Defined.

(** *** The version marker *)

Lemma split_go_v_no_v (base : string) :
  forall cur rest,
    contains_char "v" base = false ->
    split_go "v" 0 cur (base ++ String "v" rest)
    = (cur ++ base) :: split_go "v" 0 "" rest.
Proof.
  induction base as [|c base IH]; intros cur rest Hno.
  - simpl. rewrite append_nil_r. now destruct rest.
  - unfold contains_char in Hno. cbn [str_existsb] in Hno.
    apply orb_false_iff in Hno as [Hc Hbase].
    cbn [append split_go String.prefix].
    destruct (ascii_dec "v" c) as [e | n].
    + subst c. now rewrite Ascii.eqb_refl in Hc.
    + rewrite IH by exact Hbase. now rewrite snoc_append.
Qed.

(** Where the letter v occurs in the version marker only, the export keeps
    the whole base. *)
Lemma clean_arxiv_id_no_other_v (base version : string) :
  contains_char "v" base = false ->
  clean_arxiv_id (base ++ String "v" version) = Ok base.
Proof.
  intros Hno. unfold clean_arxiv_id.
  assert (Hin : contains_char "v" (base ++ String "v" version) = true).
  { clear Hno. induction base as [|c base IH]; [reflexivity|].
    unfold contains_char in *. cbn [append str_existsb]. rewrite IH.
    apply orb_true_r. }
  rewrite Hin. unfold split. now rewrite split_go_v_no_v.
Qed.

Lemma clean_arxiv_id_unversioned (arxiv_id : string) :
  contains_char "v" arxiv_id = false -> clean_arxiv_id arxiv_id = Ok arxiv_id.
Proof. intros H. unfold clean_arxiv_id. now rewrite H. Qed.

Lemma str_rev_snoc (s : string) (c : ascii) : str_rev (snoc s c) = String c (str_rev s).
Proof.
  induction s as [|x s IH]; [reflexivity|].
  change (snoc (String x s) c) with (String x (snoc s c)).
  cbn [str_rev]. now rewrite IH.
Qed.

Lemma str_rev_append (a b : string) : str_rev (a ++ b) = str_rev b ++ str_rev a.
Proof.
  induction a as [|x a IH]; cbn [append str_rev].
  - now rewrite append_nil_r.
  - rewrite IH. unfold snoc. now rewrite append_assoc.
Qed.

Lemma str_rev_involutive (s : string) : str_rev (str_rev s) = s.
Proof.
  induction s as [|x s IH]; [reflexivity|].
  cbn [str_rev]. now rewrite str_rev_snoc, IH.
Qed.

Lemma str_forallb_append (p : ascii -> bool) (a b : string) :
  str_forallb p (a ++ b) = str_forallb p a && str_forallb p b.
Proof.
  induction a as [|x a IH]; cbn [append str_forallb]; [reflexivity|].
  now rewrite IH, andb_assoc.
Qed.

Lemma str_existsb_append (p : ascii -> bool) (a b : string) :
  str_existsb p (a ++ b) = str_existsb p a || str_existsb p b.
Proof.
  induction a as [|x a IH]; cbn [append str_existsb]; [reflexivity|].
  now rewrite IH, orb_assoc.
Qed.

Lemma str_forallb_rev (p : ascii -> bool) (s : string) :
  str_forallb p (str_rev s) = str_forallb p s.
Proof.
  induction s as [|x s IH]; [reflexivity|].
  cbn [str_rev str_forallb]. unfold snoc. rewrite str_forallb_append, IH.
  cbn [str_forallb]. rewrite andb_true_r. apply andb_comm.
Qed.

Lemma str_existsb_rev (p : ascii -> bool) (s : string) :
  str_existsb p (str_rev s) = str_existsb p s.
Proof.
  induction s as [|x s IH]; [reflexivity|].
  cbn [str_rev str_existsb]. unfold snoc. rewrite str_existsb_append, IH.
  cbn [str_existsb]. rewrite orb_false_r. apply orb_comm.
Qed.

Lemma drop_digits_marker (ds rest : string) :
  str_forallb is_digit ds = true ->
  drop_digits (ds ++ String "v" rest) = String "v" rest.
Proof.
  induction ds as [|c ds IH]; cbn [append str_forallb drop_digits]; [reflexivity|].
  intros H. apply andb_true_iff in H as [Hc Hds]. rewrite Hc. auto.
Qed.

Lemma drop_digits_head (s : string) (c : ascii) (r : string) :
  drop_digits s = String c r -> contains_char c s = true.
Proof.
  unfold contains_char.
  induction s as [|x s IH]; cbn [drop_digits str_existsb]; [discriminate|].
  destruct (is_digit x).
  - intros H. rewrite (IH H). apply orb_true_r.
  - intros H. inversion H; subst. now rewrite Ascii.eqb_refl.
Qed.

(** The base form of an ID that ends with a version marker is what stands
    before the marker. *)
Lemma base_form_spec_marker (base ds : string) :
  ds <> "" -> str_forallb is_digit ds = true ->
  base_form_spec (base ++ String "v" ds) = base.
Proof.
  intros Hne Hds. unfold base_form_spec.
  assert (Hrev : str_rev (base ++ String "v" ds)
                 = str_rev ds ++ String "v" (str_rev base)).
  { change (String "v" ds) with ("v" ++ ds).
    rewrite !str_rev_append. now rewrite append_assoc. }
  rewrite Hrev.
  assert (Hdigits : str_forallb is_digit (str_rev ds) = true)
    by now rewrite str_forallb_rev.
  destruct (str_rev ds) as [|c back] eqn:E.
  - exfalso. apply Hne. rewrite <- (str_rev_involutive ds), E. reflexivity.
  - cbn [append str_forallb] in *. apply andb_true_iff in Hdigits as [Hc Hback].
    rewrite Hc. rewrite drop_digits_marker by exact Hback.
    apply str_rev_involutive.
Qed.

(** An ID without the letter v has no version marker: it is its own base
    form. *)
Lemma base_form_spec_unversioned (arxiv_id : string) :
  contains_char "v" arxiv_id = false -> base_form_spec arxiv_id = arxiv_id.
Proof.
  intros Hno. unfold base_form_spec.
  destruct (str_rev arxiv_id) as [|c back] eqn:E; [reflexivity|].
  destruct (is_digit c); [|reflexivity].
  destruct (drop_digits back) as [|x base] eqn:Ed; [reflexivity|].
  destruct (ascii_dec x "v") as [-> | Hx].
  - exfalso. apply drop_digits_head in Ed.
    assert (H : contains_char "v" (str_rev arxiv_id) = true).
    { rewrite E. unfold contains_char in *. cbn [str_existsb]. rewrite Ed.
      apply orb_true_r. }
    unfold contains_char in *. rewrite str_existsb_rev in H. congruence.
  - destruct x as [[] [] [] [] [] [] [] []]; try reflexivity. now elim Hx.
Qed.

Lemma drop_digits_split (s : string) :
  exists ds, s = ds ++ drop_digits s /\ str_forallb is_digit ds = true.
Proof.
  induction s as [|c s (ds & Hs & Hds)]; [now exists ""|].
  cbn [drop_digits]. destruct (is_digit c) eqn:E.
  - exists (String c ds). cbn [append str_forallb]. rewrite E, Hds.
    split; [now rewrite <- Hs | reflexivity].
  - now exists "".
Qed.

(** An ID either has no version marker and is its own base form, or is its
    base form followed by the marker. *)
Lemma base_form_spec_cases (arxiv_id : string) :
  base_form_spec arxiv_id = arxiv_id
  \/ exists ds, ds <> "" /\ str_forallb is_digit ds = true
                /\ arxiv_id = base_form_spec arxiv_id ++ String "v" ds.
Proof.
  unfold base_form_spec.
  destruct (str_rev arxiv_id) as [|c back] eqn:E; [now left|].
  destruct (is_digit c) eqn:Ec; [|now left].
  destruct (drop_digits_split back) as (ds & Hback & Hds).
  destruct (drop_digits back) as [|x base]; [now left|].
  destruct (ascii_dec x "v") as [-> | Hx].
  - right. exists (str_rev (String c ds)). split; [|split].
    + cbn [str_rev]. unfold snoc. apply append_not_empty_r. discriminate.
    + rewrite str_forallb_rev. cbn [str_forallb]. now rewrite Ec, Hds.
    + rewrite <- (str_rev_involutive arxiv_id), E, Hback.
      change (String c (ds ++ String "v" base))
        with (String c ds ++ "v" ++ base).
      rewrite !str_rev_append. now rewrite append_assoc.
  - left. destruct x as [[] [] [] [] [] [] [] []]; try reflexivity. now elim Hx.
Qed.

Lemma clean_arxiv_id_base_form (arxiv_id : string) :
  contains_char "v" (base_form_spec arxiv_id) = false ->
  clean_arxiv_id arxiv_id = Ok (base_form_spec arxiv_id).
Proof.
  intros Hno. destruct (base_form_spec_cases arxiv_id) as [E | (ds & _ & _ & E)].
  - rewrite E in *. now apply clean_arxiv_id_unversioned.
  - rewrite E at 1. now apply clean_arxiv_id_no_other_v.
Qed.

(** The exported entry holds the two lines that carry the cleaned ID. *)
Lemma bibtex_text_eprint (paper : PaperRow) (names : list string)
      (clean_id : string) :
  clean_arxiv_id (p_arxiv_id paper) = Ok clean_id ->
  match bibtex_key names (d_year (p_published_date paper)) with
  | Raise e => bibtex_text paper names = Raise e
  | Ok _ =>
      exists before after,
        bibtex_text paper names
        = Ok (before ++ eprint_lines clean_id ++ after)
  end.
Proof.
  intros Hclean. unfold bibtex_text. rewrite Hclean.
  destruct (bibtex_key names _) as [key|e]; [|reflexivity].
  set (author_str := match names with [] => "Unknown" | _ => join " and " names end).
  set (title := protect_capitals_for_bibtex (p_title paper)).
  set (year := str_of_nat (d_year (p_published_date paper))).
  exists ("@article{" ++ key ++ "," ++ newline
          ++ "Author = {" ++ author_str ++ "}," ++ newline
          ++ "Title = {" ++ title ++ "}," ++ newline
          ++ "Year = {" ++ year ++ "}," ++ newline).
  unfold eprint_lines.
  destruct (truthy (p_journal_ref paper)) as [j|],
           (truthy (p_doi paper)) as [d|].
  - exists ("journal = {arXiv e-prints}"
            ++ "," ++ newline ++ "journalref = {" ++ j ++ "}"
            ++ "," ++ newline ++ "doi = {" ++ d ++ "}" ++ newline ++ "}").
    f_equal. now rewrite !append_assoc.
  - exists ("journal = {arXiv e-prints}"
            ++ "," ++ newline ++ "journalref = {" ++ j ++ "}" ++ newline ++ "}").
    f_equal. now rewrite !append_assoc.
  - exists ("journal = {arXiv e-prints}"
            ++ "," ++ newline ++ "doi = {" ++ d ++ "}" ++ newline ++ "}").
    f_equal. now rewrite !append_assoc.
  - exists ("journal = {arXiv e-prints}" ++ newline ++ "}").
    f_equal. now rewrite !append_assoc.
Qed.

(** C7.  An ID that ends with a version marker (the letter v and digits)
    after a base without the letter v is cleaned to its base form, and an
    ID without the letter v is left as it is.  For a stored ID that the
    rule of the route matches and whose base form is without the letter v
    (every ID of digits and a dot is), the export route answers with an
    entry whose [Eprint] and [url] lines carry the base form, unless the
    key cannot be made.  A path whose ID part holds a slash is answered
    with 404: the view does not run on an old-style ID. *)
Theorem bibtex_embeds_base_form :
  (forall base ds,
      ds <> "" -> str_forallb is_digit ds = true ->
      contains_char "v" base = false ->
      base_form_spec (base ++ String "v" ds) = base
      /\ clean_arxiv_id (base ++ String "v" ds) = Ok base)
  /\ (forall arxiv_id,
         contains_char "v" arxiv_id = false ->
         base_form_spec arxiv_id = arxiv_id
         /\ clean_arxiv_id arxiv_id = Ok arxiv_id)
  /\ (forall db arxiv_id paper,
         select_paper db arxiv_id = Some paper ->
         path_segment arxiv_id = true ->
         contains_char "v" (base_form_spec arxiv_id) = false ->
         match bibtex_key (get_paper_authors db (p_id paper))
                 (d_year (p_published_date paper)) with
         | Raise e => route_bibtex db arxiv_id = Raise e
         | Ok _ =>
             exists before after,
               route_bibtex db arxiv_id
               = Ok (text_plain
                       (before ++ eprint_lines (base_form_spec arxiv_id)
                        ++ after))
         end)
  /\ (forall db arxiv_id,
         path_segment arxiv_id = false ->
         route_bibtex db arxiv_id = Ok (abort 404)).
Proof.
  split; [|split; [|split]].
  - intros base ds Hne Hds Hno. split.
    + now apply base_form_spec_marker.
    + now apply clean_arxiv_id_no_other_v.
  - intros arxiv_id Hno. split.
    + now apply base_form_spec_unversioned.
    + now apply clean_arxiv_id_unversioned.
  - intros db arxiv_id paper Hsel Hseg Hno.
    unfold route_bibtex, bibtex. rewrite Hseg, Hsel.
    assert (Hid : p_arxiv_id paper = arxiv_id).
    { unfold select_paper in Hsel. apply find_some in Hsel as [_ Hid].
      now apply String.eqb_eq. }
    pose proof (clean_arxiv_id_base_form arxiv_id Hno) as Hclean.
    rewrite <- Hid in Hclean at 1.
    pose proof (bibtex_text_eprint paper (get_paper_authors db (p_id paper))
                  _ Hclean) as Htext.
    destruct (bibtex_key _ _) as [key|e].
    + destruct Htext as (before & after & ->). now exists before, after.
    + now rewrite Htext.
  - intros db arxiv_id Hseg. unfold route_bibtex. now rewrite Hseg.
Qed.

Lemma bibtex_embeds_base_form_witness :
  select_paper after_doe_and_roe "2401.12345v1"
  = Some (row_of 1 "2401.12345v1" doe_and_roe)
  /\ path_segment "2401.12345v1" = true
  /\ contains_char "v" (base_form_spec "2401.12345v1") = false
  /\ base_form_spec "2401.12345v1" = "2401.12345"
  /\ route_bibtex after_doe_and_roe "2401.12345v1"
     = Ok (text_plain
             ("@article{Doe2024x," ++ newline
              ++ "Author = {Jane A. Doe and John Roe}," ++ newline
              ++ "Title = {Example Paper}," ++ newline
              ++ "Year = {2024}," ++ newline
              ++ "Eprint = {2401.12345}," ++ newline
              ++ "  url = {https://arxiv.org/abs/2401.12345}," ++ newline
              ++ "journal = {arXiv e-prints}" ++ newline ++ "}"))
  /\ exists before after,
       route_bibtex after_doe_and_roe "2401.12345v1"
       = Ok (text_plain
               (before ++ eprint_lines (base_form_spec "2401.12345v1")
                ++ after)).
Proof.
  assert (Hsel : select_paper after_doe_and_roe "2401.12345v1"
                 = Some (row_of 1 "2401.12345v1" doe_and_roe))
    by reflexivity.
  assert (Hno : contains_char "v" (base_form_spec "2401.12345v1") = false)
    by reflexivity.
  split; [exact Hsel|]. split; [reflexivity|]. split; [exact Hno|].
  split; [reflexivity|]. split; [reflexivity|].
  pose proof (proj1 (proj2 (proj2 bibtex_embeds_base_form))
                after_doe_and_roe "2401.12345v1"
                (row_of 1 "2401.12345v1" doe_and_roe) Hsel eq_refl Hno) as H.
  exact H.
Defined.

(** ** Paging *)

Lemma insert_row_length (A : Type) (first : A -> A -> bool) (x : A) (l : list A) :
  List.length (insert_row first x l) = S (List.length l).
Proof.
  induction l as [|y l IH]; simpl; [reflexivity|].
  destruct (first x y); simpl; [reflexivity | now rewrite IH].
Qed.

Lemma order_by_length (A : Type) (first : A -> A -> bool) (l : list A) :
  List.length (order_by first l) = List.length l.
Proof.
  induction l as [|x l IH]; simpl; [reflexivity|].
  now rewrite insert_row_length, IH.
Qed.

Lemma total_pages_is_ceiling (total : Z) :
  (total <= per_page * total_pages_of total)%Z
  /\ (forall k, total <= per_page * k -> total_pages_of total <= k)%Z.
Proof.
  unfold total_pages_of, per_page. split.
  - Z.div_mod_to_equations. lia.
  - intros k Hk. Z.div_mod_to_equations. lia.
Qed.

Lemma paginate_page (A : Type) (rows : list A) (page : Z) :
  (1 <= page)%Z ->
  paginate rows page
  = Ok (firstn 20 (skipn (20 * (Z.to_nat page - 1)) rows),
        Z.of_nat (List.length rows),
        total_pages_of (Z.of_nat (List.length rows))).
Proof.
  intros Hpage. unfold paginate, limit_offset, per_page.
  destruct ((page - 1) * 20 <? 0)%Z eqn:Hneg; [apply Z.ltb_lt in Hneg; lia|].
  replace (Z.to_nat ((page - 1) * 20)) with (20 * (Z.to_nat page - 1)) by lia.
  reflexivity.
Qed.

(** A page number below 1 makes the offset negative, and the statement is
    refused. *)
Lemma paginate_below_one (A : Type) (rows : list A) (page : Z) :
  (page < 1)%Z -> paginate rows page = Raise ProgrammingError.
Proof.
  intros Hpage. unfold paginate, limit_offset, per_page.
  destruct ((page - 1) * 20 <? 0)%Z eqn:Hneg; [reflexivity|].
  apply Z.ltb_ge in Hneg. lia.
Qed.

Lemma page_length (A : Type) (rows : list A) (k : nat) :
  List.length (firstn 20 (skipn k rows)) = Nat.min 20 (List.length rows - k).
Proof. now rewrite length_firstn, length_skipn. Qed.

(** C8.  With pages numbered from 1, a paged view shows the rows at offset
    20 * (page - 1), 20 of them at most, and reports as total_pages the
    least number of pages of 20 rows that hold all the rows; the listing,
    the per-author view and the search view are such views.  With 45 rows
    there are 3 pages and page 3 has 5 rows. *)
Theorem pagination_arithmetic :
  (forall (A : Type) (rows : list A) (page : Z),
      (1 <= page)%Z ->
      let shown := firstn 20 (skipn (20 * (Z.to_nat page - 1)) rows) in
      let total := Z.of_nat (List.length rows) in
      paginate rows page = Ok (shown, total, total_pages_of total)
      /\ List.length shown = Nat.min 20 (List.length rows - 20 * (Z.to_nat page - 1))
      /\ (total <= 20 * total_pages_of total)%Z
      /\ (forall k, total <= 20 * k -> total_pages_of total <= k)%Z
      /\ (List.length rows = 45 ->
          total_pages_of total = 3%Z /\ (page = 3%Z -> List.length shown = 5)))
  /\ (forall db page,
         (1 <= page)%Z ->
         let rows := order_by newest_first (papers db) in
         let total := Z.of_nat (List.length (papers db)) in
         index db page
         = Ok (render_index
                 (with_authors db (firstn 20 (skipn (20 * (Z.to_nat page - 1)) rows)))
                 page (total_pages_of total) total
                 (Z.of_nat (List.length (authors db))) (latest_published db)))
  /\ (forall db author_name author page,
         (1 <= page)%Z ->
         select_author db author_name = Some author ->
         let rows := order_by newest_first (papers_of_author db (a_id author)) in
         let total := Z.of_nat (List.length rows) in
         author_papers db author_name page
         = Ok (render_author author
                 (with_authors db (firstn 20 (skipn (20 * (Z.to_nat page - 1)) rows)))
                 page (total_pages_of total) total (latest_published db)))
  /\ (forall like db q page,
         (1 <= page)%Z ->
         strip q <> "" ->
         let rows :=
           order_by newest_first
             (filter (search_matches like db ("%" ++ strip q ++ "%")) (papers db)) in
         let total := Z.of_nat (List.length rows) in
         search like db q page
         = Ok (render_search
                 (with_authors db (firstn 20 (skipn (20 * (Z.to_nat page - 1)) rows)))
                 (strip q) (Some (page, total_pages_of total)) total
                 (latest_published db))).
Proof.
  split; [|split; [|split]].
  - intros A rows page Hpage shown total.
    split; [now apply paginate_page|].
    split; [apply page_length|].
    split; [apply (total_pages_is_ceiling total)|].
    split; [apply (total_pages_is_ceiling total)|].
    intros H45. subst total shown. rewrite page_length, H45. split.
    + reflexivity.
    + intros ->. reflexivity.
  - intros db page Hpage rows total. unfold index.
    rewrite paginate_page by exact Hpage.
    subst rows total. now rewrite order_by_length.
  - intros db author_name author page Hpage Hauthor rows total.
    unfold author_papers. rewrite Hauthor.
    now rewrite paginate_page by exact Hpage.
  - intros like db q page Hpage Hq rows total. unfold search.
    destruct (strip q) as [|c query] eqn:E; [contradiction|].
    now rewrite paginate_page by exact Hpage.
Qed.

Lemma pagination_arithmetic_witness :
  (1 <= 3)%Z
  /\ paginate (seq 0 45) 3 = Ok ([40; 41; 42; 43; 44], 45%Z, 3%Z).
Proof.
  split; [lia|].
  exact (proj1 (proj1 pagination_arithmetic nat (seq 0 45) 3%Z ltac:(lia))).
Defined.

(** ** Missing resources *)

Lemma select_paper_absent (db : DB) (arxiv_id : string) :
  ~ In arxiv_id (map p_arxiv_id (papers db)) -> select_paper db arxiv_id = None.
Proof.
  unfold select_paper. intros Hno.
  induction (papers db) as [|p l IH]; simpl; [reflexivity|].
  destruct (String.eqb (p_arxiv_id p) arxiv_id) eqn:E.
  - apply String.eqb_eq in E. exfalso. apply Hno. now left.
  - apply IH. intros H. apply Hno. now right.
Qed.

Lemma select_author_absent (db : DB) (name : string) :
  ~ In name (map a_name (authors db)) -> select_author db name = None.
Proof.
  unfold select_author. intros Hno.
  induction (authors db) as [|a l IH]; simpl; [reflexivity|].
  destruct (String.eqb (a_name a) name) eqn:E.
  - apply String.eqb_eq in E. exfalso. apply Hno. now left.
  - apply IH. intros H. apply Hno. now right.
Qed.

(** *** The date of the path *)

Lemma split_go_char (c : ascii) (base : string) :
  forall cur rest,
    contains_char c base = false ->
    split_go (String c "") 0 cur (base ++ String c rest)
    = (cur ++ base) :: split_go (String c "") 0 "" rest.
Proof.
  induction base as [|x base IH]; intros cur rest Hno.
  - cbn [append split_go String.prefix]. rewrite append_nil_r.
    destruct (ascii_dec c c) as [_ | n]; [|contradiction].
    now destruct rest.
  - unfold contains_char in Hno. cbn [str_existsb] in Hno.
    apply orb_false_iff in Hno as [Hc Hbase].
    cbn [append split_go String.prefix].
    destruct (ascii_dec c x) as [e | n].
    + subst x. now rewrite Ascii.eqb_refl in Hc.
    + rewrite IH by exact Hbase. now rewrite snoc_append.
Qed.

Lemma split_go_char_last (c : ascii) (s : string) :
  forall cur,
    contains_char c s = false -> split_go (String c "") 0 cur s = [cur ++ s].
Proof.
  induction s as [|x s IH]; intros cur Hno.
  - cbn [split_go]. now rewrite append_nil_r.
  - unfold contains_char in Hno. cbn [str_existsb] in Hno.
    apply orb_false_iff in Hno as [Hc Hs].
    cbn [split_go String.prefix].
    destruct (ascii_dec c x) as [e | n].
    + subst x. now rewrite Ascii.eqb_refl in Hc.
    + rewrite IH by exact Hs. now rewrite snoc_append.
Qed.

Lemma split_three (a b c : string) :
  contains_char "-" a = false ->
  contains_char "-" b = false ->
  contains_char "-" c = false ->
  split "-" (a ++ "-" ++ b ++ "-" ++ c) = [a; b; c].
Proof.
  intros Ha Hb Hc. unfold split.
  change ("-" ++ b ++ "-" ++ c) with (String "-" (b ++ String "-" c)).
  rewrite split_go_char by exact Ha.
  rewrite split_go_char by exact Hb.
  now rewrite split_go_char_last.
Qed.

(** What [split] on one character gives: the text before the first
    separator, and the pieces of what follows it. *)
Lemma split_go_char_inv (c : ascii) (s : string) :
  forall cur,
    exists first rest,
      split_go (String c "") 0 cur s = (cur ++ first) :: rest
      /\ contains_char c first = false
      /\ ((rest = [] /\ s = first)
          \/ exists s', s = first ++ String c s'
                        /\ rest = split_go (String c "") 0 "" s').
Proof.
  induction s as [|x s IH]; intros cur.
  - exists "", []. cbn [split_go]. rewrite append_nil_r. auto.
  - cbn [split_go String.prefix].
    destruct (ascii_dec c x) as [e | n].
    + subst x. exists "", (split_go (String c "") 0 "" s).
      rewrite append_nil_r. replace (String.prefix "" s) with true by now destruct s.
      split; [reflexivity|]. split; [reflexivity|]. right. now exists s.
    + destruct (IH (snoc cur x)) as (first & rest & Hrun & Hno & Hrest).
      exists (String x first), rest. rewrite Hrun, snoc_append.
      split; [reflexivity|]. split.
      * unfold contains_char in *. cbn [str_existsb]. rewrite Hno.
        destruct (Ascii.eqb c x) eqn:E; [|reflexivity].
        apply Ascii.eqb_eq in E. contradiction.
      * destruct Hrest as [[-> ->] | (s' & -> & ->)]; [now left|].
        right. now exists s'.
Qed.

Lemma split_three_inv (s a b c : string) :
  split "-" s = [a; b; c] ->
  s = a ++ "-" ++ b ++ "-" ++ c
  /\ contains_char "-" a = false
  /\ contains_char "-" b = false
  /\ contains_char "-" c = false.
Proof.
  unfold split. intros H.
  destruct (split_go_char_inv "-" s "") as (a' & r1 & H1 & Ha & Hr1).
  rewrite H1 in H. cbn [append] in H. inversion H; subst a' r1. clear H.
  destruct Hr1 as [[Hnil _] | (s1 & -> & Hs1)]; [discriminate|].
  destruct (split_go_char_inv "-" s1 "") as (b' & r2 & H2 & Hb & Hr2).
  rewrite H2 in Hs1. cbn [append] in Hs1. inversion Hs1; subst b' r2. clear Hs1.
  destruct Hr2 as [[Hnil _] | (s2 & -> & Hs2)]; [discriminate|].
  destruct (split_go_char_inv "-" s2 "") as (c' & r3 & H3 & Hc & Hr3).
  rewrite H3 in Hs2. cbn [append] in Hs2. injection Hs2 as Hc' Hnil. subst c'.
  destruct Hr3 as [[_ ->] | (s3 & _ & Hs3)].
  - auto.
  - exfalso.
    destruct (split_go_char_inv "-" s3 "") as (x & r & Hx & _).
    rewrite Hx in Hs3. rewrite Hs3 in Hnil. discriminate.
Qed.

(** *** Digits *)

Lemma digit_val_spec (c : ascii) (n : nat) :
  digit_val c = Some n <-> is_digit c = true /\ code c - 48 = n.
Proof.
  unfold digit_val. destruct (is_digit c); split.
  - intros H. inversion H. auto.
  - intros [_ <-]. reflexivity.
  - discriminate.
  - intros [H _]. discriminate.
Qed.

Lemma digit_val_none (c : ascii) : digit_val c = None <-> is_digit c = false.
Proof. unfold digit_val. destruct (is_digit c); split; congruence. Qed.

Lemma digit_below_ten (c : ascii) : is_digit c = true -> code c - 48 < 10.
Proof.
  unfold is_digit, between. intros H. apply andb_true_iff in H as [_ H].
  apply Nat.leb_le in H. lia.
Qed.

Lemma thousands (a b c d : nat) :
  1000 * a + 100 * b + 10 * c + d = 10 * (10 * (10 * (10 * 0 + a) + b) + c) + d.
Proof. lia. Qed.

Lemma parse_Y_spec (s : string) (n : nat) :
  parse_Y s = Some n
  <-> String.length s = 4 /\ digits s = true /\ number s = n.
Proof.
  destruct s as [|a [|b [|c [|d [|e s]]]]];
    try (split; [discriminate | intros [H _]; discriminate]).
  unfold parse_Y, digits, number.
  cbn [str_forallb list_ascii_of_string fold_left].
  unfold digit_val.
  destruct (is_digit a), (is_digit b), (is_digit c), (is_digit d);
    cbn [andb];
    try (split; [discriminate | intros (_ & H & _); discriminate]).
  split.
  - intros H. injection H as H. split; [reflexivity|]. split; [reflexivity|].
    rewrite <- H. symmetry. apply thousands.
  - intros (_ & _ & <-). f_equal. apply thousands.
Qed.

Lemma parse_1_to_spec (hi : nat) (s : string) (n : nat) :
  9 <= hi ->
  parse_1_to hi s = Some n
  <-> (String.length s = 1 \/ String.length s = 2)
      /\ digits s = true /\ number s = n /\ 1 <= n <= hi.
Proof.
  intros Hhi.
  destruct s as [|a [|b [|c s]]];
    try (split; [discriminate
                | intros [[H | H] _]; discriminate]).
  - unfold parse_1_to, digits, number.
    cbn [str_forallb list_ascii_of_string fold_left].
    unfold digit_val. destruct (is_digit a) eqn:Ea; cbn [andb];
      [|split; [discriminate | intros (_ & H & _); discriminate]].
    pose proof (digit_below_ten a Ea) as Hlt.
    destruct (1 <=? code a - 48)%nat eqn:E1.
    + apply Nat.leb_le in E1. split.
      * intros H. injection H as H. subst n.
        split; [now left|]. split; [reflexivity|]. split; lia.
      * intros (_ & _ & <- & _). f_equal; lia.
    + apply Nat.leb_gt in E1. split; [discriminate|].
      intros (_ & _ & <- & H). lia.
  - unfold parse_1_to, digits, number.
    cbn [str_forallb list_ascii_of_string fold_left].
    unfold digit_val. destruct (is_digit a), (is_digit b); cbn [andb];
      try (split; [discriminate | intros (_ & H & _); discriminate]).
    set (x := code a - 48). set (y := code b - 48).
    destruct ((1 <=? 10 * x + y) && (10 * x + y <=? hi))%nat eqn:E.
    + apply andb_true_iff in E as [E1 E2].
      apply Nat.leb_le in E1, E2. split.
      * intros H. injection H as H. subst n.
        split; [now right|]. split; [reflexivity|]. split; lia.
      * intros (_ & _ & <- & _). f_equal; lia.
    + split; [discriminate|]. intros (_ & _ & <- & H1 & H2).
      apply andb_false_iff in E as [E | E]; apply Nat.leb_gt in E; lia.
Qed.

Lemma parse_d_eq (s : string) :
  parse_d s
  = match s with
    | String a (String b "") =>
        if Ascii.eqb a " " then parse_1_to 31 (String b "") else parse_1_to 31 s
    | _ => parse_1_to 31 s
    end.
Proof.
  destruct s as [|a [|b [|c s]]]; try reflexivity;
    destruct a as [[] [] [] [] [] [] [] []]; reflexivity.
Qed.

Lemma parse_d_spec (s : string) (n : nat) :
  parse_d s = Some n <-> day_text s n /\ 1 <= n <= 31.
Proof.
  rewrite parse_d_eq. unfold day_text.
  assert (Hgen : parse_1_to 31 s = Some n
                 <-> ((String.length s = 1 \/ String.length s = 2)
                      /\ digits s = true /\ number s = n) /\ 1 <= n <= 31).
  { rewrite parse_1_to_spec by lia. tauto. }
  destruct s as [|a [|b [|c s]]].
  - rewrite Hgen. split; [tauto|]. intros [[H | (c & H & _)] Hn]; [tauto | discriminate].
  - rewrite Hgen. split; [tauto|]. intros [[H | (c & H & _)] Hn]; [tauto | discriminate].
  - destruct (Ascii.eqb a " ") eqn:Ea.
    + apply Ascii.eqb_eq in Ea. subst a.
      rewrite parse_1_to_spec by lia. split.
      * intros (_ & Hd & Hnum & Hn). split; [|exact Hn]. right. exists b.
        unfold digits in Hd. cbn [str_forallb] in Hd.
        rewrite andb_true_r in Hd. auto.
      * intros [[(_ & Hd & _) | (c & Hc & Hd & Hnum)] Hn]; [discriminate|].
        inversion Hc; subst c. unfold digits. cbn [str_forallb].
        rewrite Hd. auto.
    + rewrite Hgen. split; [tauto|].
      intros [[H | (c & H & _)] Hn]; [tauto|].
      inversion H; subst. now rewrite Ascii.eqb_refl in Ea.
  - rewrite Hgen. split; [tauto|]. intros [[H | (c' & H & _)] Hn]; [tauto | discriminate].
Qed.

Lemma days_in_month_bounds (y m : nat) :
  days_in_month y m <= 31 /\ (1 <= days_in_month y m -> 1 <= m <= 12).
Proof.
  unfold days_in_month.
  do 13 (destruct m as [|m]; [try destruct (is_leap y); lia|]). lia.
Qed.

Lemma digits_no_char (c : ascii) (s : string) :
  is_digit c = false -> digits s = true -> contains_char c s = false.
Proof.
  intros Hc. unfold digits, contains_char.
  induction s as [|x s IH]; cbn [str_forallb str_existsb]; [reflexivity|].
  intros H. apply andb_true_iff in H as [Hx Hs]. rewrite (IH Hs).
  destruct (Ascii.eqb c x) eqn:E; [|reflexivity].
  apply Ascii.eqb_eq in E. congruence.
Qed.

Lemma day_text_no_char (c : ascii) (s : string) (n : nat) :
  is_digit c = false -> c <> " "%char -> day_text s n -> contains_char c s = false.
Proof.
  intros Hc Hsp [(_ & Hd & _) | (x & -> & Hx & _)].
  - now apply digits_no_char.
  - unfold contains_char. cbn [str_existsb].
    destruct (Ascii.eqb c " ") eqn:E1; [apply Ascii.eqb_eq in E1; contradiction|].
    destruct (Ascii.eqb c x) eqn:E2; [|reflexivity].
    apply Ascii.eqb_eq in E2. congruence.
Qed.

(** [strptime] accepts exactly the texts that name a date, and gives the
    date they name. *)
Lemma strptime_spec (s : string) (d : date) :
  strptime s = Ok d <-> date_text s d.
Proof.
  unfold strptime, date_text. split.
  - destruct (split "-" s) as [|y [|m [|dd [|x l]]]] eqn:E; try discriminate.
    apply split_three_inv in E as (Hs & _).
    destruct (parse_Y y) as [yy|] eqn:Ey; [|discriminate].
    unfold parse_m.
    destruct (parse_1_to 12 m) as [mm|] eqn:Em; [|discriminate].
    destruct (parse_d dd) as [day|] eqn:Ed; [|discriminate].
    destruct ((1 <=? yy) && (day <=? days_in_month yy mm))%nat eqn:Ec;
      [|discriminate].
    intros H. inversion H; subst d. clear H. cbn [d_year d_month d_day].
    apply andb_true_iff in Ec as [Ec1 Ec2]. apply Nat.leb_le in Ec1, Ec2.
    apply parse_Y_spec in Ey. apply parse_1_to_spec in Em; [|lia].
    apply parse_d_spec in Ed. destruct Ed as [Hday Hn].
    exists y, m, dd. repeat split; try tauto; lia.
  - intros (y & m & dd & -> & Hy & Hm & Hd & Hy1 & Hm1 & Hd1).
    assert (Hhy : is_digit "-" = false) by reflexivity.
    rewrite split_three.
    + assert (Ey : parse_Y y = Some (d_year d)) by now apply parse_Y_spec.
      assert (Em : parse_1_to 12 m = Some (d_month d))
        by (apply parse_1_to_spec; [lia | tauto]).
      assert (Ed : parse_d dd = Some (d_day d)).
      { apply parse_d_spec. split; [exact Hd|].
        pose proof (days_in_month_bounds (d_year d) (d_month d)). lia. }
      unfold parse_m. rewrite Ey, Em, Ed.
      replace ((1 <=? d_year d) && (d_day d <=? days_in_month (d_year d) (d_month d)))%nat
        with true.
      * now destruct d.
      * symmetry. apply andb_true_iff. split; apply Nat.leb_le; lia.
    + apply digits_no_char; tauto.
    + apply digits_no_char; tauto.
    + apply (day_text_no_char "-" dd (d_day d)); auto. discriminate.
Qed.

Lemma strptime_raises (s : string) (e : exn) :
  strptime s = Raise e -> e = ValueError.
Proof.
  unfold strptime.
  destruct (split "-" s) as [|y [|m [|dd [|x l]]]]; try (intros H; now inversion H).
  destruct (parse_Y y), (parse_m m), (parse_d dd); try (intros H; now inversion H).
  destruct (_ && _)%bool; intros H; now inversion H.
Qed.

Lemma contains_char_append (c : ascii) (a b : string) :
  contains_char c (a ++ b) = contains_char c a || contains_char c b.
Proof. apply str_existsb_append. Qed.

Lemma date_text_segment (s : string) (d : date) :
  date_text s d -> path_segment s = true.
Proof.
  intros (y & m & dd & -> & Hy & Hm & Hd & _).
  unfold path_segment. apply andb_true_iff. split.
  - destruct y; [destruct Hy as [H _]; discriminate | reflexivity].
  - apply negb_true_iff.
    assert (Hs : is_digit "/" = false) by reflexivity.
    rewrite !contains_char_append.
    rewrite (digits_no_char "/" y Hs), (digits_no_char "/" m Hs) by tauto.
    rewrite (day_text_no_char "/" dd (d_day d) Hs); [reflexivity | discriminate | exact Hd].
Qed.

Lemma route_papers_by_date_view (db : DB) (date_str : string) :
  route_papers_by_date db date_str = papers_by_date db date_str.
Proof.
  unfold route_papers_by_date, papers_by_date.
  destruct (path_segment date_str) eqn:Hseg; [reflexivity|].
  destruct (strptime date_str) as [d|e] eqn:E; [|reflexivity].
  apply strptime_spec, date_text_segment in E. congruence.
Qed.

(** C9.  An external ID that is not in [papers] and an author name that
    is not in [authors] get a 404, from the view and from the route.  For
    a date string of ASCII text the route answers 404 exactly when the
    string names no date (a year of four digits, a month and a day of one
    or two digits, the day also of a space and a digit, joined by hyphens,
    that exist in the calendar); a string that names a date gets the page
    of that date with status 200, whether or not a paper was published on
    that date. *)
Theorem not_found_routes :
  forall db,
    (forall arxiv_id,
        ~ In arxiv_id (map p_arxiv_id (papers db)) ->
        paper_detail db arxiv_id = abort 404
        /\ route_paper_detail db arxiv_id = abort 404)
    /\ (forall author_name page,
           ~ In author_name (map a_name (authors db)) ->
           author_papers db author_name page = Ok (abort 404)
           /\ route_author_papers db author_name page = Ok (abort 404))
    /\ (forall date_str,
           isascii date_str = true ->
           papers_by_date db date_str = route_papers_by_date db date_str
           /\ (route_papers_by_date db date_str = abort 404
               <-> ~ exists d, date_text date_str d)
           /\ (forall d,
                  date_text date_str d ->
                  route_papers_by_date db date_str
                  = render_date d
                      (with_authors db
                         (order_by by_id_desc
                            (filter
                               (fun p => date_eqb (p_published_date p) d)
                               (papers db))))
                  /\ status (route_papers_by_date db date_str) = 200)).
Proof.
  intros db. split; [|split].
  - intros arxiv_id Hno.
    assert (H : paper_detail db arxiv_id = abort 404)
      by (unfold paper_detail; now rewrite select_paper_absent).
    split; [exact H|]. unfold route_paper_detail. rewrite H.
    now destruct (path_segment arxiv_id).
  - intros author_name page Hno.
    assert (H : author_papers db author_name page = Ok (abort 404))
      by (unfold author_papers; now rewrite select_author_absent).
    split; [exact H|]. unfold route_author_papers. rewrite H.
    now destruct (path_segment author_name).
  - intros date_str _. rewrite route_papers_by_date_view.
    split; [reflexivity|]. unfold papers_by_date. split; [split|].
    + intros H404 [d Hd]. apply strptime_spec in Hd. rewrite Hd in H404.
      discriminate.
    + intros Hnone. destruct (strptime date_str) as [d|e] eqn:E; [|reflexivity].
      exfalso. apply Hnone. exists d. now apply strptime_spec.
    + intros d Hd. apply strptime_spec in Hd. now rewrite Hd.
Qed.

Lemma not_found_routes_witness :
  ~ In "2401.00001v1" (map p_arxiv_id (papers empty_db))
  /\ route_paper_detail empty_db "2401.00001v1" = abort 404
  /\ isascii "2024-02-30" = true
  /\ route_papers_by_date empty_db "2024-02-30" = abort 404
  /\ (~ exists d, date_text "2024-02-30" d)
  /\ isascii "2024-1-5" = true
  /\ date_text "2024-1-5" (mkDate 2024 1 5)
  /\ route_papers_by_date empty_db "2024-1-5" = render_date (mkDate 2024 1 5) [].
Proof.
  assert (Hno : ~ In "2401.00001v1" (map p_arxiv_id (papers empty_db)))
    by (simpl; tauto).
  assert (Hd : date_text "2024-1-5" (mkDate 2024 1 5)).
  { now apply strptime_spec. }
  pose proof (not_found_routes empty_db) as (Hpaper & _ & Hdate).
  destruct (Hdate "2024-02-30" eq_refl) as (_ & H404 & _).
  destruct (Hdate "2024-1-5" eq_refl) as (_ & _ & Hpage).
  split; [exact Hno|].
  split; [exact (proj2 (Hpaper "2401.00001v1" Hno))|].
  split; [reflexivity|]. split; [reflexivity|].
  split; [exact (proj1 H404 eq_refl)|].
  split; [reflexivity|]. split; [exact Hd|].
  exact (proj1 (Hpage (mkDate 2024 1 5) Hd)).
Defined.

(** The date 2024-01-01 is well formed and no paper of the empty catalogue
    was published on it; the date route answers 200, not 404. *)
Lemma unknown_date_is_not_404 :
  strptime "2024-01-01" = Ok (mkDate 2024 1 1)
  /\ filter (fun p => date_eqb (p_published_date p) (mkDate 2024 1 1))
       (papers empty_db) = []
  /\ papers_by_date empty_db "2024-01-01" = render_date (mkDate 2024 1 1) []
  /\ status (papers_by_date empty_db "2024-01-01") <> 404.
Proof. repeat split. discriminate. Qed.

(** ** Lists and keys *)

Lemma NoDup_map_eq (A B : Type) (f : A -> B) (l : list A) (a b : A) :
  NoDup (map f l) -> In a l -> In b l -> f a = f b -> a = b.
Proof.
  induction l as [|x l IH]; simpl; intros Hnd Ha Hb Hf; [contradiction|].
  inversion Hnd as [|? ? Hx Hl]; subst.
  destruct Ha as [-> | Ha], Hb as [-> | Hb]; auto.
  - exfalso. apply Hx. rewrite Hf. now apply in_map.
  - exfalso. apply Hx. rewrite <- Hf. now apply in_map.
Qed.

Lemma filter_none (A : Type) (f : A -> bool) (l : list A) :
  (forall x, In x l -> f x = false) -> filter f l = [].
Proof.
  induction l as [|x l IH]; simpl; intros H; [reflexivity|].
  rewrite (H x) by now left. apply IH. intros y Hy. apply H. now right.
Qed.

Lemma filter_all (A : Type) (f : A -> bool) (l : list A) :
  (forall x, In x l -> f x = true) -> filter f l = l.
Proof.
  induction l as [|x l IH]; simpl; intros H; [reflexivity|].
  rewrite (H x) by now left. f_equal. apply IH. intros y Hy. apply H. now right.
Qed.

Lemma filter_unique (A : Type) (f : A -> bool) (l : list A) (x : A) :
  NoDup l -> In x l -> (forall y, In y l -> f y = true <-> y = x) ->
  filter f l = [x].
Proof.
  induction l as [|y l IH]; simpl; intros Hnd Hin Hf; [contradiction|].
  inversion Hnd as [|? ? Hy Hl]; subst.
  destruct Hin as [-> | Hin].
  - rewrite (proj2 (Hf x (or_introl eq_refl)) eq_refl). f_equal.
    apply filter_none. intros z Hz.
    destruct (f z) eqn:E; [|reflexivity].
    assert (Hzx : z = x) by (apply Hf; [now right | exact E]).
    subst z. contradiction.
  - destruct (f y) eqn:E.
    + assert (Hyx : y = x) by (apply Hf; [now left | exact E]).
      subst y. contradiction.
    + apply IH; auto; intros z Hz; apply Hf; now right.
Qed.

Lemma db_eta (db : DB) :
  mkDB (papers db) (authors db) (paper_authors db) (tags db) (paper_tags db)
    (next_paper_id db) (next_author_id db) (next_tag_id db) = db.
Proof. now destruct db. Qed.

Lemma tag_type_eqb_eq (a b : tag_type) : tag_type_eqb a b = true <-> a = b.
Proof. destruct a, b; simpl; split; intros H; try reflexivity; discriminate. Qed.

Lemma same_paper_tag_eq (a b : PaperTag) : same_paper_tag a b = true <-> a = b.
Proof.
  unfold same_paper_tag. rewrite andb_true_iff, !Nat.eqb_eq.
  destruct a, b; simpl. split.
  - intros [-> ->]. reflexivity.
  - intros H. inversion H. auto.
Qed.

Lemma select_paper_some (db : DB) (x : string) (p : PaperRow) :
  select_paper db x = Some p -> In p (papers db) /\ p_arxiv_id p = x.
Proof.
  unfold select_paper. intros H. apply find_some in H as [Hin Heq].
  split; [assumption | now apply String.eqb_eq].
Qed.

Lemma select_tag_some (db : DB) (name : string) (ty : tag_type) (t : TagRow) :
  select_tag db name ty = Some t ->
  In t (tags db) /\ t_name t = name /\ t_tag_type t = ty.
Proof.
  unfold select_tag. intros H. apply find_some in H as [Hin Heq].
  apply andb_true_iff in Heq as [Hn Ht].
  repeat split; [assumption | now apply String.eqb_eq | now apply tag_type_eqb_eq].
Qed.

(** ** Tagging *)

Lemma linked_pair (db : DB) (x name : string) (ty : tag_type)
      (p : PaperRow) (t : TagRow) :
  select_paper db x = Some p ->
  select_tag db name ty = Some t ->
  In (mkPaperTag (p_id p) (t_id t)) (paper_tags db) ->
  In (mkPaperTag (p_id p) (t_id t)) (links_between db x name ty).
Proof.
  intros Hp Ht Hin. unfold links_between. apply filter_In. split; [assumption|].
  apply select_paper_some in Hp as [Hpin Hpx].
  apply select_tag_some in Ht as (Htin & Htn & Hty).
  apply andb_true_iff. split; apply existsb_exists.
  - exists p. split; [assumption|]. simpl.
    now rewrite Hpx, String.eqb_refl, Nat.eqb_refl.
  - exists t. split; [assumption|]. simpl.
    rewrite Htn, Hty, String.eqb_refl, Nat.eqb_refl.
    now rewrite (proj2 (tag_type_eqb_eq ty ty) eq_refl).
Qed.

(** C2, as the code has it.  When the paper and the tag exist and no link
    connects them, the detach leaves the tables as they are and returns
    True; it returns False exactly when the paper or the tag is missing,
    and changes nothing then. *)
Theorem remove_tag_without_link :
  forall db arxiv_id tag_name ty,
    (select_paper db arxiv_id <> None ->
     select_tag db tag_name ty <> None ->
     links_between db arxiv_id tag_name ty = [] ->
     remove_tag_from_paper arxiv_id tag_name ty db = (db, true))
    /\ (snd (remove_tag_from_paper arxiv_id tag_name ty db) = false
        <-> select_paper db arxiv_id = None \/ select_tag db tag_name ty = None)
    /\ (snd (remove_tag_from_paper arxiv_id tag_name ty db) = false ->
        fst (remove_tag_from_paper arxiv_id tag_name ty db) = db).
Proof.
  intros db x name ty. unfold remove_tag_from_paper.
  destruct (select_paper db x) as [p|] eqn:Hp;
    [destruct (select_tag db name ty) as [t|] eqn:Ht|].
  - repeat split.
    + intros _ _ Hnone. unfold delete_paper_tag.
      rewrite filter_all; [now rewrite db_eta|].
      intros old Hold. apply negb_true_iff.
      destruct (same_paper_tag _ old) eqn:E; [|reflexivity].
      apply same_paper_tag_eq in E. subst old.
      pose proof (@linked_pair db x name ty p t Hp Ht Hold) as Hin.
      rewrite Hnone in Hin. contradiction.
    + simpl. discriminate.
    + intros [H | H]; discriminate.
    + simpl. discriminate.
  - repeat split; simpl; auto. intros _ H. now contradiction H.
  - repeat split; simpl; auto. intros H. now contradiction H.
Qed.

Lemma remove_tag_without_link_witness :
  select_paper one_paper_one_tag "2401.12345v1" <> None
  /\ select_tag one_paper_one_tag "symmetric-functions" personal <> None
  /\ links_between one_paper_one_tag "2401.12345v1" "symmetric-functions" personal = []
  /\ remove_tag_from_paper "2401.12345v1" "symmetric-functions" personal
       one_paper_one_tag
     = (one_paper_one_tag, true).
Proof.
  assert (Hp : select_paper one_paper_one_tag "2401.12345v1" <> None)
    by discriminate.
  assert (Ht : select_tag one_paper_one_tag "symmetric-functions" personal <> None)
    by discriminate.
  split; [exact Hp|]. split; [exact Ht|]. split; [reflexivity|].
  exact (proj1 (remove_tag_without_link one_paper_one_tag "2401.12345v1"
                  "symmetric-functions" personal) Hp Ht eq_refl).
Defined.

(** The paper and the tag exist, no link connects them, and the detach
    reports success. *)
Lemma remove_tag_without_link_returns_true :
  select_paper one_paper_one_tag "2401.12345v1" <> None
  /\ select_tag one_paper_one_tag "symmetric-functions" personal <> None
  /\ links_between one_paper_one_tag "2401.12345v1" "symmetric-functions" personal = []
  /\ snd (remove_tag_from_paper "2401.12345v1" "symmetric-functions" personal
            one_paper_one_tag) <> false.
Proof. repeat split; discriminate. Qed.

Lemma NoDup_snoc (A : Type) (l : list A) (x : A) :
  NoDup l -> ~ In x l -> NoDup (l ++ [x])%list.
Proof.
  induction l as [|a l IH]; simpl; intros Hnd Hx.
  - constructor; [tauto | constructor].
  - inversion Hnd as [|? ? Ha Hl]; subst. constructor.
    + intros Hin. apply in_app_or in Hin as [Hin | [-> | []]]; tauto.
    + apply IH; tauto.
Qed.

Lemma existsb_same_paper_tag (link : PaperTag) (l : list PaperTag) :
  existsb (same_paper_tag link) l = true <-> In link l.
Proof.
  rewrite existsb_exists. split.
  - intros (y & Hy & E). apply same_paper_tag_eq in E. now subst.
  - intros H. exists link. split; [assumption | now apply same_paper_tag_eq].
Qed.

Lemma select_tag_none (db : DB) (name : string) (ty : tag_type) :
  select_tag db name ty = None ->
  ~ In (name, ty) (map (fun t => (t_name t, t_tag_type t)) (tags db)).
Proof.
  unfold select_tag. intros Hnone Hin.
  apply in_map_iff in Hin as (t & Hkey & Hin). inversion Hkey; subst.
  pose proof (find_none _ _ Hnone t Hin) as H. simpl in H.
  rewrite String.eqb_refl in H.
  now rewrite (proj2 (tag_type_eqb_eq _ _) eq_refl) in H.
Qed.

Lemma select_tag_snoc (db db' : DB) (name : string) (ty : tag_type) (t : TagRow) :
  tags db' = (tags db ++ [t])%list ->
  select_tag db name ty = None ->
  t_name t = name -> t_tag_type t = ty ->
  select_tag db' name ty = Some t.
Proof.
  unfold select_tag. intros -> Hnone Hn Hty.
  induction (tags db) as [|u l IH]; simpl in *.
  - rewrite Hn, Hty, String.eqb_refl.
    now rewrite (proj2 (tag_type_eqb_eq _ _) eq_refl).
  - destruct (String.eqb (t_name u) name && tag_type_eqb (t_tag_type u) ty);
      [discriminate | now apply IH].
Qed.

Section Tagging.

Variable accepts_tag : string -> tag_type -> option string -> bool.

Let add_tag := add_tag_to_paper accepts_tag.

(** What the first attach establishes *)
Lemma add_tag_first (db : DB) (x name : string) (ty : tag_type)
      (d : option string) (p : PaperRow) :
  well_formed db ->
  select_paper db x = Some p ->
  select_tag db name ty <> None \/ accepts_tag name ty d = true ->
  exists db1 t,
    add_tag x name ty d db = (db1, true)
    /\ papers db1 = papers db
    /\ select_tag db1 name ty = Some t
    /\ In (mkPaperTag (p_id p) (t_id t)) (paper_tags db1)
    /\ NoDup (paper_tags db1)
    /\ NoDup (map (fun t => (t_name t, t_tag_type t)) (tags db1)).
Proof.
  intros Hwf Hp Htag.
  unfold add_tag, add_tag_to_paper, bind, get_or_create_tag. rewrite Hp.
  destruct (select_tag db name ty) as [t|] eqn:Ht.
  - unfold insert_ignore_paper_tag.
    destruct (existsb _ (paper_tags db)) eqn:E.
    + exists db, t. repeat split; try assumption; try apply Hwf.
      now apply existsb_same_paper_tag.
    + eexists. exists t. split; [reflexivity|]. simpl.
      repeat split; try assumption; try apply Hwf.
      * apply in_or_app. right. now left.
      * apply NoDup_snoc; [apply Hwf|].
        intros Hin. apply existsb_same_paper_tag in Hin. congruence.
  - destruct Htag as [Htag | Hacc]; [congruence|]. rewrite Hacc.
    set (t := mkTag (next_tag_id db) name ty d).
    set (db0 := mkDB _ _ _ (tags db ++ [t])%list _ _ _ _).
    assert (Hsel : select_tag db0 name ty = Some t)
      by (apply (@select_tag_snoc db db0 name ty t); auto).
    assert (Hkeys : NoDup (map (fun t => (t_name t, t_tag_type t)) (tags db0))).
    { simpl. rewrite map_app. apply NoDup_snoc; [apply Hwf|].
      now apply select_tag_none. }
    unfold insert_ignore_paper_tag.
    destruct (existsb _ (paper_tags db0)) eqn:E.
    + exists db0, t. repeat split; try assumption; try apply Hwf.
      now apply existsb_same_paper_tag.
    + eexists. exists t. split; [reflexivity|]. simpl.
      repeat split; try assumption.
      * apply in_or_app. right. now left.
      * apply NoDup_snoc; [apply Hwf|].
        intros Hin. apply existsb_same_paper_tag in Hin.
        simpl in E. congruence.
Qed.

(** C4.  In a catalogue that meets the constraints of the schema, for a
    paper that exists and a tag that exists or that the store accepts,
    the first attach returns True, the second attach returns True and
    leaves the tables as the first left them, and exactly one Paper-Tag
    link then joins the paper and the tag.  For an external ID with no
    paper the attach returns False and leaves the tables as they are. *)
Theorem add_tag_twice :
  forall db arxiv_id tag_name ty description description',
    (well_formed db ->
     select_paper db arxiv_id <> None ->
     select_tag db tag_name ty <> None
     \/ accepts_tag tag_name ty description = true ->
     exists db1,
       add_tag_to_paper accepts_tag arxiv_id tag_name ty description db
       = (db1, true)
       /\ add_tag_to_paper accepts_tag arxiv_id tag_name ty description' db1
          = (db1, true)
       /\ List.length (links_between db1 arxiv_id tag_name ty) = 1)
    /\ (select_paper db arxiv_id = None ->
        add_tag_to_paper accepts_tag arxiv_id tag_name ty description db
        = (db, false)).
Proof.
  intros db x name ty d d'. split.
  - intros Hwf Hp Htag.
    destruct (select_paper db x) as [p|] eqn:Hsel; [clear Hp | congruence].
    destruct (add_tag_first db x name ty d p Hwf Hsel Htag)
      as (db1 & t & Hadd & Hpapers & Ht & Hin & Hnd & Hkeys).
    assert (Hsel1 : select_paper db1 x = Some p)
      by (unfold select_paper in *; now rewrite Hpapers).
    exists db1. split; [exact Hadd|]. split.
    + unfold add_tag_to_paper, bind, get_or_create_tag, insert_ignore_paper_tag.
      rewrite Hsel1, Ht.
      now rewrite (proj2 (existsb_same_paper_tag _ _) Hin).
    + unfold links_between.
      rewrite (@filter_unique _ _ _ (mkPaperTag (p_id p) (t_id t)));
        [reflexivity | assumption | assumption |].
      intros pt Hpt.
      destruct (select_paper_some _ _ _ Hsel1) as [Hpin Hpx].
      destruct (select_tag_some _ _ _ _ Ht) as (Htin & Htn & Hty).
      rewrite andb_true_iff, !existsb_exists. split.
      * intros [(q & Hq & Eq) (u & Hu & Eu)].
        apply andb_true_iff in Eq as [Eqx Eqid].
        apply andb_true_iff in Eu as [Eukey Euid].
        apply andb_true_iff in Eukey as [Eun Euty].
        apply String.eqb_eq in Eqx, Eun. apply Nat.eqb_eq in Eqid, Euid.
        apply tag_type_eqb_eq in Euty.
        assert (q = p).
        { apply (@NoDup_map_eq _ _ p_arxiv_id (papers db1)); try assumption.
          - rewrite Hpapers. apply Hwf.
          - congruence. }
        assert (u = t).
        { apply (@NoDup_map_eq _ _ (fun t => (t_name t, t_tag_type t)) (tags db1));
            try assumption.
          simpl. congruence. }
        subst q u. destruct pt; simpl in *. congruence.
      * intros ->. simpl. split.
        -- exists p. split; [assumption|].
           now rewrite Hpx, String.eqb_refl, Nat.eqb_refl.
        -- exists t. split; [assumption|].
           rewrite Htn, Hty, String.eqb_refl, Nat.eqb_refl.
           now rewrite (proj2 (tag_type_eqb_eq _ _) eq_refl).
  - intros Hnone. unfold add_tag_to_paper. now rewrite Hnone.
Qed.

End Tagging.

(** ** Batches *)

Lemma results_records_length (n : nat) :
  forall f, List.length (records (results n f)) <= n.
Proof.
  induction n as [|n IH]; intros f; [simpl; lia|].
  destruct f as [|paper rest|e]; simpl; try lia.
  specialize (IH rest). lia.
Qed.

Lemma results_deliver (first : list ArxivResult) (rest : feed) :
  results (List.length first) (deliver first rest) = deliver first Done.
Proof.
  induction first as [|paper first IH]; simpl; [reflexivity | now rewrite IH].
Qed.

Section Batches.

Variable accepts_paper : PaperRow -> bool.
Variable accepts_author : string -> bool.
Variable duplicate_link : PaperAuthor -> PaperAuthor -> bool.

Let loop := process accepts_paper accepts_author duplicate_link.
Let batch := fetch_batch accepts_paper accepts_author duplicate_link.
Let tables_after := run_all accepts_paper accepts_author duplicate_link.
Let raised := count_errors accepts_paper accepts_author duplicate_link.

Lemma process_spec (f : feed) :
  forall db count errors,
  exists c e,
    loop f db count errors = (tables_after (records f) db, c, e, failure f)
    /\ c + e = count + errors + List.length (records f)
    /\ e = errors + raised (records f) db.
Proof.
  induction f as [|paper rest IH|e]; intros db count errors.
  - exists count, errors. simpl. repeat split; lia.
  - cbn [records failure List.length].
    unfold loop, tables_after, raised, run_all.
    cbn [process fold_left count_errors].
    destruct (insert_or_update_paper _ _ _ paper db) as [db' [pid | ex]] eqn:E;
      cbn [fst].
    + destruct (IH db' (S count) errors) as (c & e' & Hrun & Hsum & Herr).
      exists c, e'. split; [exact Hrun|]. split; [lia | exact Herr].
    + destruct (IH db' count (S errors)) as (c & e' & Hrun & Hsum & Herr).
      exists c, e'. split; [exact Hrun|]. split; [lia|].
      fold (raised (records rest) db'). lia.
  - exists count, errors. simpl. repeat split; lia.
Qed.

Lemma fetch_batch_commits (cap : nat) (matching : feed) (db : DB) :
  failure (results cap matching) = None ->
  exists count errors,
    batch cap matching db
    = (mkConn (tables_after (records (results cap matching)) db)
         (tables_after (records (results cap matching)) db) [Commit],
       Ok (count, errors))
    /\ errors = raised (records (results cap matching)) db
    /\ count + errors = List.length (records (results cap matching)).
Proof.
  intros Hend. unfold batch, fetch_batch.
  destruct (process_spec (results cap matching) db 0 0)
    as (c & e & Hrun & Hsum & Herr).
  unfold loop in Hrun. cbn [get_db_connection session committed history].
  rewrite Hrun, Hend. exists c, e. repeat split; [exact Herr | lia].
Qed.

Lemma fetch_batch_rolls_back (cap : nat) (matching : feed) (db : DB) (e : exn) :
  failure (results cap matching) = Some e ->
  batch cap matching db = (mkConn db db [Rollback], Raise e).
Proof.
  intros Hfail. unfold batch, fetch_batch.
  destruct (process_spec (results cap matching) db 0 0)
    as (c & e' & Hrun & _).
  unfold loop in Hrun. cbn [get_db_connection session committed history].
  now rewrite Hrun, Hfail.
Qed.

Lemma fetch_batch_capped (cap : nat) (matching : feed) (db : DB)
      (conn : Conn) (count errors : nat) :
  batch cap matching db = (conn, Ok (count, errors)) ->
  count + errors <= cap.
Proof.
  intros Hrun.
  destruct (failure (results cap matching)) as [e|] eqn:Hf.
  - rewrite (fetch_batch_rolls_back cap matching db e Hf) in Hrun. discriminate.
  - destruct (fetch_batch_commits cap matching db Hf) as (c & e & Heq & _ & Hsum).
    rewrite Heq in Hrun. inversion Hrun; subst.
    pose proof (results_records_length cap matching). lia.
Qed.

Lemma fetch_batch_ignores_rest (first : list ArxivResult) (rest : feed) (db : DB) :
  batch (List.length first) (deliver first rest) db
  = batch (List.length first) (deliver first Done) db.
Proof.
  unfold batch, fetch_batch.
  rewrite !results_deliver. reflexivity.
Qed.

(** C3, as the code has it.  In both batch modes a record whose upsert
    raises is counted in [errors] and the loop goes on with the tables as
    the statements of that upsert left them; when the listing ends the
    batch is committed once, and what is committed is what all the
    upserts left, those that raised included; when the iterator raises,
    the batch is rolled back as a whole and the exception is raised
    again. *)
Theorem batch_commit_and_rollback :
  forall matching db,
    batch_outcome accepts_paper accepts_author duplicate_link 500
      (fetch_recent_papers accepts_paper accepts_author duplicate_link)
      matching db
    /\ (forall start_date_str end_date_str d1 d2,
           strptime start_date_str = Ok d1 ->
           strptime end_date_str = Ok d2 ->
           batch_outcome accepts_paper accepts_author duplicate_link 5000
             (fetch_date_range accepts_paper accepts_author duplicate_link
                start_date_str end_date_str)
             matching db).
Proof.
  intros matching db. split.
  - split.
    + intros Hend. apply (fetch_batch_commits 500 matching db Hend).
    + intros e He. apply (fetch_batch_rolls_back 500 matching db e He).
  - intros s1 s2 d1 d2 H1 H2. unfold fetch_date_range. rewrite H1, H2. split.
    + intros Hend. apply (fetch_batch_commits 5000 matching db Hend).
    + intros e He. apply (fetch_batch_rolls_back 5000 matching db e He).
Qed.

(** C10.  A run of the recent-window mode counts at most 500 records and
    a run of the backfill mode at most 5000, successes and errors
    together; what the API would send after the first 500 (5000) records
    of the listing has no effect on the run. *)
Theorem batch_caps :
  forall db,
    (forall matching conn count errors,
        fetch_recent_papers accepts_paper accepts_author duplicate_link
          matching db = (conn, Ok (count, errors)) ->
        count + errors <= 500)
    /\ (forall first rest,
           List.length first = 500 ->
           fetch_recent_papers accepts_paper accepts_author duplicate_link
             (deliver first rest) db
           = fetch_recent_papers accepts_paper accepts_author duplicate_link
               (deliver first Done) db)
    /\ (forall s1 s2 matching conn count errors,
           fetch_date_range accepts_paper accepts_author duplicate_link
             s1 s2 matching db = (conn, Ok (count, errors)) ->
           count + errors <= 5000)
    /\ (forall s1 s2 first rest,
           List.length first = 5000 ->
           fetch_date_range accepts_paper accepts_author duplicate_link
             s1 s2 (deliver first rest) db
           = fetch_date_range accepts_paper accepts_author duplicate_link
               s1 s2 (deliver first Done) db).
Proof.
  intros db. split; [|split; [|split]].
  - intros matching conn count errors Hrun.
    apply (fetch_batch_capped 500 matching db conn count errors Hrun).
  - intros first rest Hlen. unfold fetch_recent_papers. rewrite <- Hlen.
    apply fetch_batch_ignores_rest.
  - intros s1 s2 matching conn count errors. unfold fetch_date_range.
    destruct (strptime s1); [destruct (strptime s2)|]; try discriminate.
    apply fetch_batch_capped.
  - intros s1 s2 first rest Hlen. unfold fetch_date_range.
    destruct (strptime s1); [destruct (strptime s2)|]; try reflexivity.
    rewrite <- Hlen. apply fetch_batch_ignores_rest.
Qed.

End Batches.

(** ** The upsert *)

Lemma find_app_some (A : Type) (f : A -> bool) (l l' : list A) (x : A) :
  find f l = Some x -> find f (l ++ l')%list = Some x.
Proof.
  induction l as [|y l IH]; simpl; [discriminate|].
  destruct (f y); auto.
Qed.

Lemma find_app_none (A : Type) (f : A -> bool) (l l' : list A) :
  find f l = None -> find f (l ++ l')%list = find f l'.
Proof.
  induction l as [|y l IH]; simpl; [reflexivity|].
  destruct (f y); [discriminate | auto].
Qed.

Lemma select_author_some (db : DB) (name : string) (a : AuthorRow) :
  select_author db name = Some a -> In a (authors db) /\ a_name a = name.
Proof.
  unfold select_author. intros H. apply find_some in H as [Hin Heq].
  split; [assumption | now apply String.eqb_eq].
Qed.

Lemma select_author_none (db : DB) (name : string) :
  select_author db name = None -> ~ In name (map a_name (authors db)).
Proof.
  unfold select_author. intros Hnone Hin.
  apply in_map_iff in Hin as (a & Hname & Hin).
  pose proof (find_none _ _ Hnone a Hin) as H. simpl in H.
  rewrite Hname, String.eqb_refl in H. discriminate.
Qed.

Lemma select_author_same (db db' : DB) (name : string) :
  authors db' = authors db -> select_author db' name = select_author db name.
Proof. unfold select_author. now intros ->. Qed.

Lemma select_author_grows (db db' : DB) (extra : list AuthorRow)
      (name : string) (a : AuthorRow) :
  authors db' = (authors db ++ extra)%list ->
  select_author db name = Some a ->
  select_author db' name = Some a.
Proof. unfold select_author. intros -> H. now apply find_app_some. Qed.

Lemma filter_map_same (A : Type) (f : A -> bool) (g : A -> A) (l : list A) :
  (forall x, f (g x) = f x) -> filter f (map g l) = map g (filter f l).
Proof.
  intros Hfg. induction l as [|x l IH]; simpl; [reflexivity|].
  rewrite Hfg. destruct (f x); simpl; now rewrite IH.
Qed.

Lemma find_map_same (A : Type) (f : A -> bool) (g : A -> A) (l : list A) :
  (forall x, f (g x) = f x) -> find f (map g l) = option_map g (find f l).
Proof.
  intros Hfg. induction l as [|x l IH]; simpl; [reflexivity|].
  rewrite Hfg. destruct (f x); simpl; auto.
Qed.

Lemma select_paper_none (db : DB) (x : string) :
  select_paper db x = None -> ~ In x (map p_arxiv_id (papers db)).
Proof.
  unfold select_paper. intros Hnone Hin.
  apply in_map_iff in Hin as (p & Hx & Hin).
  pose proof (find_none _ _ Hnone p Hin) as H. simpl in H.
  rewrite Hx, String.eqb_refl in H. discriminate.
Qed.

Lemma rows_with_unique (db : DB) (p : PaperRow) :
  NoDup (map p_arxiv_id (papers db)) ->
  In p (papers db) ->
  rows_with db (p_arxiv_id p) = [p].
Proof.
  intros Hnd Hin. unfold rows_with. apply filter_unique.
  - now apply NoDup_map_inv in Hnd.
  - exact Hin.
  - intros q Hq. rewrite String.eqb_eq. split.
    + intros Heq. now apply (NoDup_map_eq _ _ p_arxiv_id (papers db)).
    + now intros ->.
Qed.

Lemma rewritten_id (paper_id : nat) (paper : ArxivResult) (p : PaperRow) :
  p_id (rewritten paper_id paper p) = p_id p.
Proof.
  unfold rewritten. destruct (p_id p =? paper_id)%nat eqn:E; [|reflexivity].
  apply Nat.eqb_eq in E. now simpl.
Qed.

Lemma rewritten_arxiv_id (paper_id : nat) (paper : ArxivResult) (p : PaperRow) :
  p_arxiv_id (rewritten paper_id paper p) = p_arxiv_id p.
Proof. unfold rewritten. now destruct (p_id p =? paper_id)%nat. Qed.


Section Upsert.

Variable accepts_paper : PaperRow -> bool.
Variable accepts_author : string -> bool.
Variable duplicate_link : PaperAuthor -> PaperAuthor -> bool.

Let add_author := insert_author accepts_author.
Let add_links := link_authors accepts_author duplicate_link.
Let row_phase := upsert_row accepts_paper.
Let upsert := insert_or_update_paper accepts_paper accepts_author duplicate_link.

Lemma insert_author_spec (name : string) (db : DB) :
  accepts_author name = true ->
  authors_ok db ->
  exists db0 a0,
    add_author name db = (db0, Ok (a_id a0))
    /\ select_author db0 name = Some a0
    /\ authors_ok db0
    /\ (exists extra, authors db0 = (authors db ++ extra)%list)
    /\ papers db0 = papers db
    /\ paper_authors db0 = paper_authors db
    /\ tags db0 = tags db
    /\ paper_tags db0 = paper_tags db
    /\ next_paper_id db0 = next_paper_id db
    /\ next_tag_id db0 = next_tag_id db
    /\ next_author_id db <= next_author_id db0
    /\ (select_author db name = Some a0 \/ a_id a0 = next_author_id db)
    /\ (forall m a, m <> name -> select_author db0 m = Some a ->
                    select_author db m = Some a).
Proof.
  intros Hacc (Hnd & Hnext & Hnames). unfold add_author, insert_author.
  rewrite Hacc.
  destruct (select_author db name) as [a|] eqn:Hsel.
  - exists db, a. repeat split; auto.
    + exists []. now rewrite app_nil_r.
  - set (a0 := mkAuthor (next_author_id db) name).
    eexists. exists a0. split; [reflexivity|]. cbn [authors papers
      paper_authors tags paper_tags next_paper_id next_tag_id next_author_id].
    assert (Hfresh : ~ In (next_author_id db) (map a_id (authors db))).
    { intros Hin. apply in_map_iff in Hin as (b & Hb & Hin).
      rewrite Forall_forall in Hnext. specialize (Hnext b Hin). lia. }
    repeat split; auto.
    + unfold select_author in *. fields.
      rewrite find_app_none by exact Hsel. simpl. now rewrite String.eqb_refl.
    + fields. rewrite map_app. now apply NoDup_snoc.
    + fields. apply Forall_app. split.
      * eapply Forall_impl; [|exact Hnext]. simpl. intros; lia.
      * constructor; [simpl; lia | constructor].
    + fields. rewrite map_app. apply NoDup_snoc; [assumption|]. simpl.
      now apply select_author_none.
    + now exists [a0].
    + intros m a Hm. unfold select_author. fields.
      destruct (find (fun a => String.eqb (a_name a) m) (authors db)) eqn:E.
      * rewrite (find_app_some _ _ _ [a0] _ E). auto.
      * rewrite find_app_none by exact E. simpl.
        destruct (String.eqb name m) eqn:Enm; [|discriminate].
        apply String.eqb_eq in Enm. congruence.
Qed.

Lemma link_authors_returns (paper_id : nat) (names : list string) :
  forall order db db' r,
    add_links paper_id order names db = (db', Ok r) ->
    Forall (fun n => accepts_author n = true) names.
Proof.
  induction names as [|n rest IH]; intros order db db' r Hrun; [constructor|].
  unfold add_links in Hrun. cbn [link_authors] in Hrun. unfold bind in Hrun.
  unfold insert_author at 1 in Hrun.
  destruct (accepts_author n) eqn:Hacc; [|discriminate].
  constructor; [exact Hacc|].
  destruct (select_author db n) as [a|].
  - destruct (insert_ignore_paper_author _ _ db) as [db1 [u|e]] eqn:E;
      [|unfold insert_ignore_paper_author in E;
        destruct (existsb _ _) in E; discriminate].
    eapply IH. exact Hrun.
  - destruct (insert_ignore_paper_author _ _ _) as [db1 [u|e]] eqn:E;
      [|unfold insert_ignore_paper_author in E;
        destruct (existsb _ _) in E; discriminate].
    eapply IH. exact Hrun.
Qed.

Lemma insert_link_spec (link : PaperAuthor) (db : DB) :
  (forall old, In old (paper_authors db) -> duplicate_link old link = false) ->
  insert_ignore_paper_author duplicate_link link db
  = (mkDB (papers db) (authors db) (paper_authors db ++ [link])%list (tags db)
       (paper_tags db) (next_paper_id db) (next_author_id db) (next_tag_id db),
     Ok tt).
Proof.
  intros Hfree. unfold insert_ignore_paper_author.
  destruct (existsb _ (paper_authors db)) eqn:E; [|reflexivity].
  apply existsb_exists in E as (old & Hold & Hdup).
  rewrite (Hfree old Hold) in Hdup. discriminate.
Qed.

(** The loop over distinct names, started where no stored link of the
    paper is in the way: every name gets its author row and one link,
    at its position. *)
Lemma link_authors_spec (paper_id : nat) (names : list string) :
  key_within_paper duplicate_link ->
  forall order db,
    authors_ok db ->
    NoDup names ->
    Forall (fun n => accepts_author n = true) names ->
    no_clash paper_id order names db ->
    exists db',
      add_links paper_id order names db = (db', Ok tt)
      /\ authors_ok db'
      /\ (exists extra, authors db' = (authors db ++ extra)%list)
      /\ papers db' = papers db
      /\ tags db' = tags db
      /\ paper_tags db' = paper_tags db
      /\ next_paper_id db' = next_paper_id db
      /\ next_tag_id db' = next_tag_id db
      /\ Forall (fun n => select_author db' n <> None) names
      /\ paper_authors db'
         = (paper_authors db
            ++ map (link_for db' paper_id) (enumerate order names))%list.
Proof.
  intros key_ok.
  induction names as [|n rest IH]; intros order db Hok Hnd Hacc Hfree.
  - exists db. simpl. repeat split; try apply Hok; auto.
    + exists []. now rewrite app_nil_r.
    + now rewrite app_nil_r.
  - inversion Hnd as [|? ? Hn Hrest]; subst.
    inversion Hacc as [|? ? Hacc_n Hacc_rest]; subst.
    destruct (insert_author_spec n db Hacc_n Hok)
      as (db0 & a0 & Hins & Hsel0 & Hok0 & [ext0 Hext0] & Hp0 & Hl0 & Ht0
          & Hpt0 & Hnp0 & Hnt0 & Hnext0 & Horigin & Hback).
    destruct (select_author_some _ _ _ Hsel0) as [Hin0 Hname0].
    set (link := mkPaperAuthor paper_id (a_id a0) order).
    assert (Hnodup : forall old, In old (paper_authors db0) ->
                                 duplicate_link old link = false).
    { intros old Hold. destruct (duplicate_link old link) eqn:E; [|reflexivity].
      exfalso. destruct (key_ok _ _ E) as [Hpaper Hcol]. simpl in Hpaper, Hcol.
      rewrite Hl0 in Hold.
      destruct (Hfree old Hold Hpaper) as (Hord & Hid & Hothers).
      destruct Hcol as [Hsame | Hsame]; [|lia].
      destruct Horigin as [Hfound | Hnew]; [|lia].
      apply (Hothers n a0); [now left | assumption | congruence]. }
    set (db1 := mkDB (papers db0) (authors db0) (paper_authors db0 ++ [link])%list
                  (tags db0) (paper_tags db0) (next_paper_id db0)
                  (next_author_id db0) (next_tag_id db0)).
    assert (Hok1 : authors_ok db1) by exact Hok0.
    assert (Hfree1 : no_clash paper_id (S order) rest db1).
    { intros pa Hpa Hpaper. unfold db1 in Hpa. fields.
      apply in_app_or in Hpa as [Hold | [<- | []]].
      - rewrite Hl0 in Hold.
        destruct (Hfree pa Hold Hpaper) as (Hord & Hid & Hothers).
        split; [lia|]. split; [unfold db1; fields; lia|].
        intros m a Hm Hsel.
        rewrite (select_author_same db0 db1 m eq_refl) in Hsel.
        apply (Hothers m a); [now right|].
        apply Hback; [|assumption]. intros ->. contradiction.
      - simpl. split; [lia|]. split.
        + destruct Hok0 as (_ & Hlt & _). rewrite Forall_forall in Hlt.
          apply (Hlt a0 Hin0).
        + intros m a Hm Hsel Heq.
          rewrite (select_author_same db0 db1 m eq_refl) in Hsel.
          destruct (select_author_some _ _ _ Hsel) as [Hin Hname].
          assert (a = a0)
            by (apply (NoDup_map_eq _ _ a_id (authors db0)); auto; apply Hok0).
          subst a. apply Hn. congruence. }
    destruct (IH (S order) db1 Hok1 Hrest Hacc_rest Hfree1)
      as (db' & Hrun & Hok' & [ext Hext] & Hp & Ht & Hpt & Hnp & Hnt
          & Hall & Hlinks).
    assert (Hsel' : select_author db' n = Some a0).
    { apply (select_author_grows db1 db' ext n a0 Hext).
      now rewrite (select_author_same db0 db1 n eq_refl). }
    exists db'. split.
    { unfold add_links. cbn [link_authors]. unfold bind.
      unfold add_author in Hins. rewrite Hins. cbv beta iota.
      pose proof (insert_link_spec link db0 Hnodup) as Hil.
      unfold link in Hil. rewrite Hil. exact Hrun. }
    split; [exact Hok'|]. split.
    { exists (ext0 ++ ext)%list. rewrite Hext. unfold db1. fields.
      rewrite Hext0. now rewrite app_assoc. }
    unfold db1 in *. fields.
    repeat split; try congruence.
    + constructor; [congruence | exact Hall].
    + rewrite Hlinks, Hl0. cbn [enumerate map]. rewrite <- app_assoc.
      cbn [app]. do 2 f_equal.
      unfold link, link_for, author_id_of. cbn [fst snd]. now rewrite Hsel'.
Qed.



Lemma upsert_row_spec (paper : ArxivResult) (db db1 : DB) (paper_id : nat) :
  well_formed db ->
  row_phase paper db = (db1, Ok paper_id) ->
  rows_with db1 (external_id paper)
  = [row_of paper_id (external_id paper) paper]
  /\ select_paper db1 (external_id paper)
     = Some (row_of paper_id (external_id paper) paper)
  /\ links_of db1 paper_id = []
  /\ well_formed db1
  /\ (forall r, In r (papers db1) -> p_id r = paper_id ->
                r = row_of paper_id (p_arxiv_id r) paper
                /\ accepts_paper r = true).
Proof.
  intros Hwf. unfold row_phase, upsert_row, bind, select_paper_id.
  set (x := external_id paper).
  destruct (select_paper db x) as [p|] eqn:Hsel; cbn [option_map].
  - (* the paper is known: UPDATE, then DELETE *)
    destruct (select_paper_some _ _ _ Hsel) as [Hin Hx].
    unfold update_paper.
    destruct (forallb _ (papers db)) eqn:Hacc; [|discriminate].
    unfold delete_paper_authors, ret. fields.
    intros Heq. inversion Heq; subst db1 paper_id. clear Heq.
    fold (rewritten (p_id p) paper).
    assert (Hids : map p_id (map (rewritten (p_id p) paper) (papers db))
                   = map p_id (papers db)).
    { rewrite map_map. apply map_ext. apply rewritten_id. }
    assert (Hrow : rewritten (p_id p) paper p = row_of (p_id p) x paper).
    { unfold rewritten. now rewrite Nat.eqb_refl, Hx. }
    split; [|split; [|split; [|split]]].
    + unfold rows_with. fields. rewrite filter_map_same
        by (intros q; now rewrite rewritten_arxiv_id).
      fold (rows_with db x). rewrite <- Hx at 1.
      rewrite rows_with_unique by (auto; apply Hwf). simpl. now rewrite Hrow.
    + unfold select_paper in *. fields. rewrite find_map_same
        by (intros q; now rewrite rewritten_arxiv_id).
      rewrite Hsel. simpl. now rewrite Hrow.
    + unfold links_of. fields. apply filter_none. intros pa Hpa.
      apply filter_In in Hpa as [_ Hpa]. now apply negb_true_iff in Hpa.
    + destruct Hwf. constructor; fields; auto.
      * now rewrite Hids.
      * rewrite map_map. erewrite map_ext; [eassumption|].
        intros q. apply rewritten_arxiv_id.
      * apply Forall_forall. intros q Hq.
        apply in_map_iff in Hq as (q0 & <- & Hq0). rewrite rewritten_id.
        rewrite Forall_forall in wf_paper_next0. auto.
      * apply Forall_forall. intros pa Hpa. apply filter_In in Hpa as [Hpa _].
        rewrite Hids. rewrite Forall_forall in wf_links0. auto.
    + intros r Hr Hid. apply in_map_iff in Hr as (q & <- & Hq).
      rewrite rewritten_id in Hid. rewrite rewritten_arxiv_id.
      unfold rewritten. rewrite (proj2 (Nat.eqb_eq _ _) Hid). split; [reflexivity|].
      rewrite forallb_forall in Hacc. specialize (Hacc q Hq).
      now rewrite (proj2 (Nat.eqb_eq _ _) Hid) in Hacc.
  - (* the paper is new: INSERT *)
    unfold insert_paper.
    destruct (accepts_paper (row_of (next_paper_id db) x paper)) eqn:Hacc;
      [|discriminate].
    intros Heq. inversion Heq; subst db1 paper_id. clear Heq.
    set (row := row_of (next_paper_id db) x paper) in *.
    assert (Hfresh : forall q, In q (papers db) -> p_id q <> next_paper_id db).
    { intros q Hq. destruct Hwf. rewrite Forall_forall in wf_paper_next0.
      specialize (wf_paper_next0 q Hq). lia. }
    split; [|split; [|split; [|split]]].
    + unfold rows_with. fields. rewrite filter_app. simpl.
      rewrite String.eqb_refl. rewrite filter_none; [reflexivity|].
      intros q Hq. unfold select_paper in Hsel.
      apply (find_none _ _ Hsel q Hq).
    + unfold select_paper in *. fields. rewrite find_app_none by exact Hsel.
      simpl. now rewrite String.eqb_refl.
    + unfold links_of. fields. apply filter_none. intros pa Hpa.
      destruct Hwf. rewrite Forall_forall in wf_links0.
      apply wf_links0 in Hpa. apply in_map_iff in Hpa as (q & Hq & Hin).
      apply Nat.eqb_neq. rewrite <- Hq. now apply Hfresh.
    + destruct Hwf. constructor; fields; auto.
      * rewrite map_app. apply NoDup_snoc; [assumption|]. simpl.
        intros Hin. apply in_map_iff in Hin as (q & Hq & Hin).
        now apply (Hfresh q).
      * rewrite map_app. apply NoDup_snoc; [assumption|]. simpl.
        now apply select_paper_none.
      * apply Forall_app. split.
        -- eapply Forall_impl; [|eassumption]. simpl. intros; lia.
        -- constructor; [simpl; lia | constructor].
      * eapply Forall_impl; [|eassumption]. simpl. intros pa Hpa.
        rewrite map_app. apply in_or_app. now left.
    + intros r Hr Hid. fields. apply in_app_or in Hr as [Hr | [<- | []]].
      * now apply Hfresh in Hr.
      * split; [reflexivity | exact Hacc].
Qed.

Lemma no_clash_fresh (paper_id order : nat) (names : list string) (db : DB) :
  links_of db paper_id = [] -> no_clash paper_id order names db.
Proof.
  intros Hnone pa Hpa Hpaper. exfalso.
  assert (Hin : In pa (links_of db paper_id)).
  { apply filter_In. split; [assumption | now apply Nat.eqb_eq]. }
  rewrite Hnone in Hin. contradiction.
Qed.

Lemma new_links_of_paper (db : DB) (paper_id order : nat) (names : list string) :
  Forall (fun pa => pa_paper_id pa = paper_id)
    (map (link_for db paper_id) (enumerate order names)).
Proof.
  revert order. induction names as [|n rest IH]; intros order; simpl;
    constructor; auto.
Qed.



(** The loop over any list of names the store accepts: every name gets its
    author row, and the links are offered to [INSERT IGNORE] one after the
    other, in the order of the record. *)
Lemma link_authors_runs (paper_id : nat) (names : list string) :
  forall order db,
    authors_ok db ->
    Forall (fun n => accepts_author n = true) names ->
    exists db',
      add_links paper_id order names db = (db', Ok tt)
      /\ authors_ok db'
      /\ (exists extra, authors db' = (authors db ++ extra)%list)
      /\ papers db' = papers db
      /\ tags db' = tags db
      /\ paper_tags db' = paper_tags db
      /\ next_paper_id db' = next_paper_id db
      /\ next_tag_id db' = next_tag_id db
      /\ Forall (fun n => select_author db' n <> None) names
      /\ paper_authors db'
         = insert_all duplicate_link (paper_authors db)
             (map (link_for db' paper_id) (enumerate order names)).
Proof.
  induction names as [|n rest IH]; intros order db Hok Hacc.
  - exists db. simpl. repeat split; try apply Hok; auto.
    exists []. now rewrite app_nil_r.
  - inversion Hacc as [|? ? Hacc_n Hacc_rest]; subst.
    destruct (insert_author_spec n db Hacc_n Hok)
      as (db0 & a0 & Hins & Hsel0 & Hok0 & [ext0 Hext0] & Hp0 & Hl0 & Ht0
          & Hpt0 & Hnp0 & Hnt0 & _).
    set (link := mkPaperAuthor paper_id (a_id a0) order).
    set (db1 := mkDB (papers db0) (authors db0)
                  (insert_all duplicate_link (paper_authors db0) [link])
                  (tags db0) (paper_tags db0) (next_paper_id db0)
                  (next_author_id db0) (next_tag_id db0)).
    assert (Hstep : insert_ignore_paper_author duplicate_link link db0
                    = (db1, Ok tt)).
    { unfold insert_ignore_paper_author, db1. cbn [insert_all].
      destruct (existsb _ (paper_authors db0)); [now rewrite db_eta | reflexivity]. }
    assert (Hok1 : authors_ok db1) by exact Hok0.
    destruct (IH (S order) db1 Hok1 Hacc_rest)
      as (db' & Hrun & Hok' & [ext Hext] & Hp & Ht & Hpt & Hnp & Hnt
          & Hall & Hlinks).
    assert (Hsel' : select_author db' n = Some a0).
    { apply (select_author_grows db1 db' ext n a0 Hext).
      now rewrite (select_author_same db0 db1 n eq_refl). }
    exists db'. split.
    { unfold add_links. cbn [link_authors]. unfold bind.
      unfold add_author in Hins. rewrite Hins. cbv beta iota.
      unfold link in Hstep. rewrite Hstep. exact Hrun. }
    split; [exact Hok'|]. split.
    { exists (ext0 ++ ext)%list. rewrite Hext. unfold db1. fields.
      rewrite Hext0. now rewrite app_assoc. }
    unfold db1 in *. fields.
    repeat split; try congruence.
    + constructor; [congruence | exact Hall].
    + rewrite Hlinks, Hl0. cbn [enumerate map insert_all].
      assert (Hlf : link_for db' paper_id (order, n) = link).
      { unfold link, link_for, author_id_of. cbn [fst snd]. now rewrite Hsel'. }
      now rewrite Hlf.
Qed.


(** Where the store accepts the values of the record, the upsert returns. *)
Lemma upsert_returns (paper : ArxivResult) (db : DB) :
  well_formed db ->
  (forall row, accepts_paper row = true) ->
  Forall (fun n => accepts_author n = true) (authors_of paper) ->
  exists db' paper_id,
    insert_or_update_paper accepts_paper accepts_author duplicate_link paper db
    = (db', Ok paper_id).
Proof.
  intros Hwf Hrows Hnames. unfold insert_or_update_paper, bind.
  destruct (upsert_row accepts_paper paper db) as [db1 [pid | e]] eqn:Hrow.
  - destruct (upsert_row_spec paper db db1 pid Hwf Hrow)
      as (_ & _ & _ & Hwf1 & _).
    assert (Hok1 : authors_ok db1) by (repeat split; apply Hwf1).
    destruct (link_authors_runs pid (authors_of paper) 1 db1 Hok1 Hnames)
      as (db' & Hrun & _).
    unfold add_links in Hrun. rewrite Hrun. now exists db', pid.
  - exfalso. revert Hrow. unfold upsert_row, bind, select_paper_id.
    destruct (select_paper db (external_id paper)) as [p|]; cbn [option_map].
    + unfold update_paper.
      destruct (forallb _ (papers db)) eqn:Hacc; [discriminate|].
      intros _. apply Bool.not_true_iff_false in Hacc. apply Hacc.
      apply forallb_forall. intros r _. rewrite Hrows. apply orb_true_r.
    + unfold insert_paper. now rewrite Hrows.
Qed.



End Upsert.

(** ** The properties on examples *)

Lemma empty_db_well_formed : well_formed empty_db.
Proof. concrete_wf. Qed.

Lemma one_paper_one_tag_well_formed : well_formed one_paper_one_tag.
Proof. concrete_wf. Qed.

Lemma paper_author_key_within_paper : key_within_paper paper_author_key.
Proof.
  intros a b H. unfold paper_author_key in H.
  apply andb_true_iff in H as [Hp Ha].
  apply Nat.eqb_eq in Hp, Ha. auto.
Qed.

(** A table without a unique key has no duplicate. *)
Lemma no_key_position_key : position_key (fun _ _ => false).
Proof. intros a b H. discriminate. Qed.



Lemma add_tag_twice_witness :
  well_formed one_paper_one_tag
  /\ select_paper one_paper_one_tag "2401.12345v1" <> None
  /\ any_tag "05E05" msc None = true
  /\ exists db1,
       add_tag_to_paper any_tag "2401.12345v1" "05E05" msc None one_paper_one_tag
       = (db1, true)
       /\ add_tag_to_paper any_tag "2401.12345v1" "05E05" msc None db1 = (db1, true)
       /\ List.length (links_between db1 "2401.12345v1" "05E05" msc) = 1.
Proof.
  assert (Hp : select_paper one_paper_one_tag "2401.12345v1" <> None)
    by discriminate.
  split; [exact one_paper_one_tag_well_formed|].
  split; [exact Hp|]. split; [reflexivity|].
  exact (proj1 (add_tag_twice any_tag one_paper_one_tag "2401.12345v1" "05E05"
                  msc None None)
           one_paper_one_tag_well_formed Hp (or_intror eq_refl)).
Defined.

Lemma batch_commit_and_rollback_witness :
  failure (results 500 two_records) = None
  /\ (exists count errors,
         fetch_recent_papers any_paper (varchar 255) paper_author_key
           two_records empty_db
         = (mkConn
              (run_all any_paper (varchar 255) paper_author_key
                 (records (results 500 two_records)) empty_db)
              (run_all any_paper (varchar 255) paper_author_key
                 (records (results 500 two_records)) empty_db)
              [Commit],
            Ok (count, errors))
         /\ errors = count_errors any_paper (varchar 255) paper_author_key
                       (records (results 500 two_records)) empty_db
         /\ count + errors = List.length (records (results 500 two_records)))
  /\ failure (results 500 broken_feed) = Some HTTPError
  /\ fetch_recent_papers any_paper (varchar 255) paper_author_key
       broken_feed empty_db
     = (mkConn empty_db empty_db [Rollback], Raise HTTPError)
  /\ strptime "2000-01-01" = Ok (mkDate 2000 1 1)
  /\ strptime "2000-12-31" = Ok (mkDate 2000 12 31)
  /\ fetch_date_range any_paper (varchar 255) paper_author_key
       "2000-01-01" "2000-12-31" broken_feed empty_db
     = (mkConn empty_db empty_db [Rollback], Raise HTTPError).
Proof.
  split; [reflexivity|].
  split.
  { exact (proj1 (proj1 (batch_commit_and_rollback any_paper (varchar 255)
                           paper_author_key two_records empty_db)) eq_refl). }
  split; [reflexivity|].
  split.
  { exact (proj2 (proj1 (batch_commit_and_rollback any_paper (varchar 255)
                           paper_author_key broken_feed empty_db))
             HTTPError eq_refl). }
  split; [reflexivity|]. split; [reflexivity|].
  exact (proj2 (proj2 (batch_commit_and_rollback any_paper (varchar 255)
                         paper_author_key broken_feed empty_db)
                  "2000-01-01" "2000-12-31" _ _ eq_refl eq_refl)
           HTTPError eq_refl).
Defined.

(** The upsert of the second record raises after it has inserted the paper
    row, the first author and the first link; the batch counts one error,
    and commits these rows with the rest. *)
Lemma failed_record_is_committed :
  snd (insert_or_update_paper any_paper (varchar 255) paper_author_key
         bad_record empty_db) = Raise DataError
  /\ (let conn := fst (fetch_recent_papers any_paper (varchar 255)
                         paper_author_key two_records empty_db) in
      snd (fetch_recent_papers any_paper (varchar 255) paper_author_key
             two_records empty_db) = Ok (1, 1)
      /\ history conn = [Commit]
      /\ map p_arxiv_id (papers (committed conn)) = ["2401.00001v1"; "2401.00002v1"]
      /\ map a_name (authors (committed conn)) = ["Jane A. Doe"; "John Roe"]
      /\ links_of (committed conn) 2 = [mkPaperAuthor 2 2 1]
      /\ map p_arxiv_id
           (papers (run_atomically any_paper (varchar 255) paper_author_key
                      (records two_records) empty_db))
         = ["2401.00001v1"]
      /\ committed conn
         <> run_atomically any_paper (varchar 255) paper_author_key
              (records two_records) empty_db).
Proof.
  split; [vm_compute; reflexivity|].
  split; [vm_compute; reflexivity|].
  split; [vm_compute; reflexivity|].
  split; [vm_compute; reflexivity|].
  split; [vm_compute; reflexivity|].
  split; [vm_compute; reflexivity|].
  split; [vm_compute; reflexivity|].
  intros H. apply (f_equal (fun db => List.length (papers db))) in H.
  vm_compute in H. discriminate.
Qed.

Lemma batch_caps_witness :
  List.length (repeat good_record 500) = 500
  /\ fetch_recent_papers any_paper any_author paper_author_key
       (deliver (repeat good_record 500) two_records) empty_db
     = fetch_recent_papers any_paper any_author paper_author_key
         (deliver (repeat good_record 500) Done) empty_db
  /\ fetch_recent_papers any_paper any_author paper_author_key
       two_records empty_db
     = (fst (fetch_recent_papers any_paper any_author paper_author_key
               two_records empty_db), Ok (2, 0))
  /\ 2 + 0 <= 500.
Proof.
  assert (Hlen : List.length (repeat good_record 500) = 500)
    by apply repeat_length.
  assert (Hrun : fetch_recent_papers any_paper any_author paper_author_key
                   two_records empty_db
                 = (fst (fetch_recent_papers any_paper any_author paper_author_key
                           two_records empty_db), Ok (2, 0)))
    by (vm_compute; reflexivity).
  split; [exact Hlen|].
  split.
  { exact (proj1 (proj2 (batch_caps any_paper any_author paper_author_key empty_db))
             (repeat good_record 500) two_records Hlen). }
  split; [exact Hrun|].
  exact (proj1 (batch_caps any_paper any_author paper_author_key empty_db)
           two_records _ 2 0 Hrun).
Defined.

(** * Further properties *)

(** ** The external ID of a record *)

Lemma split_go_no_separator (sep : string) (s : string) :
  forall cur,
    occurs sep s = false -> split_go sep 0 cur s = [cur ++ s].
Proof.
  induction s as [|c s IH]; intros cur Hno.
  - simpl. now rewrite append_nil_r.
  - cbn [occurs] in Hno. apply orb_false_iff in Hno as [Hhere Hlater].
    cbn [split_go]. rewrite Hhere. rewrite IH by exact Hlater.
    now rewrite snoc_append.
Qed.

(** X1.  The external ID stored for a record of the API is the text after
    [/abs/] in its entry URL, version marker included, for every ID in
    which [/abs/] does not occur (old-style IDs with a slash too). *)
Theorem external_id_of_entry_url :
  forall paper id,
    entry_id paper = "http://arxiv.org/abs/" ++ id ->
    occurs "/abs/" id = false ->
    external_id paper = id.
Proof.
  intros paper id Hurl Hno. unfold external_id, split. rewrite Hurl.
  cbn [append split_go String.prefix ascii_dec ascii_rec ascii_rect
       Bool.bool_dec bool_rec bool_rect sumbool_rec sumbool_rect
       String.length Nat.sub snoc].
  replace (String.prefix "" id) with true by (now destruct id).
  now rewrite split_go_no_separator.
Qed.

Lemma external_id_of_entry_url_witness :
  entry_id (example_paper "math/0601001v2" []) = "http://arxiv.org/abs/" ++ "math/0601001v2"
  /\ occurs "/abs/" "math/0601001v2" = false
  /\ external_id (example_paper "math/0601001v2" []) = "math/0601001v2".
Proof.
  split; [reflexivity|]. split; [reflexivity|].
  exact (external_id_of_entry_url (example_paper "math/0601001v2" [])
           "math/0601001v2" eq_refl eq_refl).
Defined.


(** ** The upsert, whatever its outcome *)

Lemma filter_filter_other (paper_id other : nat) (l : list PaperAuthor) :
  other <> paper_id ->
  filter (fun pa => (pa_paper_id pa =? other)%nat)
    (filter (fun pa => negb (pa_paper_id pa =? paper_id)%nat) l)
  = filter (fun pa => (pa_paper_id pa =? other)%nat) l.
Proof.
  intros Hne. induction l as [|pa l IH]; simpl; [reflexivity|].
  destruct (pa_paper_id pa =? paper_id)%nat eqn:E1; simpl.
  - apply Nat.eqb_eq in E1.
    destruct (pa_paper_id pa =? other)%nat eqn:E2; [|exact IH].
    apply Nat.eqb_eq in E2. congruence.
  - now rewrite IH.
Qed.

Lemma well_formed_of_parts (db db' : DB) :
  well_formed db ->
  papers db' = papers db ->
  next_paper_id db' = next_paper_id db ->
  tags db' = tags db ->
  paper_tags db' = paper_tags db ->
  authors_ok db' ->
  Forall (fun pa => In (pa_paper_id pa) (map p_id (papers db'))) (paper_authors db') ->
  well_formed db'.
Proof.
  intros Hwf Hp Hnp Ht Hpt (Hids & Hnext & Hnames) Hlinks.
  destruct Hwf. constructor; auto; try congruence.
  now rewrite Hp, Hnp.
Qed.

Section UpsertOutcomes.

Variable accepts_paper : PaperRow -> bool.
Variable accepts_author : string -> bool.
Variable duplicate_link : PaperAuthor -> PaperAuthor -> bool.

Lemma insert_author_any (name : string) (db db' : DB) (r : result nat) :
  insert_author accepts_author name db = (db', r) ->
  papers db' = papers db
  /\ paper_authors db' = paper_authors db
  /\ tags db' = tags db
  /\ paper_tags db' = paper_tags db
  /\ next_paper_id db' = next_paper_id db
  /\ next_tag_id db' = next_tag_id db
  /\ (exists extra, authors db' = (authors db ++ extra)%list)
  /\ (authors_ok db -> authors_ok db').
Proof.
  intros Hrun.
  assert (Hnil : exists extra, authors db = (authors db ++ extra)%list)
    by (exists []; now rewrite app_nil_r).
  destruct (accepts_author name) eqn:Hacc.
  - assert (Hframe : papers db' = papers db
                     /\ paper_authors db' = paper_authors db
                     /\ tags db' = tags db
                     /\ paper_tags db' = paper_tags db
                     /\ next_paper_id db' = next_paper_id db
                     /\ next_tag_id db' = next_tag_id db
                     /\ (exists extra, authors db' = (authors db ++ extra)%list)).
    { unfold insert_author in Hrun. rewrite Hacc in Hrun.
      destruct (select_author db name); inversion Hrun; subst; fields;
        conjs; auto.
      eexists. reflexivity. }
    destruct Hframe as (H1 & H2 & H3 & H4 & H5 & H6 & H7).
    conjs; auto. intros Hok.
    destruct (insert_author_spec accepts_author name db Hacc Hok)
      as (db0 & a0 & Hins & _ & Hok0 & _).
    rewrite Hrun in Hins. inversion Hins; subst. exact Hok0.
  - unfold insert_author in Hrun. rewrite Hacc in Hrun.
    inversion Hrun; subst. conjs; auto.
Qed.

(** The loop, however it ends: it touches [authors] and [paper_authors]
    only, adds rows only, and the links it adds are links of the paper. *)
Lemma link_authors_any (paper_id : nat) (names : list string) :
  forall order db db' r,
    link_authors accepts_author duplicate_link paper_id order names db = (db', r) ->
    papers db' = papers db
    /\ tags db' = tags db
    /\ paper_tags db' = paper_tags db
    /\ next_paper_id db' = next_paper_id db
    /\ next_tag_id db' = next_tag_id db
    /\ (exists extra, authors db' = (authors db ++ extra)%list)
    /\ (exists kept,
           paper_authors db' = (paper_authors db ++ kept)%list
           /\ Forall (fun pa => pa_paper_id pa = paper_id) kept)
    /\ (authors_ok db -> authors_ok db').
Proof.
  induction names as [|n rest IH]; intros order db db' r Hrun.
  - inversion Hrun; subst. conjs; auto.
    + exists []. now rewrite app_nil_r.
    + exists []. split; [now rewrite app_nil_r | constructor].
  - cbn [link_authors] in Hrun. unfold bind in Hrun.
    destruct (insert_author accepts_author n db) as [db0 [aid | e]] eqn:Hins.
    + destruct (insert_author_any n db db0 _ Hins)
        as (Hp0 & Hl0 & Ht0 & Hpt0 & Hnp0 & Hnt0 & [ext0 Hext0] & Hok0).
      destruct (insert_ignore_paper_author duplicate_link
                  (mkPaperAuthor paper_id aid order) db0)
        as [db1 [u | e]] eqn:Hlink.
      * assert (Hstep : papers db1 = papers db0 /\ authors db1 = authors db0
                        /\ tags db1 = tags db0 /\ paper_tags db1 = paper_tags db0
                        /\ next_paper_id db1 = next_paper_id db0
                        /\ next_author_id db1 = next_author_id db0
                        /\ next_tag_id db1 = next_tag_id db0
                        /\ exists kept1,
                             paper_authors db1 = (paper_authors db0 ++ kept1)%list
                             /\ Forall (fun pa => pa_paper_id pa = paper_id) kept1).
        { unfold insert_ignore_paper_author in Hlink.
          destruct (existsb _ (paper_authors db0)); inversion Hlink; subst; fields;
            conjs; auto.
          - exists []. split; [now rewrite app_nil_r | constructor].
          - eexists. split; [reflexivity|]. repeat constructor. }
        destruct Hstep as (Hp1 & Ha1 & Ht1 & Hpt1 & Hnp1 & Hna1 & Hnt1
                           & kept1 & Hl1 & Hk1).
        destruct (IH _ _ _ _ Hrun)
          as (Hp & Ht & Hpt & Hnp & Hnt & [ext Hext] & (kept & Hl & Hk) & Hok).
        conjs; try congruence.
        -- exists (ext0 ++ ext)%list. rewrite Hext, Ha1, Hext0.
           now rewrite app_assoc.
        -- exists (kept1 ++ kept)%list. split.
           ++ rewrite Hl, Hl1, Hl0. now rewrite app_assoc.
           ++ apply Forall_app. auto.
        -- intros Hok_db. apply Hok. specialize (Hok0 Hok_db).
           unfold authors_ok in *. now rewrite Ha1, Hna1.
      * unfold insert_ignore_paper_author in Hlink.
        destruct (existsb _ (paper_authors db0)); discriminate.
    + inversion Hrun; subst.
      destruct (insert_author_any n db db' _ Hins)
        as (Hp0 & Hl0 & Ht0 & Hpt0 & Hnp0 & Hnt0 & Hext0 & Hok0).
      conjs; auto.
      exists []. split; [now rewrite app_nil_r, Hl0 | constructor].
Qed.

(** The first half of the upsert raises on its first writing statement:
    nothing has changed then. *)
Lemma upsert_row_raises (paper : ArxivResult) (db db' : DB) (e : exn) :
  upsert_row accepts_paper paper db = (db', Raise e) -> db' = db.
Proof.
  unfold upsert_row, bind, select_paper_id.
  destruct (select_paper db (external_id paper)) as [p|]; cbn [option_map].
  - unfold update_paper.
    destruct (forallb _ (papers db)); [|now intros H; inversion H].
    unfold delete_paper_authors, ret. discriminate.
  - unfold insert_paper.
    destruct (accepts_paper _); [discriminate | now intros H; inversion H].
Qed.

(** What the first half leaves alone when it returns *)
Lemma upsert_row_frame (paper : ArxivResult) (db db1 : DB) (paper_id : nat) :
  well_formed db ->
  upsert_row accepts_paper paper db = (db1, Ok paper_id) ->
  authors db1 = authors db
  /\ next_author_id db1 = next_author_id db
  /\ tags db1 = tags db
  /\ paper_tags db1 = paper_tags db
  /\ paper_authors db1
     = filter (fun pa => negb (pa_paper_id pa =? paper_id)%nat) (paper_authors db)
  /\ (forall q, In q (papers db) -> p_arxiv_id q <> external_id paper ->
                In q (papers db1) /\ p_id q <> paper_id).
Proof.
  intros Hwf. unfold upsert_row, bind, select_paper_id.
  destruct (select_paper db (external_id paper)) as [p|] eqn:Hsel;
    cbn [option_map].
  - destruct (select_paper_some _ _ _ Hsel) as [Hin Hx].
    unfold update_paper.
    destruct (forallb _ (papers db)); [|discriminate].
    unfold delete_paper_authors, ret. fields.
    intros Heq. inversion Heq; subst db1 paper_id. clear Heq. fields.
    conjs; auto.
    intros q Hq Hother.
    assert (Hid : p_id q <> p_id p).
    { intros E.
      assert (q = p)
        by (apply (NoDup_map_eq _ _ p_id (papers db)); auto; apply Hwf).
      congruence. }
    split; [|exact Hid].
    apply in_map_iff. exists q. split; [|assumption].
    destruct (p_id q =? p_id p)%nat eqn:E; [|reflexivity].
    apply Nat.eqb_eq in E. contradiction.
  - unfold insert_paper. destruct (accepts_paper _); [|discriminate].
    intros Heq. inversion Heq; subst db1 paper_id. clear Heq. fields.
    conjs; auto.
    + symmetry. apply filter_all. intros pa Hpa. apply negb_true_iff.
      apply Nat.eqb_neq. destruct Hwf.
      rewrite Forall_forall in wf_links0, wf_paper_next0.
      specialize (wf_links0 pa Hpa).
      apply in_map_iff in wf_links0 as (q & Hq & Hin).
      specialize (wf_paper_next0 q Hin). lia.
    + intros q Hq Hother. split; [apply in_or_app; now left|].
      destruct Hwf. rewrite Forall_forall in wf_paper_next0.
      specialize (wf_paper_next0 q Hq). lia.
Qed.

(** X2.  Whether it returns or raises, the upsert of a record leaves the
    tag tables alone, removes or changes no author row (a name that had a
    row keeps that row), and leaves every paper with another external ID
    as it was, row and links. *)
Theorem upsert_leaves_the_rest :
  forall db paper db' r,
    well_formed db ->
    insert_or_update_paper accepts_paper accepts_author duplicate_link paper db
    = (db', r) ->
    tags db' = tags db
    /\ paper_tags db' = paper_tags db
    /\ (exists extra, authors db' = (authors db ++ extra)%list)
    /\ (forall n a, select_author db n = Some a -> select_author db' n = Some a)
    /\ (forall q, In q (papers db) -> p_arxiv_id q <> external_id paper ->
                  In q (papers db')
                  /\ links_of db' (p_id q) = links_of db (p_id q)).
Proof.
  intros db paper db' r Hwf Hrun.
  unfold insert_or_update_paper, bind, ret in Hrun.
  destruct (upsert_row accepts_paper paper db) as [db1 [pid | e]] eqn:Hrow.
  - destruct (upsert_row_frame paper db db1 pid Hwf Hrow)
      as (Ha1 & _ & Ht1 & Hpt1 & Hl1 & Hothers).
    destruct (link_authors accepts_author duplicate_link pid 1
                (authors_of paper) db1) as [db2 r2] eqn:Hloop.
    assert (db2 = db') by (destruct r2; inversion Hrun; auto). subst db2.
    destruct (link_authors_any pid _ _ _ _ _ Hloop)
      as (Hp & Ht & Hpt & _ & _ & [ext Hext] & (kept & Hl & Hk) & _).
    assert (Hgrow : authors db' = (authors db ++ ext)%list) by congruence.
    split; [congruence|]. split; [congruence|].
    split; [now exists ext|]. split.
    + intros n a Hsel. now apply (select_author_grows db db' ext).
    + intros q Hq Hx. destruct (Hothers q Hq Hx) as [Hin Hne].
      split; [now rewrite Hp|].
      unfold links_of. rewrite Hl, filter_app, Hl1.
      rewrite filter_filter_other by exact Hne.
      rewrite (filter_none _ (fun pa => (pa_paper_id pa =? p_id q)%nat) kept);
        [now rewrite app_nil_r|].
      intros pa Hpa. rewrite Forall_forall in Hk. rewrite (Hk pa Hpa).
      apply Nat.eqb_neq. auto.
  - inversion Hrun; subst.
    apply upsert_row_raises in Hrow. subst.
    conjs; auto. exists []. now rewrite app_nil_r.
Qed.

(** The upsert keeps the constraints of the schema, whatever its outcome. *)
Lemma upsert_keeps_schema (paper : ArxivResult) (db db' : DB) (r : result nat) :
  well_formed db ->
  insert_or_update_paper accepts_paper accepts_author duplicate_link paper db
  = (db', r) ->
  well_formed db'.
Proof.
  intros Hwf Hrun.
  unfold insert_or_update_paper, bind, ret in Hrun.
  destruct (upsert_row accepts_paper paper db) as [db1 [pid | e]] eqn:Hrow.
  - destruct (upsert_row_spec accepts_paper paper db db1 pid Hwf Hrow)
      as (_ & Hsel & _ & Hwf1 & _).
    destruct (link_authors accepts_author duplicate_link pid 1
                (authors_of paper) db1) as [db2 r2] eqn:Hloop.
    assert (db2 = db') by (destruct r2; inversion Hrun; auto). subst db2.
    destruct (link_authors_any pid _ _ _ _ _ Hloop)
      as (Hp & Ht & Hpt & Hnp & _ & _ & (kept & Hl & Hk) & Hok).
    apply (well_formed_of_parts db1 db' Hwf1 Hp Hnp Ht Hpt).
    + apply Hok. unfold authors_ok. conjs; apply Hwf1.
    + rewrite Hl, Hp. apply Forall_app. split; [apply Hwf1|].
      eapply Forall_impl; [|exact Hk]. intros pa Hpa. simpl in Hpa.
      rewrite Hpa. destruct (select_paper_some _ _ _ Hsel) as [Hin _].
      change pid with (p_id (row_of pid (external_id paper) paper)).
      now apply in_map.
  - inversion Hrun; subst. apply upsert_row_raises in Hrow. now subst.
Qed.

Lemma run_all_keeps_schema (l : list ArxivResult) :
  forall db,
    well_formed db ->
    well_formed (run_all accepts_paper accepts_author duplicate_link l db).
Proof.
  induction l as [|paper l IH]; intros db Hwf; [exact Hwf|].
  unfold run_all. cbn [fold_left]. apply IH.
  destruct (insert_or_update_paper _ _ _ paper db) as [db' r] eqn:E.
  apply (upsert_keeps_schema paper db db' r Hwf E).
Qed.

Lemma fetch_batch_keeps_schema (cap : nat) (matching : feed) (db : DB) :
  well_formed db ->
  keeps_schema
    (fst (fetch_batch accepts_paper accepts_author duplicate_link cap matching db)).
Proof.
  intros Hwf. unfold keeps_schema.
  destruct (failure (results cap matching)) as [e|] eqn:Hf.
  - now rewrite (fetch_batch_rolls_back _ _ _ cap matching db e Hf).
  - destruct (fetch_batch_commits accepts_paper accepts_author duplicate_link
                cap matching db Hf) as (c & e & Heq & _).
    rewrite Heq. cbn [fst committed]. now apply run_all_keeps_schema.
Qed.

(** X3.  Started on a catalogue that meets the constraints of the schema
    (primary and unique keys, counters, links that point to papers), the
    two batch modes and the single-ID fetch leave committed tables that
    meet them again, whatever the API sends and whichever upserts raise. *)
Theorem fetches_keep_schema :
  forall db matching,
    well_formed db ->
    keeps_schema
      (fst (fetch_recent_papers accepts_paper accepts_author duplicate_link
              matching db))
    /\ (forall start_date_str end_date_str,
           keeps_schema
             (fst (fetch_date_range accepts_paper accepts_author duplicate_link
                     start_date_str end_date_str matching db)))
    /\ keeps_schema
         (fst (fetch_by_arxiv_id accepts_paper accepts_author duplicate_link
                 matching db)).
Proof.
  intros db matching Hwf. split; [|split].
  - now apply fetch_batch_keeps_schema.
  - intros s1 s2. unfold fetch_date_range.
    destruct (strptime s1); [destruct (strptime s2)|];
      try exact Hwf. now apply fetch_batch_keeps_schema.
  - unfold fetch_by_arxiv_id, keeps_schema.
    destruct matching as [|paper rest|e]; try exact Hwf.
    cbn [get_db_connection session committed history].
    destruct (insert_or_update_paper _ _ _ paper db) as [db' [pid|e]] eqn:E;
      cbn [fst commit rollback committed session]; [|exact Hwf].
    apply (upsert_keeps_schema paper db db' _ Hwf E).
Qed.

End UpsertOutcomes.

Lemma fetches_keep_schema_witness :
  well_formed empty_db
  /\ keeps_schema
       (fst (fetch_recent_papers any_paper (varchar 255) paper_author_key
               two_records empty_db)).
Proof.
  split; [exact empty_db_well_formed|].
  exact (proj1 (fetches_keep_schema any_paper (varchar 255) paper_author_key
                  empty_db two_records empty_db_well_formed)).
Defined.

Lemma upsert_leaves_the_rest_witness :
  well_formed after_doe_and_roe
  /\ snd (insert_or_update_paper any_paper any_author paper_author_key
            two_wangs after_doe_and_roe) = Ok 2
  /\ links_of (fst (insert_or_update_paper any_paper any_author paper_author_key
                      two_wangs after_doe_and_roe)) 1
     = links_of after_doe_and_roe 1.
Proof.
  assert (Hwf : well_formed after_doe_and_roe).
  { exact (upsert_keeps_schema any_paper any_author paper_author_key
             doe_and_roe empty_db after_doe_and_roe (Ok 1)
             empty_db_well_formed eq_refl). }
  split; [exact Hwf|]. split; [reflexivity|].
  refine (proj2 (proj2 (proj2 (proj2 (proj2
            (upsert_leaves_the_rest any_paper any_author paper_author_key
               after_doe_and_roe two_wangs _ _ Hwf eq_refl))))
            (row_of 1 "2401.12345v1" doe_and_roe) _ _)).
  - left. reflexivity.
  - discriminate.
Defined.

(** ** Where a failed upsert stops, and what a read shows after an upsert *)

Lemma order_by_sorted (A : Type) (first : A -> A -> bool) (l : list A) :
  Sorted (fun a b => first a b = true) l -> order_by first l = l.
Proof.
  induction l as [|x l IH]; intros Hs; [reflexivity|].
  inversion Hs as [|? ? Hl Hhd]; subst.
  cbn [order_by fold_right]. fold (order_by first l). rewrite (IH Hl).
  destruct l as [|y l]; [reflexivity|].
  inversion Hhd; subst. cbn [insert_row].
  match goal with H : first x y = true |- _ => now rewrite H end.
Qed.

Lemma new_links_sorted (db : DB) (paper_id : nat) (names : list string) :
  forall order,
    Sorted (fun a b => by_author_order a b = true)
      (map (link_for db paper_id) (enumerate order names)).
Proof.
  induction names as [|n rest IH]; intros order; [constructor|].
  cbn [enumerate map]. constructor; [apply IH|].
  destruct rest as [|m rest]; cbn [enumerate map]; constructor.
  unfold by_author_order, link_for. cbn [pa_author_order fst].
  apply Nat.leb_le. lia.
Qed.

Lemma author_rows_of_id (db : DB) (a : AuthorRow) :
  NoDup (map a_id (authors db)) ->
  In a (authors db) ->
  filter (fun a' => (a_id a' =? a_id a)%nat) (authors db) = [a].
Proof.
  intros Hnd Hin. apply filter_unique.
  - now apply NoDup_map_inv in Hnd.
  - exact Hin.
  - intros b Hb. rewrite Nat.eqb_eq. split.
    + intros Heq. now apply (NoDup_map_eq _ _ a_id (authors db)).
    + now intros ->.
Qed.

Lemma names_of_new_links (db : DB) (paper_id : nat) (names : list string) :
  NoDup (map a_id (authors db)) ->
  Forall (fun n => select_author db n <> None) names ->
  forall order,
    flat_map
      (fun pa =>
         map a_name
           (filter (fun a => (a_id a =? pa_author_id pa)%nat) (authors db)))
      (map (link_for db paper_id) (enumerate order names))
    = names.
Proof.
  intros Hnd Hall. induction Hall as [|n rest Hn Hrest IH]; intros order;
    [reflexivity|].
  cbn [enumerate map flat_map]. rewrite IH.
  unfold link_for at 1, author_id_of. cbn [pa_author_id snd].
  destruct (select_author db n) as [a|] eqn:Hsel; [|congruence].
  destruct (select_author_some _ _ _ Hsel) as [Hin Hname].
  rewrite (author_rows_of_id db a Hnd Hin). simpl. now rewrite Hname.
Qed.

Section UpsertReadBack.

Variable accepts_paper : PaperRow -> bool.
Variable accepts_author : string -> bool.
Variable duplicate_link : PaperAuthor -> PaperAuthor -> bool.

Lemma link_authors_app (paper_id : nat) (l1 l2 : list string) :
  forall order db,
    link_authors accepts_author duplicate_link paper_id order (l1 ++ l2)%list db
    = match link_authors accepts_author duplicate_link paper_id order l1 db with
      | (db1, Ok _) =>
          link_authors accepts_author duplicate_link paper_id
            (order + List.length l1) l2 db1
      | (db1, Raise e) => (db1, Raise e)
      end.
Proof.
  induction l1 as [|n l1 IH]; intros order db.
  - cbn [app link_authors List.length]. unfold ret. now rewrite Nat.add_0_r.
  - cbn [app link_authors List.length]. unfold bind.
    destruct (insert_author accepts_author n db) as [db0 [aid | e]];
      [|reflexivity].
    destruct (insert_ignore_paper_author duplicate_link _ db0) as [db1 [u | e]];
      [|reflexivity].
    rewrite IH. now rewrite Nat.add_succ_comm.
Qed.

(** The state in which the loop over distinct names leaves a paper whose
    first half of the upsert has returned *)
Lemma links_after_row_phase (paper : ArxivResult) (db db1 : DB)
      (paper_id : nat) (names : list string) :
  key_within_paper duplicate_link ->
  well_formed db ->
  upsert_row accepts_paper paper db = (db1, Ok paper_id) ->
  NoDup names ->
  Forall (fun n => accepts_author n = true) names ->
  exists db2,
    link_authors accepts_author duplicate_link paper_id 1 names db1 = (db2, Ok tt)
    /\ papers db2 = papers db1
    /\ authors_ok db2
    /\ Forall (fun n => select_author db2 n <> None) names
    /\ links_of db2 paper_id = map (link_for db2 paper_id) (enumerate 1 names)
    /\ rows_with db2 (external_id paper)
       = [row_of paper_id (external_id paper) paper]
    /\ select_paper db2 (external_id paper)
       = Some (row_of paper_id (external_id paper) paper).
Proof.
  intros Hkey Hwf Hrow Hnd Hacc.
  destruct (upsert_row_spec accepts_paper paper db db1 paper_id Hwf Hrow)
    as (Hrows & Hsel & Hnone & Hwf1 & _).
  assert (Hok1 : authors_ok db1) by (unfold authors_ok; conjs; apply Hwf1).
  destruct (link_authors_spec accepts_author duplicate_link paper_id names Hkey
              1 db1 Hok1 Hnd Hacc (no_clash_fresh paper_id 1 _ db1 Hnone))
    as (db2 & Hrun & Hok2 & _ & Hp & _ & _ & _ & _ & Hall & Hlinks).
  exists db2. conjs; auto.
  - unfold links_of in *. rewrite Hlinks, filter_app, Hnone. simpl.
    apply filter_all. intros pa Hpa.
    pose proof (new_links_of_paper db2 paper_id 1 names) as Hpid.
    rewrite Forall_forall in Hpid. apply Nat.eqb_eq. auto.
  - unfold rows_with in *. now rewrite Hp.
  - unfold select_paper in *. now rewrite Hp.
Qed.

(** X4.  When the first half of the upsert has returned and the store
    refuses the name of an author, after authors with distinct names that
    it accepts, the upsert raises [DataError] and leaves the paper row
    written and exactly the links of the authors before the refused one,
    at their positions: the record is stored with a shortened author
    list. *)
Theorem upsert_stops_at_refused_author :
  forall db paper db1 paper_id done bad rest,
    key_within_paper duplicate_link ->
    well_formed db ->
    upsert_row accepts_paper paper db = (db1, Ok paper_id) ->
    authors_of paper = (done ++ bad :: rest)%list ->
    NoDup done ->
    Forall (fun n => accepts_author n = true) done ->
    accepts_author bad = false ->
    exists db',
      insert_or_update_paper accepts_paper accepts_author duplicate_link paper db
      = (db', Raise DataError)
      /\ rows_with db' (external_id paper)
         = [row_of paper_id (external_id paper) paper]
      /\ links_of db' paper_id = map (link_for db' paper_id) (enumerate 1 done)
      /\ select_author db' bad = select_author db bad.
Proof.
  intros db paper db1 pid done bad rest Hkey Hwf Hrow Hnames Hnd Hacc Hbad.
  destruct (links_after_row_phase paper db db1 pid done Hkey Hwf Hrow Hnd Hacc)
    as (db2 & Hrun & Hp & Hok2 & Hall & Hlinks & Hrows & Hsel).
  exists db2. split; [|split; [exact Hrows | split; [exact Hlinks|]]].
  - unfold insert_or_update_paper, bind. rewrite Hrow, Hnames.
    rewrite link_authors_app, Hrun.
    cbn [link_authors]. unfold bind, insert_author. now rewrite Hbad.
  - (* the refused name gets no row *)
    destruct (upsert_row_frame accepts_paper paper db db1 pid Hwf Hrow)
      as (Ha1 & _).
    destruct (select_author db bad) as [a|] eqn:Hsel_bad.
    + destruct (link_authors_any accepts_author duplicate_link pid _ _ _ _ _ Hrun)
        as (_ & _ & _ & _ & _ & [ext Hext] & _).
      apply (select_author_grows db db2 ext); [congruence | exact Hsel_bad].
    + clear Hlinks Hrows Hsel Hall.
      assert (Hgen : forall names order dbA dbB r,
                 ~ In bad names ->
                 select_author dbA bad = None ->
                 link_authors accepts_author duplicate_link pid order names dbA
                 = (dbB, r) ->
                 select_author dbB bad = None).
      { induction names as [|n names IH]; intros order dbA dbB r Hnot HA Hgo.
        - now inversion Hgo; subst.
        - cbn [link_authors] in Hgo. unfold bind in Hgo.
          assert (Hne : n <> bad) by (intros ->; apply Hnot; now left).
          destruct (insert_author accepts_author n dbA) as [db0 [aid|e]] eqn:Hins.
          + assert (H0 : select_author db0 bad = None).
            { unfold insert_author in Hins.
              destruct (accepts_author n); [|discriminate].
              destruct (select_author dbA n); inversion Hins; subst; auto.
              unfold select_author in *. fields.
              rewrite find_app_none by exact HA. simpl.
              destruct (String.eqb n bad) eqn:E; [|reflexivity].
              apply String.eqb_eq in E. contradiction. }
            unfold insert_ignore_paper_author in Hgo.
            destruct (existsb _ (paper_authors db0)).
            * apply (IH _ _ _ _ (fun H => Hnot (or_intror H)) H0 Hgo).
            * apply (IH _ _ _ _ (fun H => Hnot (or_intror H))) in Hgo; auto.
          + inversion Hgo; subst. unfold insert_author in Hins.
            destruct (accepts_author n); [|now inversion Hins; subst].
            destruct (select_author dbA n); discriminate. }
      apply (Hgen done 1 db1 db2 (Ok tt)); auto.
      * intros Hin. rewrite Forall_forall in Hacc.
        specialize (Hacc bad Hin). congruence.
      * unfold select_author in *. now rewrite Ha1.
Qed.

(** X5.  After the upsert of a record with distinct author names has
    returned, the presentation layer reads back what was ingested: the
    author list of the paper is the list of the record, in its order, and
    the detail route shows the values of the record with that list when
    the external ID is one segment of a path.  It answers 404 for an
    external ID with a slash: the page of an old-style ID cannot be
    reached. *)
Theorem upsert_then_paper_detail :
  forall db paper db' paper_id,
    key_within_paper duplicate_link ->
    well_formed db ->
    NoDup (authors_of paper) ->
    insert_or_update_paper accepts_paper accepts_author duplicate_link paper db
    = (db', Ok paper_id) ->
    get_paper_authors db' paper_id = authors_of paper
    /\ route_paper_detail db' (external_id paper)
       = (if path_segment (external_id paper)
          then render_paper (row_of paper_id (external_id paper) paper,
                             authors_of paper)
          else abort 404).
Proof.
  intros db paper db' pid Hkey Hwf Hnd Hrun.
  unfold insert_or_update_paper, bind, ret in Hrun.
  destruct (upsert_row accepts_paper paper db) as [db1 [pid1 | e]] eqn:Hrow;
    [|discriminate].
  destruct (link_authors accepts_author duplicate_link pid1 1
              (authors_of paper) db1) as [db2 [[] | e]] eqn:Hloop;
    [|discriminate].
  inversion Hrun; subst db2 pid1. clear Hrun.
  pose proof (link_authors_returns _ _ pid _ _ _ _ _ Hloop) as Hacc.
  destruct (links_after_row_phase paper db db1 pid (authors_of paper)
              Hkey Hwf Hrow Hnd Hacc)
    as (db3 & Hrun3 & _ & Hok & Hall & Hlinks & _ & Hsel).
  rewrite Hloop in Hrun3. inversion Hrun3; subst db3. clear Hrun3.
  assert (Hread : get_paper_authors db' pid = authors_of paper).
  { unfold get_paper_authors. fold (links_of db' pid). rewrite Hlinks.
    rewrite order_by_sorted by apply new_links_sorted.
    apply names_of_new_links; [apply Hok | exact Hall]. }
  split; [exact Hread|].
  unfold route_paper_detail, paper_detail.
  destruct (path_segment (external_id paper)); [|reflexivity].
  rewrite Hsel. cbn [p_id row_of]. now rewrite Hread.
Qed.

End UpsertReadBack.

Lemma upsert_stops_at_refused_author_witness :
  key_within_paper paper_author_key
  /\ well_formed empty_db
  /\ upsert_row any_paper bad_record empty_db
     = (fst (upsert_row any_paper bad_record empty_db), Ok 1)
  /\ authors_of bad_record = (["John Roe"] ++ long_name :: [])%list
  /\ NoDup ["John Roe"]
  /\ Forall (fun n => varchar 255 n = true) ["John Roe"]
  /\ varchar 255 long_name = false
  /\ exists db',
       insert_or_update_paper any_paper (varchar 255) paper_author_key
         bad_record empty_db = (db', Raise DataError)
       /\ rows_with db' (external_id bad_record)
          = [row_of 1 (external_id bad_record) bad_record]
       /\ links_of db' 1 = map (link_for db' 1) (enumerate 1 ["John Roe"])
       /\ select_author db' long_name = select_author empty_db long_name.
Proof.
  assert (Hnd : NoDup ["John Roe"]) by (repeat constructor; simpl; tauto).
  assert (Hacc : Forall (fun n => varchar 255 n = true) ["John Roe"])
    by (repeat constructor).
  split; [exact paper_author_key_within_paper|].
  split; [exact empty_db_well_formed|].
  split; [reflexivity|]. split; [reflexivity|].
  split; [exact Hnd|]. split; [exact Hacc|]. split; [reflexivity|].
  exact (upsert_stops_at_refused_author any_paper (varchar 255) paper_author_key
           empty_db bad_record _ 1 ["John Roe"] long_name []
           paper_author_key_within_paper empty_db_well_formed
           eq_refl eq_refl Hnd Hacc eq_refl).
Defined.

Lemma upsert_then_paper_detail_witness :
  key_within_paper paper_author_key
  /\ well_formed empty_db
  /\ NoDup (authors_of doe_and_roe)
  /\ insert_or_update_paper any_paper any_author paper_author_key
       doe_and_roe empty_db = (after_doe_and_roe, Ok 1)
  /\ get_paper_authors after_doe_and_roe 1 = ["Jane A. Doe"; "John Roe"]
  /\ route_paper_detail after_doe_and_roe "2401.12345v1"
     = render_paper (row_of 1 "2401.12345v1" doe_and_roe,
                     ["Jane A. Doe"; "John Roe"])
  /\ NoDup (authors_of old_style_record)
  /\ insert_or_update_paper any_paper any_author paper_author_key
       old_style_record empty_db = (after_old_style_record, Ok 1)
  /\ select_paper after_old_style_record "math/0601001v2"
     = Some (row_of 1 "math/0601001v2" old_style_record)
  /\ route_paper_detail after_old_style_record "math/0601001v2" = abort 404.
Proof.
  assert (Hnd : NoDup (authors_of doe_and_roe)).
  { simpl. repeat constructor; simpl; intuition discriminate. }
  assert (Hnd' : NoDup (authors_of old_style_record)).
  { simpl. repeat constructor; simpl; tauto. }
  pose proof (upsert_then_paper_detail any_paper any_author paper_author_key
                empty_db doe_and_roe after_doe_and_roe 1
                paper_author_key_within_paper empty_db_well_formed Hnd
                eq_refl) as [Hread Hpage].
  pose proof (upsert_then_paper_detail any_paper any_author paper_author_key
                empty_db old_style_record after_old_style_record 1
                paper_author_key_within_paper empty_db_well_formed Hnd'
                eq_refl) as [_ Hold].
  split; [exact paper_author_key_within_paper|].
  split; [exact empty_db_well_formed|].
  split; [exact Hnd|]. split; [reflexivity|].
  split; [exact Hread|]. split; [exact Hpage|].
  split; [exact Hnd'|]. split; [reflexivity|]. split; [reflexivity|].
  exact Hold.
Defined.

(** ** Single-ID fetch and exit codes *)

Section SingleFetchFacts.

Variable accepts_paper : PaperRow -> bool.
Variable accepts_author : string -> bool.
Variable duplicate_link : PaperAuthor -> PaperAuthor -> bool.

(** X6.  A record whose upsert raises leaves no trace when it is fetched
    by its ID: the fetch rolls back to the tables it started from and
    raises again.  The same record, alone in a batch of the recent-window
    mode, is counted as an error and what its upsert had written is
    committed. *)
Theorem single_fetch_rolls_back_failed_record :
  forall db paper rest db' e,
    insert_or_update_paper accepts_paper accepts_author duplicate_link paper db
    = (db', Raise e) ->
    fetch_by_arxiv_id accepts_paper accepts_author duplicate_link
      (Yield paper rest) db
    = (mkConn db db [Rollback], Raise e)
    /\ fetch_recent_papers accepts_paper accepts_author duplicate_link
         (Yield paper Done) db
       = (mkConn db' db' [Commit], Ok (0, 1)).
Proof.
  intros db paper rest db' e Hrun. split.
  - unfold fetch_by_arxiv_id. cbn [get_db_connection session committed history].
    now rewrite Hrun.
  - unfold fetch_recent_papers, fetch_batch.
    cbn [results process get_db_connection session committed history].
    now rewrite Hrun.
Qed.

Lemma fetch_batch_outcome (cap : nat) (matching : feed) (db : DB)
      (conn : Conn) (r : result (nat * nat)) :
  fetch_batch accepts_paper accepts_author duplicate_link cap matching db
  = (conn, r) ->
  match r with
  | Ok _ => history conn = [Commit]
  | Raise _ => history conn = [Rollback] /\ committed conn = db
  end.
Proof.
  intros Hrun.
  destruct (failure (results cap matching)) as [e|] eqn:Hf.
  - rewrite (fetch_batch_rolls_back _ _ _ cap matching db e Hf) in Hrun.
    inversion Hrun; subst. auto.
  - destruct (fetch_batch_commits accepts_paper accepts_author duplicate_link
                cap matching db Hf) as (c & e & Heq & _).
    rewrite Heq in Hrun. inversion Hrun; subst. reflexivity.
Qed.

(** X7.  The exit status of the command line is 0, 1 or 2, and 2 exactly
    when [argparse] rejects the command line.  A run that does not exit
    with 0 has committed nothing (the committed tables are those before the
    run), and a run that exits with 0 has rolled nothing back.  A recent
    window that cannot be computed ([--days] too large) exits with 1 and
    opens no connection.  The dates of a backfill are ASCII text. *)
Theorem main_exit_code :
  forall cmd today matching db conn code,
    ascii_dates cmd = true ->
    main accepts_paper accepts_author duplicate_link cmd today matching db
    = (conn, code) ->
    (code = 0 \/ code = 1 \/ code = 2)
    /\ (code = 2 <-> cmd = usage_error)
    /\ (code <> 0 -> committed conn = db /\ ~ In Commit (history conn))
    /\ (code = 0 -> ~ In Rollback (history conn))
    /\ (forall args,
           cmd = parsed args -> arg_recent args = true ->
           window_start today (arg_days args) = None ->
           code = 1 /\ conn = get_db_connection db).
Proof.
  intros cmd today matching db conn code _. unfold main.
  assert (Hnone : forall k, (get_db_connection db, k) = (conn, code) ->
                       (k = 0 \/ k = 1) ->
                       (code = 0 \/ code = 1 \/ code = 2)
                       /\ code <> 2
                       /\ (code <> 0 -> committed conn = db
                                        /\ ~ In Commit (history conn))
                       /\ (code = 0 -> ~ In Rollback (history conn))).
  { intros k Heq Hk. inversion Heq; subst. simpl.
    split; [tauto|]. split; [lia|]. tauto. }
  assert (Hbatch : forall cap c r,
             fetch_batch accepts_paper accepts_author duplicate_link cap matching db
             = (c, r) ->
             (c, match r with Ok _ => 0 | Raise _ => 1 end) = (conn, code) ->
             (code = 0 \/ code = 1 \/ code = 2)
             /\ code <> 2
             /\ (code <> 0 -> committed conn = db /\ ~ In Commit (history conn))
             /\ (code = 0 -> ~ In Rollback (history conn))).
  { intros cap c r Hrun Heq.
    pose proof (fetch_batch_outcome cap matching db c r Hrun) as Hout.
    destruct r; inversion Heq; subst.
    - rewrite Hout. simpl. split; [tauto|]. split; [lia|].
      split; [lia|]. intuition discriminate.
    - destruct Hout as [Hh Hc]. rewrite Hh. simpl. split; [tauto|].
      split; [lia|]. split; [|lia]. intuition discriminate. }
  assert (Hparsed : forall args,
             (code = 0 \/ code = 1 \/ code = 2)
             /\ code <> 2
             /\ (code <> 0 -> committed conn = db /\ ~ In Commit (history conn))
             /\ (code = 0 -> ~ In Rollback (history conn)) ->
             (code = 0 \/ code = 1 \/ code = 2)
             /\ (code = 2 <-> parsed args = usage_error)
             /\ (code <> 0 -> committed conn = db /\ ~ In Commit (history conn))
             /\ (code = 0 -> ~ In Rollback (history conn))).
  { intros args (H1 & H2 & H3 & H4). split; [exact H1|].
    split; [split; [contradiction | discriminate]|]. auto. }
  destruct cmd as [args| |].
  - (* the command line is accepted *)
    intros Hrun.
    assert (Hfacts : (code = 0 \/ code = 1 \/ code = 2)
                     /\ code <> 2
                     /\ (code <> 0 -> committed conn = db
                                      /\ ~ In Commit (history conn))
                     /\ (code = 0 -> ~ In Rollback (history conn))).
    { revert Hrun. destruct (arg_recent args).
      - destruct (window_start today (arg_days args));
          [|intros Heq; apply (Hnone 1 Heq); now right].
        unfold fetch_recent_papers.
        destruct (fetch_batch _ _ _ 500 matching db) as [c r] eqn:Hrun.
        intros Heq. apply (Hbatch 500 c r Hrun). now destruct r.
      - destruct (arg_backfill args).
        + destruct (truthy (arg_start_date args)) as [s1|];
            [destruct (truthy (arg_end_date args)) as [s2|]|];
            try (intros Heq; apply (Hnone 1 Heq); now right).
          unfold fetch_date_range.
          destruct (strptime s1); [destruct (strptime s2)|];
            try (intros Heq; apply (Hnone 1 Heq); now right).
          destruct (fetch_batch _ _ _ 5000 matching db) as [c r] eqn:Hrun.
          intros Heq. apply (Hbatch 5000 c r Hrun). now destruct r.
        + destruct (truthy (arg_arxiv_id args));
            [|intros Heq; apply (Hnone 0 Heq); now left].
          unfold fetch_by_arxiv_id.
          destruct matching as [|paper rest|e];
            cbn [get_db_connection session committed history].
          * intros Heq. apply (Hnone 0 Heq). now left.
          * destruct (insert_or_update_paper _ _ _ paper db) as [db' [pid|e]];
              intros Heq; inversion Heq; subst; simpl;
              (split; [tauto|]); (split; [lia|]);
              split; intros; try lia; intuition discriminate.
          * intros Heq; inversion Heq; subst; simpl.
            split; [tauto|]. split; [lia|].
            split; intros; try lia; intuition discriminate. }
    destruct (Hparsed args Hfacts) as (H1 & H2 & H3 & H4).
    split; [exact H1|]. split; [exact H2|]. split; [exact H3|].
    split; [exact H4|].
    intros args' Hargs Hrecent Hwindow. inversion Hargs; subst args'.
    rewrite Hrecent, Hwindow in Hrun. now inversion Hrun.
  - (* the help *)
    intros Heq. inversion Heq; subst. simpl.
    split; [tauto|]. split; [split; discriminate|].
    split; [intros H; now elim H|]. split; [tauto|]. discriminate.
  - (* the usage error *)
    intros Heq. inversion Heq; subst. simpl.
    split; [tauto|]. split; [tauto|]. split; [tauto|].
    split; [discriminate|]. discriminate.
Qed.

End SingleFetchFacts.

Lemma single_fetch_rolls_back_failed_record_witness :
  insert_or_update_paper any_paper (varchar 255) paper_author_key
    bad_record empty_db
  = (fst (insert_or_update_paper any_paper (varchar 255) paper_author_key
            bad_record empty_db), Raise DataError)
  /\ fetch_by_arxiv_id any_paper (varchar 255) paper_author_key
       (Yield bad_record Done) empty_db
     = (mkConn empty_db empty_db [Rollback], Raise DataError).
Proof.
  split; [vm_compute; reflexivity|].
  exact (proj1 (single_fetch_rolls_back_failed_record any_paper (varchar 255)
                  paper_author_key empty_db bad_record Done _ DataError
                  ltac:(vm_compute; reflexivity))).
Defined.

Lemma main_exit_code_witness :
  ascii_dates
    (parsed (mkArgs false true None 2 (Some "2000-01-01") (Some "2000-13-01")))
  = true
  /\ main any_paper any_author paper_author_key
       (parsed (mkArgs false true None 2 (Some "2000-01-01") (Some "2000-13-01")))
       739000 two_records empty_db
     = (get_db_connection empty_db, 1)
  /\ committed (get_db_connection empty_db) = empty_db
  /\ window_start 739000 4000000 = None
  /\ main any_paper any_author paper_author_key
       (parsed (mkArgs true false None 4000000 None None))
       739000 two_records empty_db
     = (get_db_connection empty_db, 1).
Proof.
  assert (Hrun : main any_paper any_author paper_author_key
                   (parsed (mkArgs false true None 2 (Some "2000-01-01")
                              (Some "2000-13-01")))
                   739000 two_records empty_db
                 = (get_db_connection empty_db, 1)) by reflexivity.
  assert (Hdays : main any_paper any_author paper_author_key
                    (parsed (mkArgs true false None 4000000 None None))
                    739000 two_records empty_db
                  = (get_db_connection empty_db, 1)) by reflexivity.
  pose proof (main_exit_code any_paper any_author paper_author_key
                (parsed (mkArgs false true None 2 (Some "2000-01-01")
                           (Some "2000-13-01")))
                739000 two_records empty_db _ _ eq_refl Hrun)
    as (_ & _ & Hkept & _).
  split; [reflexivity|]. split; [exact Hrun|].
  split; [apply Hkept; discriminate|]. split; [reflexivity|].
  exact Hdays.
Defined.

(** ** [ORDER BY] *)

Lemma insert_row_permutation (A : Type) (first : A -> A -> bool) (x : A) (l : list A) :
  Permutation (insert_row first x l) (x :: l).
Proof.
  induction l as [|y l IH]; simpl; [reflexivity|].
  destruct (first x y); [reflexivity|].
  rewrite IH. apply perm_swap.
Qed.

Lemma order_by_permutation (A : Type) (first : A -> A -> bool) (l : list A) :
  Permutation (order_by first l) l.
Proof.
  induction l as [|x l IH]; [reflexivity|].
  cbn [order_by fold_right]. fold (order_by first l).
  rewrite insert_row_permutation. now constructor.
Qed.

Lemma in_order_by (A : Type) (first : A -> A -> bool) (l : list A) (x : A) :
  In x (order_by first l) <-> In x l.
Proof.
  split; apply Permutation_in;
    [apply order_by_permutation | symmetry; apply order_by_permutation].
Qed.

Lemma insert_row_sorted (A : Type) (first : A -> A -> bool) (x : A) (l : list A) :
  (forall a b, first a b = false -> first b a = true) ->
  Sorted (fun a b => first a b = true) l ->
  Sorted (fun a b => first a b = true) (insert_row first x l).
Proof.
  intros Htotal. induction l as [|y l IH]; intros Hs; simpl.
  - repeat constructor.
  - destruct (first x y) eqn:E.
    + constructor; [assumption | now constructor].
    + inversion Hs as [|? ? Hl Hhd]; subst.
      constructor; [now apply IH|].
      destruct l as [|z l]; simpl.
      * constructor. now apply Htotal.
      * destruct (first x z); constructor.
        -- now apply Htotal.
        -- now inversion Hhd.
Qed.

Lemma order_by_is_sorted (A : Type) (first : A -> A -> bool) (l : list A) :
  (forall a b, first a b = false -> first b a = true) ->
  Sorted (fun a b => first a b = true) (order_by first l).
Proof.
  intros Htotal. induction l as [|x l IH]; [constructor|].
  cbn [order_by fold_right]. fold (order_by first l).
  now apply insert_row_sorted.
Qed.

Lemma date_leb_total (a b : date) : date_leb a b = false -> date_leb b a = true.
Proof.
  unfold date_leb. intros H.
  apply orb_false_iff in H as [Hy H].
  apply Nat.ltb_ge in Hy.
  destruct (d_year b <? d_year a)%nat eqn:Hy'; [reflexivity|].
  apply Nat.ltb_ge in Hy'. assert (Ey : d_year a = d_year b) by lia.
  rewrite Ey, Nat.eqb_refl in *. simpl in *.
  apply orb_false_iff in H as [Hm H].
  apply Nat.ltb_ge in Hm.
  destruct (d_month b <? d_month a)%nat eqn:Hm'; [reflexivity|].
  apply Nat.ltb_ge in Hm'. assert (Em : d_month a = d_month b) by lia.
  rewrite Em, Nat.eqb_refl in *. simpl in *.
  apply Nat.leb_gt in H. apply Nat.leb_le. lia.
Qed.

Lemma date_eqb_eq (a b : date) : date_eqb a b = true <-> a = b.
Proof.
  unfold date_eqb. rewrite !andb_true_iff, !Nat.eqb_eq.
  destruct a, b; simpl. split.
  - intros [[-> ->] ->]. reflexivity.
  - intros H. inversion H. auto.
Qed.

Lemma newest_first_total (a b : PaperRow) :
  newest_first a b = false -> newest_first b a = true.
Proof.
  unfold newest_first.
  destruct (date_eqb (p_published_date a) (p_published_date b)) eqn:E.
  - apply date_eqb_eq in E. rewrite E.
    rewrite (proj2 (date_eqb_eq _ _) eq_refl).
    intros H. apply Nat.leb_gt in H. apply Nat.leb_le. lia.
  - intros H. apply date_leb_total in H.
    destruct (date_eqb (p_published_date b) (p_published_date a)) eqn:E'.
    + apply date_eqb_eq in E'. rewrite E' in E.
      now rewrite (proj2 (date_eqb_eq _ _) eq_refl) in E.
    + exact H.
Qed.

(** ** Tags: lookups, attach and detach together *)

Lemma in_tag_join (db : DB) (p : PaperRow) (pt : PaperTag) (t : TagRow) :
  In (p, pt, t) (tag_join db)
  <-> In p (papers db) /\ In pt (paper_tags db) /\ In t (tags db)
      /\ p_id p = pt_paper_id pt /\ t_id t = pt_tag_id pt.
Proof.
  unfold tag_join. rewrite in_flat_map. split.
  - intros (p' & Hp & Hin). apply in_flat_map in Hin as (pt' & Hpt & Hin).
    destruct (p_id p' =? pt_paper_id pt')%nat eqn:E; [|contradiction].
    apply in_map_iff in Hin as (t' & Heq & Ht).
    apply filter_In in Ht as [Ht Hid]. inversion Heq; subst.
    apply Nat.eqb_eq in E, Hid. auto.
  - intros (Hp & Hpt & Ht & Hpid & Htid). exists p. split; [assumption|].
    apply in_flat_map. exists pt. split; [assumption|].
    rewrite (proj2 (Nat.eqb_eq _ _) Hpid). apply in_map.
    apply filter_In. split; [assumption | now apply Nat.eqb_eq].
Qed.

(** The one link that can join the paper found for an external ID and the
    tag found for a name and a type *)
Lemma joining_link (db : DB) (x name : string) (ty : tag_type)
      (p q : PaperRow) (t u : TagRow) (pt : PaperTag) :
  NoDup (map p_arxiv_id (papers db)) ->
  NoDup (map (fun t => (t_name t, t_tag_type t)) (tags db)) ->
  select_paper db x = Some p ->
  select_tag db name ty = Some t ->
  In q (papers db) -> p_arxiv_id q = x -> p_id q = pt_paper_id pt ->
  In u (tags db) -> t_name u = name -> t_tag_type u = ty -> t_id u = pt_tag_id pt ->
  pt = mkPaperTag (p_id p) (t_id t).
Proof.
  intros Hx Hkeys Hp Ht Hq Hqx Hqid Hu Hun Huty Huid.
  destruct (select_paper_some _ _ _ Hp) as [Hpin Hpx].
  destruct (select_tag_some _ _ _ _ Ht) as (Htin & Htn & Hty).
  assert (q = p)
    by (apply (NoDup_map_eq _ _ p_arxiv_id (papers db)); auto; congruence).
  assert (u = t).
  { apply (NoDup_map_eq _ _ (fun t => (t_name t, t_tag_type t)) (tags db)); auto.
    simpl. congruence. }
  subst q u. destruct pt; simpl in *. congruence.
Qed.

Lemma no_links_between (db : DB) (x name : string) (ty : tag_type)
      (p : PaperRow) (t : TagRow) :
  NoDup (map p_arxiv_id (papers db)) ->
  NoDup (map (fun t => (t_name t, t_tag_type t)) (tags db)) ->
  select_paper db x = Some p ->
  select_tag db name ty = Some t ->
  ~ In (mkPaperTag (p_id p) (t_id t)) (paper_tags db) ->
  links_between db x name ty = [].
Proof.
  intros Hx Hkeys Hp Ht Hno. unfold links_between. apply filter_none.
  intros pt Hpt.
  destruct (existsb _ (papers db)) eqn:E1; [|reflexivity].
  destruct (existsb _ (tags db)) eqn:E2; [|reflexivity].
  exfalso. apply existsb_exists in E1 as (q & Hq & Eq).
  apply existsb_exists in E2 as (u & Hu & Eu).
  apply andb_true_iff in Eq as [Eqx Eqid].
  apply andb_true_iff in Eu as [Eukey Euid].
  apply andb_true_iff in Eukey as [Eun Euty].
  apply String.eqb_eq in Eqx, Eun. apply Nat.eqb_eq in Eqid, Euid.
  apply tag_type_eqb_eq in Euty.
  rewrite (joining_link db x name ty p q t u pt) in Hpt; auto.
Qed.

Section TaggingMore.

Variable accepts_tag : string -> tag_type -> option string -> bool.
Variable by_type_then_name : TagRow -> TagRow -> bool.
Variable by_name : TagRow -> TagRow -> bool.

(** X8.  [get_or_create_tag] finds again what it returns: after it has
    returned an id, the tag of that name and type is found with this id,
    a second call returns the same id and changes nothing, whatever
    description it is given; a tag that existed keeps its row, description
    included, and at most one row is added to [tags]. *)
Theorem get_or_create_tag_finds_again :
  forall db tag_name ty description description' db1 tag_id,
    get_or_create_tag accepts_tag tag_name ty description db = (db1, Ok tag_id) ->
    (exists t,
        select_tag db1 tag_name ty = Some t
        /\ t_id t = tag_id
        /\ (select_tag db tag_name ty = None -> t_description t = description)
        /\ (forall t0, select_tag db tag_name ty = Some t0 -> t = t0 /\ db1 = db))
    /\ get_or_create_tag accepts_tag tag_name ty description' db1
       = (db1, Ok tag_id)
    /\ (exists extra,
           tags db1 = (tags db ++ extra)%list /\ List.length extra <= 1)
    /\ papers db1 = papers db
    /\ paper_tags db1 = paper_tags db.
Proof.
  intros db name ty d d' db1 id. unfold get_or_create_tag.
  destruct (select_tag db name ty) as [t|] eqn:Hsel.
  - intros Heq. inversion Heq; subst db1 id. clear Heq.
    split; [|split; [now rewrite Hsel | split; [|auto]]].
    + exists t. conjs; auto; try discriminate.
      intros t0 H0. inversion H0. auto.
    + exists []. split; [now rewrite app_nil_r | simpl; lia].
  - destruct (accepts_tag name ty d); [|discriminate].
    intros Heq. inversion Heq; subst db1 id. clear Heq.
    set (t := mkTag (next_tag_id db) name ty d).
    set (db1 := mkDB _ _ _ (tags db ++ [t])%list _ _ _ _).
    assert (Hsel1 : select_tag db1 name ty = Some t)
      by (apply (select_tag_snoc db db1 name ty t); auto).
    split; [|split; [now rewrite Hsel1 | split; [|auto]]].
    + exists t. conjs; auto. discriminate.
    + exists [t]. split; [reflexivity | simpl; lia].
Qed.

(** What an attach that succeeds does to the tables *)
Lemma add_tag_effect (db : DB) (x name : string) (ty : tag_type)
      (d : option string) (p : PaperRow) :
  well_formed db ->
  select_paper db x = Some p ->
  select_tag db name ty <> None \/ accepts_tag name ty d = true ->
  exists db1 t,
    add_tag_to_paper accepts_tag x name ty d db = (db1, true)
    /\ papers db1 = papers db
    /\ authors db1 = authors db
    /\ paper_authors db1 = paper_authors db
    /\ next_paper_id db1 = next_paper_id db
    /\ next_author_id db1 = next_author_id db
    /\ select_tag db1 name ty = Some t
    /\ (tags db1 = tags db \/ tags db1 = (tags db ++ [t])%list)
    /\ NoDup (map (fun t => (t_name t, t_tag_type t)) (tags db1))
    /\ NoDup (paper_tags db1)
    /\ In (mkPaperTag (p_id p) (t_id t)) (paper_tags db1)
    /\ (paper_tags db1 = paper_tags db
        \/ paper_tags db1
           = (paper_tags db ++ [mkPaperTag (p_id p) (t_id t)])%list).
Proof.
  intros Hwf Hp Htag.
  unfold add_tag_to_paper, bind, get_or_create_tag. rewrite Hp.
  destruct (select_tag db name ty) as [t|] eqn:Ht.
  - unfold insert_ignore_paper_tag.
    destruct (existsb _ (paper_tags db)) eqn:E.
    + exists db, t. conjs; auto; try apply Hwf.
      now apply existsb_same_paper_tag.
    + eexists. exists t. split; [reflexivity|]. fields.
      conjs; auto; try apply Hwf.
      * apply NoDup_snoc; [apply Hwf|].
        intros Hin. apply existsb_same_paper_tag in Hin. congruence.
      * apply in_or_app. right. now left.
  - destruct Htag as [Htag | Hacc]; [congruence|]. rewrite Hacc.
    set (t := mkTag (next_tag_id db) name ty d).
    set (db0 := mkDB _ _ _ (tags db ++ [t])%list _ _ _ _).
    assert (Hsel : select_tag db0 name ty = Some t)
      by (apply (select_tag_snoc db db0 name ty t); auto).
    assert (Hkeys : NoDup (map (fun t => (t_name t, t_tag_type t)) (tags db0))).
    { unfold db0. fields. rewrite map_app. apply NoDup_snoc; [apply Hwf|].
      now apply select_tag_none. }
    unfold insert_ignore_paper_tag.
    destruct (existsb _ (paper_tags db0)) eqn:E.
    + exists db0, t. conjs; auto; try apply Hwf.
      now apply existsb_same_paper_tag.
    + eexists. exists t. split; [reflexivity|]. unfold db0 in *. fields.
      conjs; auto.
      * apply NoDup_snoc; [apply Hwf|].
        intros Hin. apply existsb_same_paper_tag in Hin. congruence.
      * apply in_or_app. right. now left.
Qed.

(** X9.  The two tagging operations keep the constraints of the schema. *)
Theorem tagging_keeps_schema :
  forall db arxiv_id tag_name ty description,
    well_formed db ->
    well_formed (fst (add_tag_to_paper accepts_tag arxiv_id tag_name ty
                        description db))
    /\ well_formed (fst (remove_tag_from_paper arxiv_id tag_name ty db)).
Proof.
  intros db x name ty d Hwf. split.
  - destruct (select_paper db x) as [p|] eqn:Hp.
    + destruct (select_tag db name ty) as [t|] eqn:Ht.
      * destruct (add_tag_effect db x name ty d p Hwf Hp)
          as (db1 & t1 & Hadd & Hpp & Ha & Hl & Hnp & Hna & _ & _ & Hkeys & Hnd & _);
          [left; congruence|].
        rewrite Hadd. cbn [fst]. destruct Hwf.
        constructor; try congruence;
          [now rewrite Hpp, Hnp | now rewrite Ha, Hna | now rewrite Hl, Hpp].
      * destruct (accepts_tag name ty d) eqn:Hacc.
        -- destruct (add_tag_effect db x name ty d p Hwf Hp)
             as (db1 & t1 & Hadd & Hpp & Ha & Hl & Hnp & Hna & _ & _ & Hkeys & Hnd & _);
             [now right|].
           rewrite Hadd. cbn [fst]. destruct Hwf.
           constructor; try congruence;
             [now rewrite Hpp, Hnp | now rewrite Ha, Hna | now rewrite Hl, Hpp].
        -- unfold add_tag_to_paper, bind, get_or_create_tag.
           now rewrite Hp, Ht, Hacc.
    + unfold add_tag_to_paper. now rewrite Hp.
  - unfold remove_tag_from_paper.
    destruct (select_paper db x) as [p|]; [|exact Hwf].
    destruct (select_tag db name ty) as [t|]; [|exact Hwf].
    cbn [delete_paper_tag fst]. destruct Hwf. constructor; fields; auto.
    now apply NoDup_filter.
Qed.

(** X10.  An attach returns False exactly when no paper has the external
    ID, or when the tag does not exist and the store refuses to create
    it; the tables are then as they were. *)
Theorem add_tag_fails_exactly_when :
  forall db arxiv_id tag_name ty description,
    (snd (add_tag_to_paper accepts_tag arxiv_id tag_name ty description db) = false
     <-> select_paper db arxiv_id = None
         \/ (select_tag db tag_name ty = None
             /\ accepts_tag tag_name ty description = false))
    /\ (snd (add_tag_to_paper accepts_tag arxiv_id tag_name ty description db)
        = false ->
        fst (add_tag_to_paper accepts_tag arxiv_id tag_name ty description db)
        = db).
Proof.
  intros db x name ty d.
  unfold add_tag_to_paper, bind, get_or_create_tag, insert_ignore_paper_tag.
  destruct (select_paper db x) as [p|];
    [|split; [split; auto | auto]].
  destruct (select_tag db name ty) as [t|].
  - destruct (existsb _ (paper_tags db)); simpl; split;
      try discriminate; split; try discriminate;
      intros [H | [H _]]; discriminate.
  - destruct (accepts_tag name ty d); fields.
    + destruct (existsb _ _); simpl; split;
        try discriminate; split; try discriminate;
        intros [H | [_ H]]; discriminate.
    + simpl. split; [split; auto | auto].
Qed.

(** X11.  Attach, then detach: both return True, no link joins the paper
    and the tag afterwards, the tag itself stays (no tag is ever deleted),
    and the link table is the one before the attach without that link: as
    it was, when the link is new. *)
Theorem add_then_remove_tag :
  forall db arxiv_id tag_name ty description p,
    well_formed db ->
    select_paper db arxiv_id = Some p ->
    select_tag db tag_name ty <> None
    \/ accepts_tag tag_name ty description = true ->
    exists db1 db2 t,
      add_tag_to_paper accepts_tag arxiv_id tag_name ty description db
      = (db1, true)
      /\ remove_tag_from_paper arxiv_id tag_name ty db1 = (db2, true)
      /\ links_between db2 arxiv_id tag_name ty = []
      /\ select_tag db2 tag_name ty = Some t
      /\ tags db2 = tags db1
      /\ paper_tags db2
         = filter (fun old => negb (same_paper_tag (mkPaperTag (p_id p) (t_id t)) old))
             (paper_tags db)
      /\ (~ In (mkPaperTag (p_id p) (t_id t)) (paper_tags db) ->
          paper_tags db2 = paper_tags db).
Proof.
  intros db x name ty d p Hwf Hp Htag.
  destruct (add_tag_effect db x name ty d p Hwf Hp Htag)
    as (db1 & t & Hadd & Hpp & _ & _ & _ & _ & Ht & _ & Hkeys & Hnd & Hin & Hshape).
  assert (Hp1 : select_paper db1 x = Some p)
    by (unfold select_paper in *; now rewrite Hpp).
  set (link := mkPaperTag (p_id p) (t_id t)) in *.
  set (db2 := mkDB (papers db1) (authors db1) (paper_authors db1) (tags db1)
                (filter (fun old => negb (same_paper_tag link old)) (paper_tags db1))
                (next_paper_id db1) (next_author_id db1) (next_tag_id db1)).
  assert (Hgone : ~ In link (paper_tags db2)).
  { unfold db2. fields. intros H. apply filter_In in H as [_ H].
    apply negb_true_iff in H.
    now rewrite (proj2 (same_paper_tag_eq link link) eq_refl) in H. }
  assert (Hfilter : paper_tags db2
                    = filter (fun old => negb (same_paper_tag link old))
                        (paper_tags db)).
  { unfold db2. fields. destruct Hshape as [-> | ->]; [reflexivity|].
    rewrite filter_app. simpl.
    rewrite (proj2 (same_paper_tag_eq link link) eq_refl). simpl.
    now rewrite app_nil_r. }
  exists db1, db2, t.
  split; [exact Hadd|]. split.
  { unfold remove_tag_from_paper. now rewrite Hp1, Ht. }
  split.
  { apply (no_links_between db2 x name ty p t); auto.
    unfold db2. fields. rewrite Hpp. apply Hwf. }
  split; [exact Ht|]. split; [reflexivity|]. split; [exact Hfilter|].
  intros Hnew. rewrite Hfilter. apply filter_all. intros old Hold.
  apply negb_true_iff. destruct (same_paper_tag link old) eqn:E; [|reflexivity].
  apply same_paper_tag_eq in E. subst old. contradiction.
Qed.

(** X12.  The tag list of a paper follows attach and detach: after an
    attach that succeeds the list of the paper holds the tag, with the
    description of its row, and after the detach that follows it holds no
    tag of that name and type. *)
Theorem get_paper_tags_follows :
  forall db arxiv_id tag_name ty description p,
    well_formed db ->
    select_paper db arxiv_id = Some p ->
    select_tag db tag_name ty <> None
    \/ accepts_tag tag_name ty description = true ->
    exists db1 db2 t,
      add_tag_to_paper accepts_tag arxiv_id tag_name ty description db
      = (db1, true)
      /\ remove_tag_from_paper arxiv_id tag_name ty db1 = (db2, true)
      /\ select_tag db1 tag_name ty = Some t
      /\ In (tag_name, ty, t_description t)
           (get_paper_tags by_type_then_name arxiv_id db1)
      /\ (forall d, ~ In (tag_name, ty, d)
                      (get_paper_tags by_type_then_name arxiv_id db2)).
Proof.
  intros db x name ty d p Hwf Hp Htag.
  destruct (add_tag_effect db x name ty d p Hwf Hp Htag)
    as (db1 & t & Hadd & Hpp & _ & _ & _ & _ & Ht & _ & Hkeys & Hnd & Hin & _).
  assert (Hp1 : select_paper db1 x = Some p)
    by (unfold select_paper in *; now rewrite Hpp).
  destruct (select_paper_some _ _ _ Hp1) as [Hpin Hpx].
  destruct (select_tag_some _ _ _ _ Ht) as (Htin & Htn & Hty).
  set (link := mkPaperTag (p_id p) (t_id t)) in *.
  set (db2 := mkDB (papers db1) (authors db1) (paper_authors db1) (tags db1)
                (filter (fun old => negb (same_paper_tag link old)) (paper_tags db1))
                (next_paper_id db1) (next_author_id db1) (next_tag_id db1)).
  exists db1, db2, t.
  split; [exact Hadd|]. split.
  { unfold remove_tag_from_paper. now rewrite Hp1, Ht. }
  split; [exact Ht|]. split.
  - unfold get_paper_tags. apply in_map_iff. exists t.
    split; [now rewrite Htn, Hty|].
    apply in_order_by. apply in_map_iff. exists (p, link, t).
    split; [reflexivity|]. apply filter_In. split.
    + apply in_tag_join. auto.
    + simpl. rewrite Hpx. apply String.eqb_refl.
  - intros d0 Hin0. unfold get_paper_tags in Hin0.
    apply in_map_iff in Hin0 as (u & Heq & Hu). inversion Heq; subst.
    apply in_order_by in Hu. apply in_map_iff in Hu as ([[q pt] u'] & Hsnd & Hrow).
    simpl in Hsnd. subst u'.
    apply filter_In in Hrow as [Hjoin Hqx]. simpl in Hqx.
    apply String.eqb_eq in Hqx.
    apply in_tag_join in Hjoin as (Hq & Hpt & Hu & Hqid & Huid).
    unfold db2 in Hq, Hpt, Hu. fields.
    apply filter_In in Hpt as [Hpt Hneq].
    assert (Hlink : pt = link).
    { apply (joining_link db1 (p_arxiv_id p) (t_name t) (t_tag_type t)
               p q t u pt); auto; try congruence.
      rewrite Hpp. apply Hwf. }
    subst pt.
    now rewrite (proj2 (same_paper_tag_eq link link) eq_refl) in Hneq.
Qed.

End TaggingMore.

Lemma get_or_create_tag_finds_again_witness :
  get_or_create_tag any_tag "hooks" msc None one_paper_one_tag
  = (fst (get_or_create_tag any_tag "hooks" msc None one_paper_one_tag), Ok 2)
  /\ get_or_create_tag any_tag "hooks" msc (Some "Hook formulas")
       (fst (get_or_create_tag any_tag "hooks" msc None one_paper_one_tag))
     = (fst (get_or_create_tag any_tag "hooks" msc None one_paper_one_tag), Ok 2).
Proof.
  split; [vm_compute; reflexivity|].
  exact (proj1 (proj2 (get_or_create_tag_finds_again any_tag one_paper_one_tag
                         "hooks" msc None (Some "Hook formulas")
                         (fst (get_or_create_tag any_tag "hooks" msc None
                                 one_paper_one_tag))
                         2 ltac:(vm_compute; reflexivity)))).
Defined.

Lemma tagging_keeps_schema_witness :
  well_formed one_paper_one_tag
  /\ well_formed
       (fst (add_tag_to_paper any_tag "2401.12345v1" "hooks" msc None
               one_paper_one_tag)).
Proof.
  split; [exact one_paper_one_tag_well_formed|].
  pose proof (tagging_keeps_schema any_tag one_paper_one_tag "2401.12345v1"
                "hooks" msc None one_paper_one_tag_well_formed) as H.
  destruct H as [H _]. exact H.
Defined.

Lemma add_then_remove_tag_witness :
  well_formed one_paper_one_tag
  /\ exists db1 db2,
       add_tag_to_paper any_tag "2401.12345v1" "symmetric-functions" personal
         None one_paper_one_tag = (db1, true)
       /\ remove_tag_from_paper "2401.12345v1" "symmetric-functions" personal db1
          = (db2, true)
       /\ links_between db2 "2401.12345v1" "symmetric-functions" personal = [].
Proof.
  split; [exact one_paper_one_tag_well_formed|].
  assert (Hp : select_paper one_paper_one_tag "2401.12345v1"
               = Some (mkPaper 1 "2401.12345v1" "Example Paper" "An abstract."
                         (mkDate 2024 1 15) None None None None "math.CO"))
    by (vm_compute; reflexivity).
  assert (Ht : select_tag one_paper_one_tag "symmetric-functions" personal <> None)
    by (vm_compute; discriminate).
  pose proof (add_then_remove_tag any_tag one_paper_one_tag "2401.12345v1"
                "symmetric-functions" personal None _
                one_paper_one_tag_well_formed Hp (or_introl Ht)) as H.
  destruct H as (db1 & db2 & t & Hadd & Hrem & Hnone & _).
  exists db1, db2. auto.
Defined.

Lemma get_paper_tags_follows_witness :
  well_formed one_paper_one_tag
  /\ exists db1 db2 t,
       add_tag_to_paper any_tag "2401.12345v1" "hooks" msc (Some "Hook formulas")
         one_paper_one_tag = (db1, true)
       /\ remove_tag_from_paper "2401.12345v1" "hooks" msc db1 = (db2, true)
       /\ select_tag db1 "hooks" msc = Some t
       /\ In ("hooks", msc, t_description t)
            (get_paper_tags (fun _ _ => true) "2401.12345v1" db1)
       /\ (forall d, ~ In ("hooks", msc, d)
                       (get_paper_tags (fun _ _ => true) "2401.12345v1" db2)).
Proof.
  split; [exact one_paper_one_tag_well_formed|].
  assert (Hp : select_paper one_paper_one_tag "2401.12345v1"
               = Some (mkPaper 1 "2401.12345v1" "Example Paper" "An abstract."
                         (mkDate 2024 1 15) None None None None "math.CO"))
    by (vm_compute; reflexivity).
  pose proof (get_paper_tags_follows any_tag (fun _ _ => true) one_paper_one_tag
                "2401.12345v1" "hooks" msc (Some "Hook formulas") _
                one_paper_one_tag_well_formed Hp (or_intror eq_refl)) as H.
  exact H.
Defined.

Lemma add_tag_fails_exactly_when_witness :
  select_paper one_paper_one_tag "2401.99999" = None
  /\ snd (add_tag_to_paper any_tag "2401.99999" "hooks" msc None one_paper_one_tag)
     = false
  /\ fst (add_tag_to_paper any_tag "2401.99999" "hooks" msc None one_paper_one_tag)
     = one_paper_one_tag.
Proof.
  assert (Hno : select_paper one_paper_one_tag "2401.99999" = None)
    by (vm_compute; reflexivity).
  pose proof (add_tag_fails_exactly_when any_tag one_paper_one_tag "2401.99999"
                "hooks" msc None) as H.
  destruct H as [Hiff Hsame].
  assert (Hfalse : snd (add_tag_to_paper any_tag "2401.99999" "hooks" msc None
                          one_paper_one_tag) = false)
    by (apply (proj2 Hiff); left; exact Hno).
  split; [exact Hno|]. split; [exact Hfalse|]. exact (Hsame Hfalse).
Defined.

(** ** Query by tag *)

Lemma Sorted_firstn (A : Type) (R : A -> A -> Prop) (n : nat) (l : list A) :
  Sorted R l -> Sorted R (firstn n l).
Proof.
  revert l. induction n as [|n IH]; intros l Hs; [constructor|].
  destruct l as [|x l]; [constructor|].
  inversion Hs as [|? ? Hl Hhd]; subst. cbn [firstn].
  constructor; [now apply IH|].
  destruct n; [constructor|].
  destruct l as [|y l]; [constructor|].
  cbn [firstn]. constructor. now inversion Hhd.
Qed.

Lemma Sorted_map (A B : Type) (f : A -> B) (R : B -> B -> Prop) (l : list A) :
  Sorted (fun a b => R (f a) (f b)) l -> Sorted R (map f l).
Proof.
  induction l as [|x l IH]; intros Hs; [constructor|].
  inversion Hs as [|? ? Hl Hhd]; subst. cbn [map].
  constructor; [now apply IH|].
  destruct l as [|y l]; [constructor|].
  cbn [map]. constructor. now inversion Hhd.
Qed.

Lemma in_firstn (A : Type) (n : nat) (l : list A) (x : A) :
  In x (firstn n l) -> In x l.
Proof.
  intros H. rewrite <- (firstn_skipn n l). apply in_or_app. now left.
Qed.

Lemma firstn_short (A : Type) (n : nat) (l : list A) :
  List.length (firstn n l) < n -> firstn n l = l.
Proof.
  intros H. rewrite length_firstn in H.
  apply firstn_all2. lia.
Qed.

(** The papers that bear a tag of the name (and of the type, when one is
    given), listed once for each link that says so *)
Lemma search_by_tag_rows (db : DB) (tag_name : string) (ty : option tag_type)
      (limit : Z) :
  (0 <= limit)%Z ->
  exists shown,
    search_by_tag tag_name ty limit db
    = Ok (map (fun p => (p_arxiv_id p, p_title p, p_published_date p)) shown)
    /\ (Z.of_nat (List.length shown) <= limit)%Z
    /\ Sorted (fun a b => by_date_desc a b = true) shown
    /\ (forall p, In p shown ->
          exists pt t,
            In (p, pt, t) (tag_join db)
            /\ t_name t = tag_name
            /\ (forall ty', ty = Some ty' -> t_tag_type t = ty'))
    /\ ((Z.of_nat (List.length shown) < limit)%Z ->
        forall p pt t,
          In (p, pt, t) (tag_join db) ->
          t_name t = tag_name ->
          (forall ty', ty = Some ty' -> t_tag_type t = ty') ->
          In p shown).
Proof.
  intros Hlimit. unfold search_by_tag, sql_limit.
  destruct (limit <? 0)%Z eqn:Hneg; [apply Z.ltb_lt in Hneg; lia|].
  set (wanted := fun t : TagRow =>
                   String.eqb (t_name t) tag_name
                   && match ty with
                      | Some ty => tag_type_eqb (t_tag_type t) ty
                      | None => true
                      end).
  assert (Hwanted : forall t,
             wanted t = true
             <-> t_name t = tag_name
                 /\ (forall ty', ty = Some ty' -> t_tag_type t = ty')).
  { intros t. unfold wanted. rewrite andb_true_iff, String.eqb_eq.
    destruct ty as [ty0|].
    - rewrite tag_type_eqb_eq. split.
      + intros [Hn Hty]. split; [assumption|]. intros ty' E. inversion E. now subst.
      + intros [Hn Hty]. auto.
    - split; [intros [Hn _]; split; [assumption | discriminate] | tauto]. }
  set (rows := filter (fun row : PaperRow * PaperTag * TagRow => wanted (snd row))
                 (tag_join db)).
  set (sorted := order_by by_date_desc (map (fun row => fst (fst row)) rows)).
  assert (Hin : forall p, In p sorted
                          <-> exists pt t, In (p, pt, t) (tag_join db)
                                           /\ wanted t = true).
  { intros p. unfold sorted. rewrite in_order_by, in_map_iff. split.
    - intros ([[q pt] t] & Hq & Hrow). simpl in Hq. subst q.
      apply filter_In in Hrow as [Hrow Hw]. now exists pt, t.
    - intros (pt & t & Hrow & Hw). exists (p, pt, t).
      split; [reflexivity|]. apply filter_In. auto. }
  exists (firstn (Z.to_nat limit) sorted).
  split; [reflexivity|]. split.
  { rewrite length_firstn. lia. }
  split.
  { apply Sorted_firstn. apply order_by_is_sorted.
    intros a b. unfold by_date_desc. apply date_leb_total. }
  split.
  - intros p Hp. apply in_firstn in Hp. apply Hin in Hp as (pt & t & Hrow & Hw).
    exists pt, t. split; [assumption|]. now apply Hwanted.
  - intros Hshort p pt t Hrow Hn Hty.
    rewrite firstn_short by lia. apply Hin. exists pt, t.
    split; [assumption|]. apply Hwanted. auto.
Qed.

(** X13.  A query by tag with a limit that is not negative returns at
    most [limit] rows, newest published first, and every row is a paper
    of the catalogue that bears, through a Paper-Tag link, a tag of that
    name (and of that type, when one is given).  When fewer than [limit]
    rows come back, no such paper is missing. *)
Theorem search_by_tag_capped_sorted_exact :
  forall db tag_name ty limit,
    (0 <= limit)%Z ->
    exists rows,
      search_by_tag tag_name ty limit db = Ok rows
      /\ (Z.of_nat (List.length rows) <= limit)%Z
      /\ Sorted (fun a b => date_leb (snd b) (snd a) = true) rows
      /\ (forall arxiv_id title published,
            In (arxiv_id, title, published) rows ->
            exists p pt t,
              In p (papers db) /\ In pt (paper_tags db) /\ In t (tags db)
              /\ p_id p = pt_paper_id pt /\ t_id t = pt_tag_id pt
              /\ t_name t = tag_name
              /\ (forall ty', ty = Some ty' -> t_tag_type t = ty')
              /\ (p_arxiv_id p, p_title p, p_published_date p)
                 = (arxiv_id, title, published))
      /\ ((Z.of_nat (List.length rows) < limit)%Z ->
          forall p pt t,
            In p (papers db) -> In pt (paper_tags db) -> In t (tags db) ->
            p_id p = pt_paper_id pt -> t_id t = pt_tag_id pt ->
            t_name t = tag_name ->
            (forall ty', ty = Some ty' -> t_tag_type t = ty') ->
            In (p_arxiv_id p, p_title p, p_published_date p) rows).
Proof.
  intros db tag_name ty limit Hlimit.
  destruct (search_by_tag_rows db tag_name ty limit Hlimit)
    as (shown & Hrun & Hlen & Hsorted & Hsound & Hcomplete).
  eexists. split; [exact Hrun|]. rewrite length_map.
  split; [exact Hlen|]. split.
  { apply Sorted_map. exact Hsorted. }
  split.
  - intros x title d Hrow. apply in_map_iff in Hrow as (p & Heq & Hp).
    destruct (Hsound p Hp) as (pt & t & Hjoin & Hn & Hty).
    apply in_tag_join in Hjoin as (H1 & H2 & H3 & H4 & H5).
    exists p, pt, t. conjs; auto.
  - intros Hshort p pt t H1 H2 H3 H4 H5 Hn Hty.
    apply in_map_iff. exists p. split; [reflexivity|].
    apply (Hcomplete Hshort p pt t); auto. apply in_tag_join. auto.
Qed.

Section TagSearch.

Variable accepts_tag : string -> tag_type -> option string -> bool.

(** X14.  A paper that has just been given a tag is found by the query
    for that tag, with or without the type, under every limit that does
    not cut the result. *)
Theorem add_tag_then_search_by_tag :
  forall db arxiv_id tag_name ty description p limit rows filter_type,
    well_formed db ->
    select_paper db arxiv_id = Some p ->
    add_tag_to_paper accepts_tag arxiv_id tag_name ty description db
    = (fst (add_tag_to_paper accepts_tag arxiv_id tag_name ty description db),
       true) ->
    filter_type = None \/ filter_type = Some ty ->
    search_by_tag tag_name filter_type limit
      (fst (add_tag_to_paper accepts_tag arxiv_id tag_name ty description db))
    = Ok rows ->
    (Z.of_nat (List.length rows) < limit)%Z ->
    In (arxiv_id, p_title p, p_published_date p) rows.
Proof.
  intros db x name ty d p limit rows fty Hwf Hp Hadd Hfty Hrun Hshort.
  assert (Htag : select_tag db name ty <> None \/ accepts_tag name ty d = true).
  { destruct (select_tag db name ty) eqn:Ht; [left; discriminate|].
    destruct (accepts_tag name ty d) eqn:Hacc; [now right|].
    exfalso. revert Hadd.
    unfold add_tag_to_paper, bind, get_or_create_tag.
    rewrite Hp, Ht, Hacc. simpl. intros H. inversion H. }
  destruct (add_tag_effect accepts_tag db x name ty d p Hwf Hp Htag)
    as (db1 & t & Hadd1 & Hpp & _ & _ & _ & _ & Ht & _ & _ & _ & Hlink & _).
  rewrite Hadd1 in Hrun. cbn [fst] in Hrun.
  destruct (select_paper_some _ _ _ Hp) as [Hpin Hpx].
  destruct (select_tag_some _ _ _ _ Ht) as (Htin & Htn & Hty).
  assert (Hlimit : (0 <= limit)%Z) by lia.
  destruct (search_by_tag_rows db1 name fty limit Hlimit)
    as (shown & Hrun' & _ & _ & _ & Hcomplete).
  rewrite Hrun in Hrun'. inversion Hrun'; subst rows.
  rewrite length_map in Hshort.
  apply in_map_iff. exists p. split; [now rewrite Hpx|].
  apply (Hcomplete Hshort p (mkPaperTag (p_id p) (t_id t)) t); auto.
  - apply in_tag_join. rewrite Hpp. auto.
  - intros ty' E. destruct Hfty as [E' | E']; congruence.
Qed.

End TagSearch.

Lemma search_by_tag_capped_sorted_exact_witness :
  (0 <= 100)%Z
  /\ exists rows,
       search_by_tag "symmetric-functions" None 100
         (fst (add_tag_to_paper any_tag "2401.12345v1" "symmetric-functions"
                 personal None one_paper_one_tag))
       = Ok rows
       /\ (Z.of_nat (List.length rows) <= 100)%Z.
Proof.
  split; [lia|].
  pose proof (search_by_tag_capped_sorted_exact
                (fst (add_tag_to_paper any_tag "2401.12345v1"
                        "symmetric-functions" personal None one_paper_one_tag))
                "symmetric-functions" None 100 ltac:(lia)) as H.
  destruct H as (rows & Hrun & Hlen & _).
  exists rows. split; [exact Hrun | exact Hlen].
Defined.

Lemma add_tag_then_search_by_tag_witness :
  well_formed one_paper_one_tag
  /\ search_by_tag "hooks" None 100
       (fst (add_tag_to_paper any_tag "2401.12345v1" "hooks" msc None
               one_paper_one_tag))
     = Ok [("2401.12345v1", "Example Paper", mkDate 2024 1 15)]
  /\ In ("2401.12345v1", "Example Paper", mkDate 2024 1 15)
       [("2401.12345v1", "Example Paper", mkDate 2024 1 15)].
Proof.
  split; [exact one_paper_one_tag_well_formed|].
  assert (Hp : select_paper one_paper_one_tag "2401.12345v1"
               = Some (mkPaper 1 "2401.12345v1" "Example Paper" "An abstract."
                         (mkDate 2024 1 15) None None None None "math.CO"))
    by (vm_compute; reflexivity).
  assert (Hrun : search_by_tag "hooks" None 100
                   (fst (add_tag_to_paper any_tag "2401.12345v1" "hooks" msc None
                           one_paper_one_tag))
                 = Ok [("2401.12345v1", "Example Paper", mkDate 2024 1 15)])
    by (vm_compute; reflexivity).
  split; [exact Hrun|].
  pose proof (add_tag_then_search_by_tag any_tag one_paper_one_tag
                "2401.12345v1" "hooks" msc None _ 100
                [("2401.12345v1", "Example Paper", mkDate 2024 1 15)] None
                one_paper_one_tag_well_formed Hp
                ltac:(vm_compute; reflexivity) (or_introl eq_refl)
                Hrun ltac:(vm_compute; reflexivity))
    as H.
  exact H.
Defined.

(** ** Citation export: what the escaping keeps, when the export fails *)

Lemma str_filter_app (p : ascii -> bool) (a b : string) :
  str_filter p (a ++ b) = str_filter p a ++ str_filter p b.
Proof.
  induction a as [|c a IH]; simpl; [reflexivity|].
  destruct (p c); simpl; now rewrite IH.
Qed.

Lemma without_braces_app (a b : string) :
  without_braces (a ++ b) = without_braces a ++ without_braces b.
Proof. apply str_filter_app. Qed.

Lemma without_braces_protect_match (text : string) :
  without_braces (protect_match text) = without_braces text.
Proof.
  unfold protect_match. rewrite !without_braces_app.
  cbn. now rewrite append_nil_r.
Qed.

Lemma without_braces_flush_run (run : string) :
  without_braces (flush_run run) = without_braces run.
Proof.
  unfold flush_run. destruct (2 <=? String.length run)%nat; [|reflexivity].
  apply without_braces_protect_match.
Qed.

Lemma without_braces_sub_runs (s : string) :
  forall run, without_braces (sub_runs run s) = without_braces (run ++ s).
Proof.
  induction s as [|c s IH]; intros run; cbn [sub_runs].
  - now rewrite without_braces_flush_run, append_nil_r.
  - destruct (is_upper c).
    + now rewrite IH, snoc_append.
    + rewrite !without_braces_app, without_braces_flush_run.
      f_equal. change (String c (sub_runs "" s)) with (String c "" ++ sub_runs "" s).
      change (String c s) with (String c "" ++ s).
      now rewrite !without_braces_app, IH.
Qed.

Lemma without_braces_sub_after (p : ascii -> bool) (s : string) :
  forall prev, without_braces (sub_after p prev s) = without_braces s.
Proof.
  induction s as [|c s IH]; intros prev; cbn [sub_after]; [reflexivity|].
  rewrite without_braces_app, IH.
  change (String c s) with (String c "" ++ s). rewrite without_braces_app.
  f_equal. destruct (is_upper c && _); [|reflexivity].
  apply without_braces_protect_match.
Qed.

Lemma sub_runs_no_upper (s : string) :
  str_existsb is_upper s = false -> sub_runs "" s = s.
Proof.
  induction s as [|c s IH]; cbn [sub_runs str_existsb]; [reflexivity|].
  intros H. apply orb_false_iff in H as [Hc Hs].
  rewrite Hc. cbn. now rewrite IH.
Qed.

Lemma sub_after_no_upper (p : ascii -> bool) (s : string) :
  str_existsb is_upper s = false -> forall prev, sub_after p prev s = s.
Proof.
  induction s as [|c s IH]; cbn [sub_after str_existsb]; [reflexivity|].
  intros H prev. apply orb_false_iff in H as [Hc Hs].
  rewrite Hc. cbn. now rewrite IH.
Qed.

(** X15.  The escaping for the citation export only adds braces: with
    the braces taken out, the escaped title is the title with its braces
    taken out, so no character of the title is lost, changed or moved.  A
    title without a capital comes back as it is. *)
Theorem protect_capitals_adds_only_braces :
  forall title,
    without_braces (protect_capitals_for_bibtex title) = without_braces title
    /\ (str_existsb is_upper title = false ->
        protect_capitals_for_bibtex title = title).
Proof.
  intros title. unfold protect_capitals_for_bibtex. split.
  - now rewrite !without_braces_sub_after, without_braces_sub_runs.
  - intros H. rewrite (sub_runs_no_upper _ H).
    rewrite (sub_after_no_upper _ _ H). now apply sub_after_no_upper.
Qed.

Lemma split_go_first (sep : string) (s : string) :
  forall skip cur, exists x, first_item (split_go sep skip cur s) = Ok x.
Proof.
  induction s as [|c s IH]; intros skip cur; cbn [split_go].
  - now exists cur.
  - destruct skip as [|k]; [|apply IH].
    destruct (String.prefix sep (String c s)); [now exists cur | apply IH].
Qed.

Lemma clean_arxiv_id_returns (arxiv_id : string) :
  exists clean_id, clean_arxiv_id arxiv_id = Ok clean_id.
Proof.
  unfold clean_arxiv_id. destruct (contains_char "v" arxiv_id).
  - apply split_go_first.
  - now exists arxiv_id.
Qed.

Lemma split_ws_go_nonempty (s : string) :
  forall cur, cur <> "" -> split_ws_go cur s <> [].
Proof.
  induction s as [|c s IH]; intros cur Hcur; cbn [split_ws_go].
  - destruct cur; [contradiction | discriminate].
  - destruct (isspace c).
    + destruct cur; [contradiction | discriminate].
    + apply IH. unfold snoc. destruct cur; discriminate.
Qed.

Lemma split_ws_empty (s : string) :
  split_ws s = [] <-> str_forallb isspace s = true.
Proof.
  unfold split_ws. split; [|apply split_ws_go_spaces].
  induction s as [|c s IH]; cbn [split_ws_go str_forallb]; [reflexivity|].
  destruct (isspace c) eqn:Hc; [exact IH|].
  intros H. exfalso. revert H. apply split_ws_go_nonempty. discriminate.
Qed.

Lemma last_item_returns (A : Type) (l : list A) :
  l <> [] -> exists x, last_item l = Ok x.
Proof.
  induction l as [|x l IH]; [contradiction|]. intros _.
  destruct l as [|y l]; [now exists x|].
  cbn [last_item]. apply IH. discriminate.
Qed.

Lemma bibtex_key_outcome (names : list string) (year : nat) :
  match names with
  | first_author :: _ =>
      if str_forallb isspace first_author
      then bibtex_key names year = Raise IndexError
      else exists key, bibtex_key names year = Ok key
  | [] => exists key, bibtex_key names year = Ok key
  end.
Proof.
  destruct names as [|name rest]; [now eexists|].
  destruct (str_forallb isspace name) eqn:Hblank.
  - unfold bibtex_key. apply split_ws_empty in Hblank. now rewrite Hblank.
  - unfold bibtex_key.
    destruct (last_item_returns _ (split_ws name)) as [tok Htok].
    + intros H. apply split_ws_empty in H. congruence.
    + rewrite Htok. now eexists.
Qed.

(** The outcomes of the export view *)
Lemma bibtex_outcome :
  forall db arxiv_id,
    (forall e,
        bibtex db arxiv_id = Raise e ->
        e = IndexError
        /\ exists paper first_author others,
             select_paper db arxiv_id = Some paper
             /\ get_paper_authors db (p_id paper) = first_author :: others
             /\ str_forallb isspace first_author = true)
    /\ (forall paper first_author others,
           select_paper db arxiv_id = Some paper ->
           get_paper_authors db (p_id paper) = first_author :: others ->
           str_forallb isspace first_author = true ->
           bibtex db arxiv_id = Raise IndexError)
    /\ (select_paper db arxiv_id = None -> bibtex db arxiv_id = Ok (abort 404))
    /\ (forall r,
           bibtex db arxiv_id = Ok r ->
           r = abort 404 \/ exists text, r = text_plain text).
Proof.
  intros db x. unfold bibtex, bibtex_text.
  destruct (select_paper db x) as [paper|].
  2:{ split; [intros e H; discriminate|].
      split; [intros p n r H; discriminate|].
      split; [reflexivity|].
      intros r H. inversion H. now left. }
  pose proof (bibtex_key_outcome (get_paper_authors db (p_id paper))
                (d_year (p_published_date paper))) as Hkey.
  destruct (clean_arxiv_id_returns (p_arxiv_id paper)) as [clean_id Hclean].
  rewrite Hclean.
  destruct (get_paper_authors db (p_id paper)) as [|name rest] eqn:Hnames.
  - destruct Hkey as [key Hkey]. rewrite Hkey.
    split; [intros e H; discriminate|].
    split.
    { intros p n r Hp Hn. inversion Hp; subst p.
      rewrite Hnames in Hn. discriminate. }
    split; [discriminate|].
    intros r H. inversion H. right. now eexists.
  - destruct (str_forallb isspace name) eqn:Hblank.
    + rewrite Hkey.
      split.
      { intros e H. inversion H. split; [reflexivity|].
        exists paper, name, rest. auto. }
      split; [reflexivity|].
      split; [discriminate|].
      intros r H. discriminate.
    + destruct Hkey as [key Hkey]. rewrite Hkey.
      split; [intros e H; discriminate|].
      split.
      { intros p n r Hp Hn Hb. inversion Hp; subst p.
        rewrite Hnames in Hn. inversion Hn; subst. congruence. }
      split; [discriminate|].
      intros r H. inversion H. right. now eexists.
Qed.

(** X16.  In a catalogue whose author names are ASCII text, the export
    route fails in one case only: the external ID of the path is stored,
    the paper has authors and the name of the first holds no character
    other than white space; the route then raises [IndexError].  In every
    other case it answers: with 404 when the ID part of the path holds a
    slash or is empty, or when no paper has the external ID, and with the
    text of the entry otherwise. *)
Theorem bibtex_fails_only_on_blank_first_author :
  forall db arxiv_id,
    Forall (fun a => isascii (a_name a) = true) (authors db) ->
    (forall e,
        route_bibtex db arxiv_id = Raise e ->
        e = IndexError
        /\ path_segment arxiv_id = true
        /\ exists paper first_author others,
             select_paper db arxiv_id = Some paper
             /\ get_paper_authors db (p_id paper) = first_author :: others
             /\ str_forallb isspace first_author = true)
    /\ (forall paper first_author others,
           path_segment arxiv_id = true ->
           select_paper db arxiv_id = Some paper ->
           get_paper_authors db (p_id paper) = first_author :: others ->
           str_forallb isspace first_author = true ->
           route_bibtex db arxiv_id = Raise IndexError)
    /\ (path_segment arxiv_id = false \/ select_paper db arxiv_id = None ->
        route_bibtex db arxiv_id = Ok (abort 404))
    /\ (forall r,
           route_bibtex db arxiv_id = Ok r ->
           r = abort 404 \/ exists text, r = text_plain text).
Proof.
  intros db x _. unfold route_bibtex.
  destruct (bibtex_outcome db x) as (Hraise & Hblank & Hnone & Hok).
  destruct (path_segment x).
  - split.
    { intros e He. destruct (Hraise e He) as [-> Hwho]. auto. }
    split; [intros paper name rest _; apply Hblank|].
    split; [intros [H | H]; [discriminate | now apply Hnone]|].
    exact Hok.
  - split; [discriminate|].
    split; [discriminate|].
    split; [reflexivity|].
    intros r H. inversion H. now left.
Qed.

Lemma bibtex_fails_only_on_blank_first_author_witness :
  Forall (fun a => isascii (a_name a) = true) (authors after_blank_author)
  /\ path_segment "2401.00003v1" = true
  /\ select_paper after_blank_author "2401.00003v1"
     = Some (row_of 1 "2401.00003v1" blank_author)
  /\ get_paper_authors after_blank_author 1 = [" "]
  /\ str_forallb isspace " " = true
  /\ route_bibtex after_blank_author "2401.00003v1" = Raise IndexError
  /\ route_bibtex after_blank_author "math/0601001v2" = Ok (abort 404).
Proof.
  assert (Hascii : Forall (fun a => isascii (a_name a) = true)
                     (authors after_blank_author))
    by (repeat constructor).
  assert (Hp : select_paper after_blank_author "2401.00003v1"
               = Some (row_of 1 "2401.00003v1" blank_author))
    by (vm_compute; reflexivity).
  assert (Hn : get_paper_authors after_blank_author
                 (p_id (row_of 1 "2401.00003v1" blank_author)) = [" "])
    by (vm_compute; reflexivity).
  split; [exact Hascii|]. split; [reflexivity|].
  split; [exact Hp|]. split; [exact Hn|]. split; [reflexivity|].
  pose proof (bibtex_fails_only_on_blank_first_author after_blank_author
                "2401.00003v1" Hascii) as H.
  destruct H as (_ & H & _).
  split; [exact (H _ _ _ eq_refl Hp Hn eq_refl)|].
  pose proof (bibtex_fails_only_on_blank_first_author after_blank_author
                "math/0601001v2" Hascii) as H'.
  destruct H' as (_ & _ & H' & _).
  apply H'. now left.
Defined.

(** ** Paged views, read page by page *)

Lemma firstn_add (A : Type) (a b : nat) (l : list A) :
  firstn (a + b) l = (firstn a l ++ firstn b (skipn a l))%list.
Proof.
  revert l. induction a as [|a IH]; intros l; [reflexivity|].
  destruct l as [|x l]; cbn [Nat.add firstn skipn app].
  - now rewrite firstn_nil.
  - now rewrite IH.
Qed.

Lemma pages_concat (A : Type) (rows : list A) (n : nat) :
  flat_map (fun k => firstn 20 (skipn (20 * (k - 1)) rows)) (seq 1 n)
  = firstn (20 * n) rows.
Proof.
  induction n as [|n IH]; [reflexivity|].
  rewrite seq_S, flat_map_app, IH. cbn [flat_map]. rewrite app_nil_r.
  replace (1 + n - 1) with n by lia.
  replace (20 * S n) with (20 * n + 20) by lia.
  now rewrite firstn_add.
Qed.

Lemma pages_cover (A : Type) (rows : list A) :
  firstn (20 * Z.to_nat (total_pages_of (Z.of_nat (List.length rows)))) rows
  = rows.
Proof.
  apply firstn_all2.
  destruct (total_pages_is_ceiling (Z.of_nat (List.length rows))) as [Hle _].
  unfold per_page in Hle. lia.
Qed.

Lemma with_authors_app (db : DB) (a b : list PaperRow) :
  with_authors db (a ++ b) = (with_authors db a ++ with_authors db b)%list.
Proof. apply map_app. Qed.

Lemma flat_map_with_authors (db : DB) (f : nat -> list PaperRow) (l : list nat) :
  flat_map (fun k => with_authors db (f k)) l = with_authors db (flat_map f l).
Proof.
  induction l as [|k l IH]; [reflexivity|].
  cbn [flat_map]. now rewrite with_authors_app, IH.
Qed.

(** A view that shows the rows of [paginate] and reports its number of
    pages lists, over its pages, all the rows in their order. *)
Lemma all_pages_paged (db : DB) (rows : list PaperRow)
      (view : Z -> result response) :
  (forall page,
      (1 <= page)%Z ->
      papers_shown (view page)
      = with_authors db (firstn 20 (skipn (20 * (Z.to_nat page - 1)) rows))) ->
  pages_reported (view 1%Z) = total_pages_of (Z.of_nat (List.length rows)) ->
  all_pages view = with_authors db rows.
Proof.
  intros Hshown Hpages. unfold all_pages. rewrite Hpages.
  rewrite <- (pages_cover _ rows) at 2. rewrite <- pages_concat.
  rewrite <- flat_map_with_authors.
  rewrite !flat_map_concat_map. f_equal.
  apply map_ext_in. intros k Hk. apply in_seq in Hk.
  rewrite Hshown by lia. now rewrite Nat2Z.id.
Qed.

Lemma map_fst_with_authors (db : DB) (rows : list PaperRow) :
  map fst (with_authors db rows) = rows.
Proof.
  unfold with_authors. rewrite map_map. cbn [fst]. apply map_id.
Qed.

Lemma with_authors_snd (db : DB) (rows : list PaperRow) (v : paper_view) :
  In v (with_authors db rows) -> snd v = get_paper_authors db (p_id (fst v)).
Proof.
  unfold with_authors. intros H. apply in_map_iff in H as (p & <- & _).
  reflexivity.
Qed.

Lemma page_beyond (A : Type) (rows : list A) (page : Z) :
  (total_pages_of (Z.of_nat (List.length rows)) < page)%Z ->
  firstn 20 (skipn (20 * (Z.to_nat page - 1)) rows) = [].
Proof.
  intros H. rewrite skipn_all2; [apply firstn_nil|].
  destruct (total_pages_is_ceiling (Z.of_nat (List.length rows))) as [Hle _].
  unfold per_page in Hle. lia.
Qed.

Lemma index_page (db : DB) (page : Z) :
  (1 <= page)%Z ->
  index db page
  = Ok (render_index
          (with_authors db
             (firstn 20 (skipn (20 * (Z.to_nat page - 1))
                           (order_by newest_first (papers db)))))
          page
          (total_pages_of (Z.of_nat (List.length (order_by newest_first (papers db)))))
          (Z.of_nat (List.length (order_by newest_first (papers db))))
          (Z.of_nat (List.length (authors db)))
          (latest_published db)).
Proof. intros H. unfold index. now rewrite paginate_page. Qed.

(** X17.  Read page by page, from page 1 to the number of pages that
    page 1 reports, the listing shows every paper of the catalogue exactly
    once, newest published first and, within a day, highest id first, each
    with its author list; a page after the last one shows no paper. *)
Theorem index_pages_show_every_paper_once :
  forall db,
    Permutation (map fst (all_pages (index db))) (papers db)
    /\ Sorted (fun a b => newest_first a b = true)
         (map fst (all_pages (index db)))
    /\ (forall v, In v (all_pages (index db)) ->
                  snd v = get_paper_authors db (p_id (fst v)))
    /\ (forall page,
           (pages_reported (index db 1) < page)%Z ->
           papers_shown (index db page) = []).
Proof.
  intros db.
  assert (Hall : all_pages (index db)
                 = with_authors db (order_by newest_first (papers db))).
  { apply all_pages_paged.
    - intros page Hpage. now rewrite index_page.
    - now rewrite index_page. }
  rewrite Hall, map_fst_with_authors. split; [apply order_by_permutation|].
  split; [apply order_by_is_sorted, newest_first_total|].
  split; [apply with_authors_snd|].
  intros page Hpage. rewrite index_page in Hpage by lia. cbn in Hpage.
  assert (H1 : (1 <= page)%Z).
  { unfold total_pages_of, per_page in Hpage.
    assert (0 <= (Z.of_nat (List.length (order_by newest_first (papers db))) + 20 - 1) / 20)%Z
      by (apply Z.div_pos; lia).
    lia. }
  rewrite index_page by exact H1. cbn [papers_shown].
  now rewrite page_beyond.
Qed.

Lemma in_papers_of_author (db : DB) (author_id : nat) (p : PaperRow) :
  In p (papers_of_author db author_id)
  <-> In p (papers db)
      /\ exists pa, In pa (paper_authors db)
                    /\ pa_paper_id pa = p_id p /\ pa_author_id pa = author_id.
Proof.
  unfold papers_of_author. rewrite in_flat_map. split.
  - intros (q & Hq & Hin). apply in_map_iff in Hin as (pa & <- & Hpa).
    apply filter_In in Hpa as [Hpa Hkey].
    apply andb_true_iff in Hkey as [H1 H2]. apply Nat.eqb_eq in H1, H2.
    split; [assumption|]. now exists pa.
  - intros (Hp & pa & Hpa & H1 & H2). exists p. split; [assumption|].
    apply in_map_iff. exists pa. split; [reflexivity|].
    apply filter_In. split; [assumption|].
    apply andb_true_iff. split; now apply Nat.eqb_eq.
Qed.

Lemma author_papers_page (db : DB) (name : string) (author : AuthorRow)
      (page : Z) :
  select_author db name = Some author ->
  (1 <= page)%Z ->
  author_papers db name page
  = Ok (render_author author
          (with_authors db
             (firstn 20
                (skipn (20 * (Z.to_nat page - 1))
                   (order_by newest_first (papers_of_author db (a_id author))))))
          page
          (total_pages_of
             (Z.of_nat (List.length
                          (order_by newest_first
                             (papers_of_author db (a_id author))))))
          (Z.of_nat (List.length
                       (order_by newest_first (papers_of_author db (a_id author)))))
          (latest_published db)).
Proof.
  intros Hsel H. unfold author_papers. rewrite Hsel. now rewrite paginate_page.
Qed.

(** X18.  Read page by page, the view of an author who has a row shows
    the papers joined to that row by a Paper-Author link and no other,
    newest first, one entry for each such link, each with the author list
    of the paper. *)
Theorem author_pages_show_the_authors_papers :
  forall db author_name author,
    select_author db author_name = Some author ->
    (forall p,
        In p (map fst (all_pages (author_papers db author_name)))
        <-> In p (papers db)
            /\ exists pa, In pa (paper_authors db)
                          /\ pa_paper_id pa = p_id p
                          /\ pa_author_id pa = a_id author)
    /\ Sorted (fun a b => newest_first a b = true)
         (map fst (all_pages (author_papers db author_name)))
    /\ Permutation (map fst (all_pages (author_papers db author_name)))
         (papers_of_author db (a_id author))
    /\ (forall v, In v (all_pages (author_papers db author_name)) ->
                  snd v = get_paper_authors db (p_id (fst v))).
Proof.
  intros db name author Hsel.
  assert (Hall : all_pages (author_papers db name)
                 = with_authors db
                     (order_by newest_first (papers_of_author db (a_id author)))).
  { apply all_pages_paged.
    - intros page Hpage. now rewrite (author_papers_page db name author).
    - now rewrite (author_papers_page db name author). }
  rewrite Hall, map_fst_with_authors. split.
  { intros p. rewrite in_order_by. apply in_papers_of_author. }
  split; [apply order_by_is_sorted, newest_first_total|].
  split; [apply order_by_permutation|].
  apply with_authors_snd.
Qed.

Section SearchView.

(** The [LIKE] operator of the store *)
Variable like : string -> string -> bool.

Lemma search_page (db : DB) (q : string) (page : Z) :
  strip q <> "" ->
  (1 <= page)%Z ->
  let rows :=
    order_by newest_first
      (filter (search_matches like db ("%" ++ strip q ++ "%")) (papers db)) in
  search like db q page
  = Ok (render_search
          (with_authors db (firstn 20 (skipn (20 * (Z.to_nat page - 1)) rows)))
          (strip q)
          (Some (page, total_pages_of (Z.of_nat (List.length rows))))
          (Z.of_nat (List.length rows))
          (latest_published db)).
Proof.
  intros Hq Hpage rows. unfold search.
  destruct (strip q) as [|c query] eqn:E; [contradiction|].
  fold rows. now rewrite paginate_page.
Qed.

(** X19.  For a query of ASCII text: a search whose query is empty or
    white space answers with no paper, total 0 and no paging, whatever the
    page number.  For any other query the pages of the search, read one
    after the other, show the papers whose title, abstract or one of
    whose authors' names matches the stripped query between two [%], and
    no other; each such paper is shown once, however many of its authors
    match, newest first. *)
Theorem search_pages_show_the_matches_once :
  forall db q,
    isascii q = true ->
    (strip q = "" ->
     forall page, search like db q page = Ok (render_search [] "" None 0 None))
    /\ (strip q <> "" ->
        Permutation (map fst (all_pages (search like db q)))
          (filter (search_matches like db ("%" ++ strip q ++ "%")) (papers db))
        /\ Sorted (fun a b => newest_first a b = true)
             (map fst (all_pages (search like db q)))
        /\ (forall p,
               In p (map fst (all_pages (search like db q)))
               <-> In p (papers db)
                   /\ search_matches like db ("%" ++ strip q ++ "%") p = true)).
Proof.
  intros db q _. split.
  - intros Hq page. unfold search. now rewrite Hq.
  - intros Hq.
    assert (Hall : all_pages (search like db q)
                   = with_authors db
                       (order_by newest_first
                          (filter (search_matches like db ("%" ++ strip q ++ "%"))
                             (papers db)))).
    { apply all_pages_paged.
      - intros page Hpage. now rewrite search_page.
      - now rewrite search_page. }
    rewrite Hall, map_fst_with_authors.
    split; [apply order_by_permutation|].
    split; [apply order_by_is_sorted, newest_first_total|].
    intros p. rewrite in_order_by. apply filter_In.
Qed.

End SearchView.

Lemma protect_capitals_adds_only_braces_witness :
  str_existsb is_upper "a note on hook formulas" = false
  /\ protect_capitals_for_bibtex "a note on hook formulas"
     = "a note on hook formulas".
Proof.
  split; [reflexivity|].
  pose proof (protect_capitals_adds_only_braces "a note on hook formulas") as H.
  destruct H as [_ H]. exact (H eq_refl).
Defined.

Lemma index_pages_show_every_paper_once_witness :
  (pages_reported (index after_doe_and_roe 1) < 2)%Z
  /\ papers_shown (index after_doe_and_roe 2) = [].
Proof.
  assert (Hlast : (pages_reported (index after_doe_and_roe 1) < 2)%Z)
    by (vm_compute; reflexivity).
  split; [exact Hlast|].
  pose proof (index_pages_show_every_paper_once after_doe_and_roe) as H.
  destruct H as (_ & _ & _ & H). exact (H 2%Z Hlast).
Defined.

Lemma author_pages_show_the_authors_papers_witness :
  select_author after_doe_and_roe "John Roe" = Some (mkAuthor 2 "John Roe")
  /\ Sorted (fun a b => newest_first a b = true)
       (map fst (all_pages (author_papers after_doe_and_roe "John Roe"))).
Proof.
  assert (Hsel : select_author after_doe_and_roe "John Roe"
                 = Some (mkAuthor 2 "John Roe")) by (vm_compute; reflexivity).
  split; [exact Hsel|].
  pose proof (author_pages_show_the_authors_papers after_doe_and_roe
                "John Roe" (mkAuthor 2 "John Roe") Hsel) as H.
  destruct H as (_ & H & _). exact H.
Defined.

Lemma search_pages_show_the_matches_once_witness :
  isascii "  " = true
  /\ isascii " Roe " = true
  /\ strip "  " = ""
  /\ strip " Roe " <> ""
  /\ search (fun value _ => occurs "Roe" value) after_doe_and_roe "  " 3
     = Ok (render_search [] "" None 0 None)
  /\ Sorted (fun a b => newest_first a b = true)
       (map fst (all_pages (search (fun value _ => occurs "Roe" value)
                              after_doe_and_roe " Roe "))).
Proof.
  assert (H1 : strip "  " = "") by reflexivity.
  assert (H2 : strip " Roe " <> "") by (vm_compute; discriminate).
  split; [reflexivity|]. split; [reflexivity|].
  split; [exact H1|]. split; [exact H2|].
  pose proof (search_pages_show_the_matches_once
                (fun value _ => occurs "Roe" value) after_doe_and_roe "  "
                eq_refl) as Ha.
  pose proof (search_pages_show_the_matches_once
                (fun value _ => occurs "Roe" value) after_doe_and_roe " Roe "
                eq_refl) as Hb.
  destruct Ha as [Ha _]. destruct Hb as [_ Hb].
  split; [exact (Ha H1 3%Z)|].
  destruct (Hb H2) as (_ & Hs & _). exact Hs.
Defined.

(** ** The calendar view *)

Lemma slices_concat (A : Type) (w : nat) (rows : list A) (n : nat) :
  List.concat (map (fun k => firstn w (skipn (w * k) rows)) (seq 0 n))
  = firstn (w * n) rows.
Proof.
  induction n as [|n IH].
  - now rewrite Nat.mul_0_r.
  - rewrite seq_S, map_app, concat_app, IH. cbn [map List.concat Nat.add].
    rewrite app_nil_r.
    replace (w * S n) with (w * n + w) by lia.
    now rewrite firstn_add.
Qed.

Lemma monthcalendar_concat (year : Z) (month : nat) :
  List.concat (monthcalendar year month) = itermonthdays year month.
Proof.
  unfold monthcalendar. rewrite slices_concat. apply firstn_all2.
  pose proof (Nat.div_mod_eq (List.length (itermonthdays year month) + 6) 7).
  pose proof (Nat.mod_upper_bound (List.length (itermonthdays year month) + 6) 7).
  lia.
Qed.

Lemma for_each_ok (A B : Type) (body : A -> result B) (f : A -> B) (l : list A) :
  (forall x, In x l -> body x = Ok (f x)) ->
  for_each body l = Ok (map f l).
Proof.
  induction l as [|x l IH]; intros H; [reflexivity|].
  cbn [for_each map]. rewrite (H x) by now left.
  rewrite IH; [reflexivity|]. intros y Hy. apply H. now right.
Qed.

Lemma for_each_raises (A B : Type) (body : A -> result B) (e : exn) (l : list A) :
  (forall x, In x l -> body x = Raise e \/ exists y, body x = Ok y) ->
  (exists x, In x l /\ body x = Raise e) ->
  for_each body l = Raise e.
Proof.
  induction l as [|x l IH]; intros Hall (x0 & Hin & Hx0); [contradiction|].
  cbn [for_each].
  destruct (Hall x (or_introl eq_refl)) as [Hx | [y Hy]].
  - now rewrite Hx.
  - rewrite Hy. rewrite IH; [reflexivity | |].
    + intros z Hz. apply Hall. now right.
    + destruct Hin as [-> | Hin]; [congruence|]. now exists x0.
Qed.

Lemma in_itermonthdays (year : Z) (month day : nat) :
  In day (itermonthdays year month) ->
  day = 0 \/ (1 <= day <= days_in_month (calendar_year year) month).
Proof.
  unfold itermonthdays. rewrite !in_app_iff, in_seq.
  intros [H | [H | H]]; try (apply repeat_spec in H; now left).
  right. lia.
Qed.

Lemma days_in_month_positive (y m : nat) :
  1 <= m <= 12 -> 28 <= days_in_month y m <= 31.
Proof.
  intros H. unfold days_in_month.
  do 13 (destruct m as [|m]; [try lia; try (destruct (is_leap y); lia)|]).
  lia.
Qed.

Lemma calendar_year_in_range (year : Z) :
  (1 <= year <= 9999)%Z -> calendar_year year = Z.to_nat year.
Proof.
  intros H. unfold calendar_year.
  replace ((1 <=? year) && (year <=? 9999))%Z with true; [reflexivity|].
  symmetry. apply andb_true_iff. split; apply Z.leb_le; lia.
Qed.

Lemma make_date_in_range (year : Z) (month day : nat) :
  (1 <= year <= 9999)%Z ->
  1 <= month <= 12 ->
  1 <= day <= days_in_month (Z.to_nat year) month ->
  make_date year month day = Ok (mkDate (Z.to_nat year) month day).
Proof.
  intros Hy Hm Hd. unfold make_date.
  replace ((1 <=? year) && (year <=? 9999))%Z with true
    by (symmetry; apply andb_true_iff; split; apply Z.leb_le; lia).
  replace ((1 <=? month) && (month <=? 12))%nat with true
    by (symmetry; apply andb_true_iff; split; apply Nat.leb_le; lia).
  replace ((1 <=? day) && (day <=? days_in_month (Z.to_nat year) month))%nat
    with true
    by (symmetry; apply andb_true_iff; split; apply Nat.leb_le; lia).
  reflexivity.
Qed.

Lemma make_date_out_of_range (year : Z) (month day : nat) :
  (year < 1 \/ 9999 < year)%Z -> make_date year month day = Raise ValueError.
Proof.
  intros H. unfold make_date.
  replace ((1 <=? year) && (year <=? 9999))%Z with false; [reflexivity|].
  symmetry. apply andb_false_iff.
  destruct H; [left; apply Z.leb_gt | right; apply Z.leb_gt]; lia.
Qed.

Lemma month_entry_in_range (counts : list (date * nat)) (year : Z) (month : nat) :
  (1 <= year <= 9999)%Z ->
  1 <= month <= 12 ->
  month_entry counts year month
  = Ok (nth month month_names "",
        map (cell_for counts year month) (itermonthdays year month)).
Proof.
  intros Hy Hm. unfold month_entry. rewrite monthcalendar_concat.
  rewrite for_each_ok
    with (f := cell_for counts year month); [reflexivity|].
  intros day Hday. unfold day_cell, cell_for.
  destruct (day =? 0)%nat eqn:E; [reflexivity|].
  apply Nat.eqb_neq in E.
  apply in_itermonthdays in Hday as [Hday | Hday]; [contradiction|].
  rewrite calendar_year_in_range in Hday by exact Hy.
  now rewrite make_date_in_range.
Qed.

Lemma month_entry_out_of_range (counts : list (date * nat)) (year : Z)
      (month : nat) :
  (year < 1 \/ 9999 < year)%Z ->
  1 <= month <= 12 ->
  month_entry counts year month = Raise ValueError.
Proof.
  intros Hy Hm. unfold month_entry. rewrite monthcalendar_concat.
  rewrite (for_each_raises _ _ _ ValueError); [reflexivity | |].
  - intros day _. unfold day_cell. destruct (day =? 0)%nat; [right; now eexists|].
    left. now rewrite make_date_out_of_range.
  - exists 1. split.
    + unfold itermonthdays. rewrite !in_app_iff, in_seq.
      pose proof (days_in_month_positive (calendar_year year) month Hm).
      right. left. lia.
    + unfold day_cell. cbn [Nat.eqb]. now rewrite make_date_out_of_range.
Qed.

Lemma browse_by_date_in_range (db : DB) (year : Z) :
  (1 <= year <= 9999)%Z ->
  browse_by_date db year
  = Ok (mkBrowse year
          (map (fun month =>
                  (nth month month_names "",
                   map (cell_for (date_counts db year) year month)
                     (itermonthdays year month)))
             (seq 1 12))
          (available_years db)).
Proof.
  intros Hy. unfold browse_by_date.
  rewrite for_each_ok
    with (f := fun month =>
                 (nth month month_names "",
                  map (cell_for (date_counts db year) year month)
                    (itermonthdays year month))); [reflexivity|].
  intros month Hm. apply in_seq in Hm.
  apply month_entry_in_range; [exact Hy | lia].
Qed.

Lemma browse_by_date_out_of_range (db : DB) (year : Z) :
  (year < 1 \/ 9999 < year)%Z -> browse_by_date db year = Raise ValueError.
Proof.
  intros Hy. unfold browse_by_date.
  rewrite (for_each_raises _ _ _ ValueError); [reflexivity | |].
  - intros month Hm. apply in_seq in Hm. left.
    apply month_entry_out_of_range; [exact Hy | lia].
  - exists 1. split; [now left|].
    apply month_entry_out_of_range; [exact Hy | lia].
Qed.

(** *** Counting *)

Lemma date_eqb_refl (d : date) : date_eqb d d = true.
Proof. now apply date_eqb_eq. Qed.

Lemma date_eqb_sym (a b : date) : date_eqb a b = date_eqb b a.
Proof.
  destruct (date_eqb a b) eqn:E.
  - apply date_eqb_eq in E. subst. symmetry. apply date_eqb_refl.
  - destruct (date_eqb b a) eqn:E'; [|reflexivity].
    apply date_eqb_eq in E'. subst. now rewrite date_eqb_refl in E.
Qed.

Lemma dict_get_count_into (x key : date) (groups : list (date * nat)) :
  dict_get (count_into date_eqb x groups) key 0
  = (if date_eqb x key then 1 else 0) + dict_get groups key 0.
Proof.
  unfold dict_get.
  induction groups as [|[y n] rest IH]; cbn [count_into find fst].
  - destruct (date_eqb x key); reflexivity.
  - destruct (date_eqb x y) eqn:Exy; cbn [find fst].
    + apply date_eqb_eq in Exy. subst y.
      destruct (date_eqb x key); reflexivity.
    + destruct (date_eqb y key) eqn:Ey; [|exact IH].
      apply date_eqb_eq in Ey. subst y. now rewrite Exy.
Qed.

Lemma dict_get_group_count (l : list date) (key : date) :
  dict_get (group_count date_eqb l) key 0
  = List.length (filter (fun d => date_eqb d key) l).
Proof.
  induction l as [|x l IH]; [reflexivity|].
  cbn [group_count fold_right filter]. fold (group_count date_eqb l).
  rewrite dict_get_count_into, IH.
  destruct (date_eqb x key); reflexivity.
Qed.

Lemma date_counts_get (db : DB) (year : Z) (d : date) :
  Z.of_nat (d_year d) = year ->
  dict_get (date_counts db year) d 0 = published_on db d.
Proof.
  intros Hy. unfold date_counts, published_on.
  rewrite dict_get_group_count.
  induction (papers db) as [|p l IH]; [reflexivity|].
  cbn [filter].
  destruct (date_eqb (p_published_date p) d) eqn:E.
  - apply date_eqb_eq in E.
    replace (Z.of_nat (d_year (p_published_date p)) =? year)%Z with true
      by (symmetry; apply Z.eqb_eq; now rewrite E).
    cbn [map filter]. rewrite E, date_eqb_refl. cbn [List.length]. now rewrite IH.
  - destruct (Z.of_nat (d_year (p_published_date p)) =? year)%Z; [|exact IH].
    cbn [map filter]. now rewrite E.
Qed.

(** *** The date text and its way back *)

Lemma digit_char_spec (d : Z) :
  (0 <= d < 10)%Z ->
  digit_val (digit_char d) = Some (Z.to_nat d)
  /\ Ascii.eqb "-" (digit_char d) = false.
Proof.
  intros H.
  assert (Hd : exists k, d = Z.of_nat k /\ k < 10).
  { exists (Z.to_nat d). lia. }
  destruct Hd as (k & -> & Hk). rewrite Nat2Z.id. unfold digit_char.
  rewrite Nat2Z.id.
  do 10 (destruct k as [|k]; [split; reflexivity|]). lia.
Qed.

Lemma format_04d_parses (year : Z) :
  (1 <= year <= 9999)%Z ->
  parse_Y (format_04d year) = Some (Z.to_nat year)
  /\ contains_char "-" (format_04d year) = false.
Proof.
  intros Hy. unfold format_04d.
  replace (year <? 0)%Z with false by (symmetry; apply Z.ltb_ge; lia).
  replace (year <? 10000)%Z with true by (symmetry; apply Z.ltb_lt; lia).
  assert (Ha : (0 <= year / 1000 < 10)%Z)
    by (split; [apply Z.div_pos | apply Z.div_lt_upper_bound]; lia).
  assert (Hb : (0 <= year / 100 mod 10 < 10)%Z) by (apply Z.mod_pos_bound; lia).
  assert (Hc : (0 <= year / 10 mod 10 < 10)%Z) by (apply Z.mod_pos_bound; lia).
  assert (Hd : (0 <= year mod 10 < 10)%Z) by (apply Z.mod_pos_bound; lia).
  destruct (digit_char_spec _ Ha) as [Va Na].
  destruct (digit_char_spec _ Hb) as [Vb Nb].
  destruct (digit_char_spec _ Hc) as [Vc Nc].
  destruct (digit_char_spec _ Hd) as [Vd Nd].
  split.
  - cbn [parse_Y]. rewrite Va, Vb, Vc, Vd. f_equal.
    assert (Hsum : (1000 * (year / 1000) + 100 * (year / 100 mod 10)
                    + 10 * (year / 10 mod 10) + year mod 10 = year)%Z).
    { pose proof (Z.div_mod year 10 ltac:(lia)).
      pose proof (Z.div_mod (year / 10) 10 ltac:(lia)).
      pose proof (Z.div_mod (year / 100) 10 ltac:(lia)).
      replace (year / 100)%Z with (year / 10 / 10)%Z in *
        by (rewrite Z.div_div by lia; reflexivity).
      replace (year / 1000)%Z with (year / 10 / 10 / 10)%Z in *
        by (rewrite !Z.div_div by lia; reflexivity).
      lia. }
    lia.
  - unfold contains_char. cbn [str_existsb]. now rewrite Na, Nb, Nc, Nd.
Qed.

Lemma format_02d_parses (n : nat) :
  1 <= n <= 31 ->
  parse_d (format_02d n) = Some n
  /\ (n <= 12 -> parse_m (format_02d n) = Some n)
  /\ contains_char "-" (format_02d n) = false.
Proof.
  intros Hn. unfold format_02d.
  replace (n <? 100)%nat with true by (symmetry; apply Nat.ltb_lt; lia).
  assert (Ha : (0 <= Z.of_nat n / 10 < 10)%Z)
    by (split; [apply Z.div_pos | apply Z.div_lt_upper_bound]; lia).
  assert (Hb : (0 <= Z.of_nat n mod 10 < 10)%Z) by (apply Z.mod_pos_bound; lia).
  destruct (digit_char_spec _ Ha) as [Va Na].
  destruct (digit_char_spec _ Hb) as [Vb Nb].
  assert (Hsum : 10 * Z.to_nat (Z.of_nat n / 10) + Z.to_nat (Z.of_nat n mod 10) = n).
  { pose proof (Z.div_mod (Z.of_nat n) 10 ltac:(lia)). lia. }
  assert (Hparse : forall hi,
             n <= hi ->
             parse_1_to hi
               (String (digit_char (Z.of_nat n / 10))
                  (String (digit_char (Z.of_nat n mod 10)) ""))
             = Some n).
  { intros hi Hhi. cbn [parse_1_to]. rewrite Va, Vb. rewrite Hsum.
    replace ((1 <=? n) && (n <=? hi))%nat with true; [reflexivity|].
    symmetry. apply andb_true_iff. split; apply Nat.leb_le; lia. }
  split; [|split].
  - unfold parse_d.
    assert (Hspace : digit_char (Z.of_nat n / 10) <> " "%char).
    { intros E. rewrite E in Va. discriminate. }
    destruct (digit_char (Z.of_nat n / 10)) as [[] [] [] [] [] [] [] []] eqn:E;
      try (apply Hparse; lia).
    now contradiction Hspace.
  - intros Hle. now apply Hparse.
  - unfold contains_char. cbn [str_existsb]. now rewrite Na, Nb.
Qed.

Lemma strptime_date_str_of (year : Z) (month day : nat) :
  (1 <= year <= 9999)%Z ->
  1 <= month <= 12 ->
  1 <= day <= days_in_month (Z.to_nat year) month ->
  strptime (date_str_of year month day) = Ok (mkDate (Z.to_nat year) month day).
Proof.
  intros Hy Hm Hd.
  pose proof (days_in_month_positive (Z.to_nat year) month Hm) as Hdim.
  destruct (format_04d_parses year Hy) as [HY HYc].
  destruct (format_02d_parses month ltac:(lia)) as (_ & HM & HMc).
  destruct (format_02d_parses day ltac:(lia)) as (HD & _ & HDc).
  unfold strptime, date_str_of.
  rewrite split_three by assumption.
  rewrite HY, (HM ltac:(lia)), HD.
  replace ((1 <=? Z.to_nat year) && (day <=? days_in_month (Z.to_nat year) month))%nat
    with true; [reflexivity|].
  symmetry. apply andb_true_iff. split; apply Nat.leb_le; lia.
Qed.

(** *** The grid of a month *)

Lemma browse_by_date_returns (db : DB) (year : Z) (page : BrowsePage) :
  browse_by_date db year = Ok page ->
  (1 <= year <= 9999)%Z
  /\ b_year page = year
  /\ b_available_years page = available_years db
  /\ map fst (b_month_data page) = tl month_names
  /\ forall month,
       1 <= month <= 12 ->
       cells_of page month
       = map (cell_for (date_counts db year) year month)
           (itermonthdays year month).
Proof.
  intros Hrun.
  assert (Hy : (1 <= year <= 9999)%Z).
  { destruct (Z_lt_ge_dec year 1) as [Hlo | Hlo].
    - rewrite browse_by_date_out_of_range in Hrun by lia. discriminate.
    - destruct (Z_lt_ge_dec 9999 year) as [Hhi | Hhi]; [|lia].
      rewrite browse_by_date_out_of_range in Hrun by lia. discriminate. }
  rewrite (browse_by_date_in_range db year Hy) in Hrun.
  inversion Hrun; subst page. clear Hrun. cbn [b_year b_available_years b_month_data].
  split; [exact Hy|]. split; [reflexivity|]. split; [reflexivity|].
  split; [reflexivity|].
  intros month Hm. unfold cells_of. cbn [b_month_data].
  do 13 (destruct month as [|month]; [try lia; reflexivity|]). lia.
Qed.

Lemma weekday_bound (y m d : nat) : weekday y m d < 7.
Proof.
  unfold weekday.
  pose proof (Z.mod_pos_bound (toordinal y m d + 6) 7 ltac:(lia)). lia.
Qed.

Lemma whole_weeks (s : nat) : (s + (7 - s mod 7) mod 7) mod 7 = 0.
Proof.
  pose proof (Nat.mod_upper_bound s 7 ltac:(discriminate)) as Hr.
  pose proof (Nat.div_mod_eq s 7) as Hs.
  destruct (s mod 7) as [|r] eqn:E.
  - cbn. rewrite Nat.add_0_r. exact E.
  - rewrite (Nat.mod_small (7 - S r) 7) by lia.
    replace (s + (7 - S r)) with (7 * (s / 7 + 1)) by lia.
    rewrite Nat.mul_comm. apply Nat.Div0.mod_mul.
Qed.

Lemma map_cell_day (counts : list (date * nat)) (year : Z) (month : nat)
      (days : list nat) :
  map cell_day (map (cell_for counts year month) days) = days.
Proof.
  rewrite map_map. rewrite <- (map_id days) at 2. apply map_ext.
  intros day. unfold cell_for. destruct (day =? 0)%nat eqn:E; [|reflexivity].
  apply Nat.eqb_eq in E. now subst.
Qed.

(** X20.  The calendar view answers for the years 1 to 9999 and for no
    other: for a year below 1 or above 9999 the construction of the first
    date raises [ValueError].  When it answers, the page has the twelve
    months, January to December, and the years of the catalogue. *)
Theorem browse_by_date_years :
  forall db year,
    ((- 2147483648 <= year <= 2147483647)%Z ->
     (year < 1 \/ 9999 < year)%Z ->
     browse_by_date db year = Raise ValueError)
    /\ ((1 <= year <= 9999)%Z ->
        exists page,
          browse_by_date db year = Ok page
          /\ b_year page = year
          /\ map fst (b_month_data page)
             = ["January"; "February"; "March"; "April"; "May"; "June";
                "July"; "August"; "September"; "October"; "November";
                "December"]
          /\ b_available_years page = available_years db).
Proof.
  intros db year. split.
  - intros _ Hy. now apply browse_by_date_out_of_range.
  - intros Hy. eexists. split; [now apply browse_by_date_in_range|].
    cbn. auto.
Qed.

(** X21.  In the page of a year, the cells of a month are whole weeks that
    start on Monday: as many empty cells as the week has days before the
    first of the month, then the days of the month, each once and in
    order, then fewer than seven empty cells.  An empty cell has day 0,
    count 0 and no date text. *)
Theorem browse_month_grid :
  forall db year page month,
    browse_by_date db year = Ok page ->
    1 <= month <= 12 ->
    exists days_after,
      map cell_day (cells_of page month)
      = (repeat 0 (weekday (Z.to_nat year) month 1)
         ++ seq 1 (days_in_month (Z.to_nat year) month)
         ++ repeat 0 days_after)%list
      /\ weekday (Z.to_nat year) month 1 < 7
      /\ days_after < 7
      /\ List.length (cells_of page month) mod 7 = 0
      /\ (forall c, In c (cells_of page month) ->
                    cell_day c = 0 ->
                    cell_count c = 0 /\ cell_date_str c = None).
Proof.
  intros db year page month Hrun Hm.
  destruct (browse_by_date_returns db year page Hrun)
    as (Hy & _ & _ & _ & Hcells).
  rewrite (Hcells month Hm).
  set (y := Z.to_nat year).
  set (day1 := weekday y month 1).
  set (ndays := days_in_month y month).
  exists ((7 - (day1 + ndays) mod 7) mod 7).
  assert (Hdays : itermonthdays year month
                  = (repeat 0 day1 ++ seq 1 ndays
                     ++ repeat 0 ((7 - (day1 + ndays) mod 7) mod 7))%list).
  { unfold itermonthdays. now rewrite calendar_year_in_range. }
  split; [now rewrite map_cell_day|].
  split; [apply weekday_bound|].
  split; [apply Nat.mod_upper_bound; discriminate|].
  split.
  - rewrite length_map, Hdays, !length_app, !repeat_length, length_seq.
    rewrite Nat.add_assoc. apply whole_weeks.
  - intros c Hc Hzero. apply in_map_iff in Hc as (day & <- & _).
    unfold cell_for in *. destruct (day =? 0)%nat eqn:E; [now split|].
    cbn [cell_day] in Hzero. apply Nat.eqb_neq in E. contradiction.
Qed.

(** X22.  A day of the calendar view leads to its date page: the date text
    of a cell that is not empty is read back by the date page as the day
    of the cell, in the month and the year of the page, and the date page
    lists as many papers as the cell counts, the papers published on that
    day. *)
Theorem browse_cell_opens_its_date_page :
  forall db year page month c,
    browse_by_date db year = Ok page ->
    1 <= month <= 12 ->
    In c (cells_of page month) ->
    cell_day c <> 0 ->
    exists date_str,
      cell_date_str c = Some date_str
      /\ papers_by_date db date_str
         = render_date (mkDate (Z.to_nat year) month (cell_day c))
             (with_authors db
                (order_by by_id_desc
                   (filter
                      (fun p => date_eqb (p_published_date p)
                                  (mkDate (Z.to_nat year) month (cell_day c)))
                      (papers db))))
      /\ List.length (papers_shown (Ok (papers_by_date db date_str)))
         = cell_count c
      /\ cell_count c
         = published_on db (mkDate (Z.to_nat year) month (cell_day c)).
Proof.
  intros db year page month c Hrun Hm Hc Hday.
  destruct (browse_by_date_returns db year page Hrun)
    as (Hy & _ & _ & _ & Hcells).
  rewrite (Hcells month Hm) in Hc.
  apply in_map_iff in Hc as (day & <- & Hin).
  unfold cell_for in *. destruct (day =? 0)%nat eqn:E; [contradiction|].
  cbn [cell_day cell_count cell_date_str] in *.
  apply in_itermonthdays in Hin as [Hin | Hin]; [contradiction|].
  rewrite calendar_year_in_range in Hin by exact Hy.
  exists (date_str_of year month day).
  assert (Hpage : papers_by_date db (date_str_of year month day)
                  = render_date (mkDate (Z.to_nat year) month day)
                      (with_authors db
                         (order_by by_id_desc
                            (filter
                               (fun p => date_eqb (p_published_date p)
                                           (mkDate (Z.to_nat year) month day))
                               (papers db))))).
  { unfold papers_by_date. now rewrite strptime_date_str_of. }
  assert (Hcount : dict_get (date_counts db year)
                     (mkDate (Z.to_nat year) month day) 0
                   = published_on db (mkDate (Z.to_nat year) month day)).
  { apply date_counts_get. cbn [d_year]. lia. }
  split; [reflexivity|]. split; [exact Hpage|]. split; [|exact Hcount].
  rewrite Hpage, Hcount. cbn [papers_shown]. unfold with_authors, published_on.
  now rewrite length_map, order_by_length.
Qed.

(** *** The counts of a year *)

Lemma list_sum_map_add (A : Type) (f g : A -> nat) (l : list A) :
  list_sum (map (fun x => f x + g x) l)
  = list_sum (map f l) + list_sum (map g l).
Proof.
  induction l as [|x l IH]; [reflexivity|].
  simpl. rewrite IH. lia.
Qed.

Lemma list_sum_concat (l : list (list nat)) :
  list_sum (List.concat l) = list_sum (map list_sum l).
Proof.
  induction l as [|x l IH]; [reflexivity|].
  simpl. now rewrite list_sum_app, IH.
Qed.

Lemma list_sum_zeros (A : Type) (f : A -> nat) (l : list A) :
  (forall x, In x l -> f x = 0) -> list_sum (map f l) = 0.
Proof.
  induction l as [|x l IH]; intros H; [reflexivity|].
  simpl. rewrite (H x) by now left.
  apply IH. intros y Hy. apply H. now right.
Qed.

(** A sum over a range of which one term at most is not zero *)
Lemma list_sum_one_term (h : nat -> nat) (k0 : nat) (n : nat) :
  forall a,
    (forall k, k <> k0 -> h k = 0) ->
    list_sum (map h (seq a n))
    = if ((a <=? k0) && (k0 <? a + n))%nat then h k0 else 0.
Proof.
  induction n as [|n IH]; intros a Hzero.
  - simpl.
    destruct ((a <=? k0) && (k0 <? a + 0))%nat eqn:E; [|reflexivity].
    apply andb_true_iff in E as [E1 E2].
    apply Nat.leb_le in E1. apply Nat.ltb_lt in E2. lia.
  - change (list_sum (map h (seq a (S n))))
      with (h a + list_sum (map h (seq (S a) n))).
    rewrite (IH (S a) Hzero).
    destruct (Nat.eq_dec a k0) as [-> | Hne].
    + replace ((S k0 <=? k0) && (k0 <? S k0 + n))%nat with false
        by (symmetry; apply andb_false_iff; left; apply Nat.leb_gt; lia).
      replace ((k0 <=? k0) && (k0 <? k0 + S n))%nat with true
        by (symmetry; apply andb_true_iff; split;
            [apply Nat.leb_le | apply Nat.ltb_lt]; lia).
      lia.
    + rewrite (Hzero a Hne). cbn [Nat.add].
      replace ((a <=? k0) && (k0 <? a + S n))%nat
        with ((S a <=? k0) && (k0 <? S a + n))%nat; [reflexivity|].
      destruct (S a <=? k0)%nat eqn:E1, (a <=? k0)%nat eqn:E2;
        cbn [andb]; try reflexivity.
      * f_equal. lia.
      * apply Nat.leb_le in E1. apply Nat.leb_gt in E2. lia.
      * apply Nat.leb_gt in E1. apply Nat.leb_le in E2.
        symmetry. apply Nat.ltb_ge. lia.
Qed.

Lemma real_date_spec (d : date) :
  real_date d = true ->
  1 <= d_year d
  /\ 1 <= d_month d <= 12
  /\ 1 <= d_day d <= days_in_month (d_year d) (d_month d).
Proof.
  unfold real_date, make_date. rewrite Nat2Z.id.
  destruct ((1 <=? Z.of_nat (d_year d)) && (Z.of_nat (d_year d) <=? 9999))%Z eqn:Ey;
    [|discriminate].
  destruct ((1 <=? d_month d) && (d_month d <=? 12))%nat eqn:Em; [|discriminate].
  destruct ((1 <=? d_day d)
            && (d_day d <=? days_in_month (d_year d) (d_month d)))%nat eqn:Ed;
    [|discriminate].
  intros _.
  apply andb_true_iff in Ey as [Ey _]. apply Z.leb_le in Ey.
  apply andb_true_iff in Em as [Em1 Em2]. apply Nat.leb_le in Em1, Em2.
  apply andb_true_iff in Ed as [Ed1 Ed2]. apply Nat.leb_le in Ed1, Ed2.
  lia.
Qed.

(** The days of the grid of a year on which a date falls: one, when the
    date is real and of that year, and none otherwise *)
Lemma date_falls_on_one_day (q : date) (y : nat) :
  real_date q = true ->
  list_sum
    (map (fun m =>
            list_sum
              (map (fun d => if date_eqb q (mkDate y m d) then 1 else 0)
                 (seq 1 (days_in_month y m))))
       (seq 1 12))
  = if (d_year q =? y)%nat then 1 else 0.
Proof.
  intros Hreal. apply real_date_spec in Hreal as (Hy & Hm & Hd).
  assert (Hinner : forall m,
             list_sum
               (map (fun d => if date_eqb q (mkDate y m d) then 1 else 0)
                  (seq 1 (days_in_month y m)))
             = if ((1 <=? d_day q) && (d_day q <? 1 + days_in_month y m))%nat
               then (if date_eqb q (mkDate y m (d_day q)) then 1 else 0)
               else 0).
  { intros m. apply list_sum_one_term. intros d Hd'.
    destruct (date_eqb q (mkDate y m d)) eqn:E; [|reflexivity].
    apply date_eqb_eq in E. rewrite E in Hd'. cbn in Hd'. contradiction. }
  rewrite (list_sum_one_term _ (d_month q)).
  - replace ((1 <=? d_month q) && (d_month q <? 1 + 12))%nat with true
      by (symmetry; apply andb_true_iff; split;
          [apply Nat.leb_le | apply Nat.ltb_lt]; lia).
    rewrite Hinner.
    destruct (d_year q =? y)%nat eqn:Ey.
    + apply Nat.eqb_eq in Ey. subst y.
      replace ((1 <=? d_day q)
               && (d_day q <? 1 + days_in_month (d_year q) (d_month q)))%nat
        with true
        by (symmetry; apply andb_true_iff; split;
            [apply Nat.leb_le | apply Nat.ltb_lt]; lia).
      replace (mkDate (d_year q) (d_month q) (d_day q)) with q by now destruct q.
      now rewrite date_eqb_refl.
    + destruct (date_eqb q (mkDate y (d_month q) (d_day q))) eqn:E.
      * apply date_eqb_eq in E. rewrite E in Ey. cbn in Ey.
        now rewrite Nat.eqb_refl in Ey.
      * now destruct (_ && _)%nat.
  - intros m Hne. rewrite Hinner.
    destruct (date_eqb q (mkDate y m (d_day q))) eqn:E.
    + apply date_eqb_eq in E. rewrite E in Hne. cbn in Hne. contradiction.
    + now destruct (_ && _)%nat.
Qed.

Lemma papers_of_year_by_day (l : list PaperRow) (y : nat) :
  Forall (fun p => real_date (p_published_date p) = true) l ->
  list_sum
    (map (fun m =>
            list_sum
              (map (fun d =>
                      List.length
                        (filter (fun p => date_eqb (p_published_date p)
                                            (mkDate y m d)) l))
                 (seq 1 (days_in_month y m))))
       (seq 1 12))
  = List.length (filter (fun p => (d_year (p_published_date p) =? y)%nat) l).
Proof.
  induction l as [|p l IH]; intros Hreal.
  - cbn [filter List.length].
    apply list_sum_zeros. intros m _. now apply list_sum_zeros.
  - inversion Hreal as [|? ? Hp Hl]; subst.
    transitivity
      (list_sum
         (map (fun m =>
                 list_sum
                   (map (fun d =>
                           if date_eqb (p_published_date p) (mkDate y m d)
                           then 1 else 0)
                      (seq 1 (days_in_month y m)))
                 + list_sum
                     (map (fun d =>
                             List.length
                               (filter (fun p => date_eqb (p_published_date p)
                                                   (mkDate y m d)) l))
                        (seq 1 (days_in_month y m))))
            (seq 1 12))).
    + f_equal. apply map_ext. intros m.
      rewrite <- list_sum_map_add. f_equal. apply map_ext. intros d.
      cbn [filter]. now destruct (date_eqb (p_published_date p) (mkDate y m d)).
    + rewrite list_sum_map_add, (date_falls_on_one_day _ y Hp), (IH Hl).
      cbn [filter]. now destruct (d_year (p_published_date p) =? y)%nat.
Qed.

Section GroupCount.

Variable A : Type.
Variable eqb : A -> A -> bool.
Hypothesis eqb_spec : forall a b, eqb a b = true <-> a = b.

Lemma count_into_keys (a : A) (groups : list (A * nat)) :
  map fst (count_into eqb a groups) = map fst groups
  \/ (~ In a (map fst groups)
      /\ map fst (count_into eqb a groups) = (map fst groups ++ [a])%list).
Proof.
  induction groups as [|[y n] rest IH]; cbn [count_into map fst].
  - right. split; [tauto | reflexivity].
  - destruct (eqb a y) eqn:E; [now left|].
    destruct IH as [IH | [Hno IH]]; cbn [map fst].
    + left. now rewrite IH.
    + right. split.
      * intros [H | H]; [|contradiction].
        subst y. rewrite (proj2 (eqb_spec a a) eq_refl) in E. discriminate.
      * now rewrite IH.
Qed.

Lemma group_count_keys (l : list A) : NoDup (map fst (group_count eqb l)).
Proof.
  induction l as [|a l IH]; [constructor|].
  cbn [group_count fold_right]. fold (group_count eqb l).
  destruct (count_into_keys a (group_count eqb l)) as [H | [Hno H]]; rewrite H.
  - exact IH.
  - now apply NoDup_snoc.
Qed.

Lemma in_count_into (a x : A) (n : nat) (groups : list (A * nat)) :
  NoDup (map fst groups) ->
  In (x, n) (count_into eqb a groups)
  <-> (x <> a /\ In (x, n) groups)
      \/ (x = a
          /\ ((exists m, In (a, m) groups /\ n = S m)
              \/ (~ In a (map fst groups) /\ n = 1))).
Proof.
  induction groups as [|[y k] rest IH]; intros Hnd; cbn [count_into].
  - cbn [In map]. split.
    + intros [H | []]. inversion H; subst. right. split; [reflexivity|].
      right. split; [tauto | reflexivity].
    + intros [[_ []] | [-> [(m & [] & _) | [_ ->]]]]. now left.
  - cbn [map fst] in Hnd. inversion Hnd as [|? ? Hy Hrest]; subst.
    destruct (eqb a y) eqn:E.
    + apply eqb_spec in E. subst y. cbn [In map fst]. split.
      * intros [H | H].
        -- inversion H; subst. right. split; [reflexivity|].
           left. exists k. split; [now left | reflexivity].
        -- left. split; [|now right]. intros ->. apply Hy.
           apply in_map_iff. now exists (a, n).
      * intros [[Hne [H | H]] | [-> [(m & [H | H] & ->) | [Hno _]]]].
        -- inversion H; subst. contradiction.
        -- now right.
        -- inversion H; subst. now left.
        -- exfalso. apply Hy. apply in_map_iff. now exists (a, m).
        -- exfalso. apply Hno. now left.
    + assert (Hne : a <> y).
      { intros ->. rewrite (proj2 (eqb_spec y y) eq_refl) in E. discriminate. }
      cbn [In map fst]. rewrite (IH Hrest). split.
      * intros [H | [[Hx H] | [-> [(m & H & ->) | [Hno ->]]]]].
        -- inversion H; subst. left. split; [congruence | now left].
        -- left. split; [assumption | now right].
        -- right. split; [reflexivity|]. left. exists m. split; [now right | reflexivity].
        -- right. split; [reflexivity|]. right. split; [|reflexivity].
           intros [H | H]; [congruence | contradiction].
      * intros [[Hx [H | H]] | [-> [(m & [H | H] & ->) | [Hno ->]]]].
        -- now left.
        -- right. left. now split.
        -- inversion H; subst. contradiction.
        -- right. right. split; [reflexivity|]. left. now exists m.
        -- right. right. split; [reflexivity|]. right. split; [|reflexivity].
           intros H. apply Hno. now right.
Qed.

Lemma in_group_count (l : list A) (x : A) (n : nat) :
  In (x, n) (group_count eqb l)
  <-> 0 < n /\ n = List.length (filter (eqb x) l).
Proof.
  revert n. induction l as [|a l IH]; intros n.
  - cbn. split; [tauto | lia].
  - cbn [group_count fold_right filter]. fold (group_count eqb l).
    rewrite (in_count_into a x n _ (group_count_keys l)).
    destruct (eqb x a) eqn:E.
    + apply eqb_spec in E. subst a. cbn [List.length]. split.
      * intros [[Hne _] | [_ [(m & Hm & ->) | [Hno ->]]]].
        -- contradiction.
        -- apply IH in Hm as [_ Hm]. lia.
        -- split; [lia|]. f_equal.
           destruct (List.length (filter (eqb x) l)) as [|k] eqn:Ek; [reflexivity|].
           exfalso. apply Hno. apply in_map_iff. exists (x, S k).
           split; [reflexivity|]. apply IH. lia.
      * intros [_ ->]. right. split; [reflexivity|].
        destruct (List.length (filter (eqb x) l)) as [|k] eqn:Ek.
        -- right. split; [|reflexivity]. intros H.
           apply in_map_iff in H as ([x' m] & Hx & H). cbn in Hx. subst x'.
           apply IH in H. lia.
        -- left. exists (S k). split; [|reflexivity]. apply IH. lia.
    + assert (Hne : x <> a).
      { intros ->. rewrite (proj2 (eqb_spec a a) eq_refl) in E. discriminate. }
      rewrite IH. split.
      * intros [[_ H] | [-> _]]; [exact H | contradiction].
      * intros H. left. now split.
Qed.

End GroupCount.

Lemma in_available_years (db : DB) (y n : nat) :
  In (y, n) (available_years db)
  <-> 0 < n
      /\ n = List.length
               (filter (fun p => (d_year (p_published_date p) =? y)%nat)
                  (papers db)).
Proof.
  unfold available_years. rewrite in_order_by.
  rewrite (in_group_count _ Nat.eqb Nat.eqb_eq).
  assert (Hlen : List.length
                   (filter (Nat.eqb y)
                      (map (fun p => d_year (p_published_date p)) (papers db)))
                 = List.length
                     (filter (fun p => (d_year (p_published_date p) =? y)%nat)
                        (papers db))).
  { induction (papers db) as [|p l IH]; [reflexivity|].
    cbn [map filter]. rewrite (Nat.eqb_sym y).
    destruct (d_year (p_published_date p) =? y)%nat; cbn [List.length];
      now rewrite IH. }
  now rewrite Hlen.
Qed.

Lemma month_counts (db : DB) (year : Z) (month : nat) :
  (1 <= year <= 9999)%Z ->
  list_sum
    (map cell_count
       (map (cell_for (date_counts db year) year month)
          (itermonthdays year month)))
  = list_sum
      (map (fun d => published_on db (mkDate (Z.to_nat year) month d))
         (seq 1 (days_in_month (Z.to_nat year) month))).
Proof.
  intros Hy. unfold itermonthdays. rewrite calendar_year_in_range by exact Hy.
  rewrite !map_app, !list_sum_app, !map_map.
  rewrite (list_sum_zeros _ _ (repeat 0 (weekday _ _ _))),
          (list_sum_zeros _ _ (repeat 0 (_ mod 7))).
  - rewrite Nat.add_0_r. cbn [Nat.add]. f_equal.
    apply map_ext_in. intros d Hd. apply in_seq in Hd.
    unfold cell_for. destruct (d =? 0)%nat eqn:E.
    + apply Nat.eqb_eq in E. lia.
    + cbn [cell_count]. apply date_counts_get. cbn [d_year]. lia.
  - intros d Hd. apply repeat_spec in Hd. now subst.
  - intros d Hd. apply repeat_spec in Hd. now subst.
Qed.

(** X23.  When every paper has a date of the calendar, the counts of the
    cells of the page of a year add up to the number of papers published
    in that year, which is the number that the list of years shows for
    the year, when the year has a paper. *)
Theorem browse_counts_add_up :
  forall db year page,
    browse_by_date db year = Ok page ->
    Forall (fun p => real_date (p_published_date p) = true) (papers db) ->
    list_sum (map cell_count (flat_map snd (b_month_data page)))
    = List.length
        (filter (fun p => (Z.of_nat (d_year (p_published_date p)) =? year)%Z)
           (papers db))
    /\ (forall n,
           In (Z.to_nat year, n) (b_available_years page)
           <-> 0 < n
               /\ n = list_sum
                        (map cell_count (flat_map snd (b_month_data page)))).
Proof.
  intros db year page Hrun Hreal.
  destruct (browse_by_date_returns db year page Hrun) as (Hy & _ & Hyears & _).
  rewrite (browse_by_date_in_range db year Hy) in Hrun.
  assert (Hpage : page
                  = mkBrowse year
                      (map (fun month =>
                              (nth month month_names "",
                               map (cell_for (date_counts db year) year month)
                                 (itermonthdays year month)))
                         (seq 1 12))
                      (available_years db)) by congruence.
  assert (Hsum : list_sum (map cell_count (flat_map snd (b_month_data page)))
                 = List.length
                     (filter (fun p => (d_year (p_published_date p)
                                        =? Z.to_nat year)%nat)
                        (papers db))).
  { rewrite Hpage. cbn [b_month_data].
    rewrite flat_map_concat_map, map_map. cbn [snd].
    rewrite concat_map, list_sum_concat, !map_map.
    rewrite <- (papers_of_year_by_day (papers db) (Z.to_nat year) Hreal).
    f_equal. apply map_ext. intros month. now apply month_counts. }
  split.
  - rewrite Hsum. f_equal. apply filter_ext. intros p.
    destruct (d_year (p_published_date p) =? Z.to_nat year)%nat eqn:E.
    + apply Nat.eqb_eq in E. symmetry. apply Z.eqb_eq. lia.
    + apply Nat.eqb_neq in E. symmetry. apply Z.eqb_neq. lia.
  - intros n. rewrite Hyears, Hsum. apply in_available_years.
Qed.

Lemma page_2024_returned :
  browse_by_date after_doe_and_roe 2024 = Ok page_2024.
Proof. apply browse_by_date_in_range. lia. Qed.

Lemma browse_by_date_years_witness :
  (- 2147483648 <= 0 <= 2147483647)%Z
  /\ (0 < 1 \/ 9999 < 0)%Z
  /\ browse_by_date after_doe_and_roe 0 = Raise ValueError.
Proof.
  assert (H1 : (- 2147483648 <= 0 <= 2147483647)%Z) by lia.
  assert (H2 : (0 < 1 \/ 9999 < 0)%Z) by lia.
  split; [exact H1|]. split; [exact H2|].
  pose proof (browse_by_date_years after_doe_and_roe 0%Z) as H.
  destruct H as [H _]. exact (H H1 H2).
Defined.

Lemma browse_month_grid_witness :
  browse_by_date after_doe_and_roe 2024 = Ok page_2024
  /\ 1 <= 1 <= 12
  /\ weekday 2024 1 1 = 0
  /\ exists days_after,
       map cell_day (cells_of page_2024 1)
       = (repeat 0 (weekday (Z.to_nat 2024) 1 1)
          ++ seq 1 (days_in_month (Z.to_nat 2024) 1)
          ++ repeat 0 days_after)%list
       /\ days_after < 7.
Proof.
  assert (Hm : 1 <= 1 <= 12) by lia.
  split; [exact page_2024_returned|]. split; [exact Hm|].
  split; [reflexivity|].
  pose proof (browse_month_grid after_doe_and_roe 2024%Z page_2024 1
                page_2024_returned Hm) as H.
  destruct H as (days_after & Hdays & _ & Hafter & _).
  exists days_after. split; [exact Hdays | exact Hafter].
Defined.

Lemma browse_cell_opens_its_date_page_witness :
  browse_by_date after_doe_and_roe 2024 = Ok page_2024
  /\ In (mkCell 15 1 (Some "2024-01-15")) (cells_of page_2024 1)
  /\ exists date_str,
       cell_date_str (mkCell 15 1 (Some "2024-01-15")) = Some date_str
       /\ List.length (papers_shown (Ok (papers_by_date after_doe_and_roe date_str)))
          = 1.
Proof.
  assert (Hm : 1 <= 1 <= 12) by lia.
  assert (Hc : In (mkCell 15 1 (Some "2024-01-15")) (cells_of page_2024 1)).
  { change (cells_of page_2024 1)
      with (map (cell_for (date_counts after_doe_and_roe 2024) 2024 1)
              (itermonthdays 2024 1)).
    apply in_map_iff. exists 15. split; [reflexivity|].
    unfold itermonthdays. apply in_or_app. right. apply in_or_app. left.
    apply in_seq. cbn. lia. }
  split; [exact page_2024_returned|]. split; [exact Hc|].
  pose proof (browse_cell_opens_its_date_page after_doe_and_roe 2024%Z page_2024
                1 (mkCell 15 1 (Some "2024-01-15")) page_2024_returned Hm Hc
                ltac:(discriminate)) as H.
  destruct H as (date_str & Hstr & _ & Hlen & _).
  exists date_str. split; [exact Hstr | exact Hlen].
Defined.

Lemma browse_counts_add_up_witness :
  browse_by_date after_doe_and_roe 2024 = Ok page_2024
  /\ Forall (fun p => real_date (p_published_date p) = true)
       (papers after_doe_and_roe)
  /\ In (Z.to_nat 2024, 1) (b_available_years page_2024).
Proof.
  assert (Hreal : Forall (fun p => real_date (p_published_date p) = true)
                    (papers after_doe_and_roe))
    by (repeat constructor).
  split; [exact page_2024_returned|]. split; [exact Hreal|].
  pose proof (browse_counts_add_up after_doe_and_roe 2024%Z page_2024
                page_2024_returned Hreal) as H.
  destruct H as [Hsum Hyears].
  apply (proj2 (Hyears 1)). split; [lia|].
  rewrite Hsum. reflexivity.
Defined.

(** ** The latest date of the listing *)

Lemma date_leb_refl (d : date) : date_leb d d = true.
Proof.
  destruct (date_leb d d) eqn:E; [reflexivity|].
  now rewrite (date_leb_total d d E) in E.
Qed.

Lemma date_leb_spec (a b : date) :
  date_leb a b = true
  <-> d_year a < d_year b
      \/ (d_year a = d_year b
          /\ (d_month a < d_month b
              \/ (d_month a = d_month b /\ d_day a <= d_day b))).
Proof.
  unfold date_leb.
  rewrite orb_true_iff, andb_true_iff, orb_true_iff, andb_true_iff.
  rewrite !Nat.ltb_lt, !Nat.eqb_eq, Nat.leb_le. reflexivity.
Qed.

Lemma date_leb_trans (a b c : date) :
  date_leb a b = true -> date_leb b c = true -> date_leb a c = true.
Proof. rewrite !date_leb_spec. lia. Qed.

Lemma date_leb_antisym (a b : date) :
  date_leb a b = true -> date_leb b a = true -> a = b.
Proof.
  rewrite !date_leb_spec. intros H1 H2.
  destruct a, b; cbn in *. f_equal; lia.
Qed.

Lemma newest_first_dates (a b : PaperRow) :
  newest_first a b = true ->
  date_leb (p_published_date b) (p_published_date a) = true.
Proof.
  unfold newest_first.
  destruct (date_eqb (p_published_date a) (p_published_date b)) eqn:E; [|auto].
  apply date_eqb_eq in E. rewrite E. intros _. apply date_leb_refl.
Qed.

Lemma newest_first_trans (a b c : PaperRow) :
  newest_first a b = true -> newest_first b c = true -> newest_first a c = true.
Proof.
  unfold newest_first.
  destruct (date_eqb (p_published_date a) (p_published_date b)) eqn:Eab;
    destruct (date_eqb (p_published_date b) (p_published_date c)) eqn:Ebc;
    destruct (date_eqb (p_published_date a) (p_published_date c)) eqn:Eac;
    try apply date_eqb_eq in Eab; try apply date_eqb_eq in Ebc;
    try apply date_eqb_eq in Eac; intros H1 H2.
  - apply Nat.leb_le in H1, H2. apply Nat.leb_le. lia.
  - rewrite Eab, Ebc, date_eqb_refl in Eac. discriminate.
  - rewrite <- Eab, Eac, date_eqb_refl in Ebc. discriminate.
  - now rewrite Eab.
  - rewrite Ebc, Eac, date_eqb_refl in Eab. discriminate.
  - now rewrite <- Ebc.
  - exfalso. rewrite Eac in H1.
    pose proof (date_leb_antisym _ _ H1 H2) as E.
    rewrite E, date_eqb_refl in Ebc. discriminate.
  - exact (date_leb_trans _ _ _ H2 H1).
Qed.

Lemma order_by_head_first (l : list PaperRow) (x : PaperRow) (rest : list PaperRow) :
  order_by newest_first l = x :: rest ->
  In x l
  /\ forall p, In p l ->
               date_leb (p_published_date p) (p_published_date x) = true.
Proof.
  intros Hsorted.
  assert (Hin : forall p, In p l <-> In p (x :: rest)).
  { intros p. rewrite <- Hsorted. symmetry. apply in_order_by. }
  split; [apply Hin; now left|].
  pose proof (order_by_is_sorted _ newest_first l newest_first_total) as Hs.
  rewrite Hsorted in Hs.
  apply Sorted_StronglySorted in Hs;
    [|intros a b c; apply newest_first_trans].
  inversion Hs as [|? ? _ Hall]; subst.
  intros p Hp. apply Hin in Hp as [<- | Hp]; [apply date_leb_refl|].
  rewrite Forall_forall in Hall. apply newest_first_dates. now apply Hall.
Qed.

Lemma latest_fold (l : list PaperRow) :
  forall acc,
    match
      fold_left
        (fun acc p =>
           match acc with
           | None => Some (p_published_date p)
           | Some d => if date_leb d (p_published_date p)
                       then Some (p_published_date p) else Some d
           end)
        l acc
    with
    | None => acc = None /\ l = []
    | Some d =>
        (acc = Some d \/ exists p, In p l /\ p_published_date p = d)
        /\ (forall d0, acc = Some d0 -> date_leb d0 d = true)
        /\ (forall p, In p l -> date_leb (p_published_date p) d = true)
    end.
Proof.
  induction l as [|q l IH]; intros acc; cbn [fold_left].
  - destruct acc as [d|]; [|now split].
    split; [now left|]. split; [|intros p []].
    intros d0 E. inversion E. apply date_leb_refl.
  - match goal with |- context [fold_left ?f l ?a] => specialize (IH a) end.
    match goal with |- context [fold_left ?f l ?a] =>
      destruct (fold_left f l a) as [d|] end.
    + destruct IH as (Hfrom & Hacc & Hall). split; [|split].
      * destruct Hfrom as [Hfrom | (p & Hp & Hd)].
        -- destruct acc as [d0|].
           ++ destruct (date_leb d0 (p_published_date q)) eqn:E.
              ** right. exists q. split; [now left | congruence].
              ** now left.
           ++ right. exists q. split; [now left | congruence].
        -- right. exists p. split; [now right | assumption].
      * intros d0 E. subst acc.
        destruct (date_leb d0 (p_published_date q)) eqn:E.
        -- apply (date_leb_trans _ (p_published_date q)); [exact E|].
           now apply Hacc.
        -- now apply Hacc.
      * intros p [<- | Hp]; [|now apply Hall].
        destruct acc as [d0|].
        -- destruct (date_leb d0 (p_published_date q)) eqn:E.
           ++ now apply Hacc.
           ++ apply date_leb_total in E.
              apply (date_leb_trans _ d0); [exact E | now apply Hacc].
        -- now apply Hacc.
    + destruct IH as [Hnone _]. destruct acc as [d0|].
      * destruct (date_leb d0 (p_published_date q)); discriminate.
      * discriminate.
Qed.

Lemma latest_published_spec (db : DB) :
  match latest_published db with
  | None => papers db = []
  | Some d =>
      (exists p, In p (papers db) /\ p_published_date p = d)
      /\ forall p, In p (papers db) -> date_leb (p_published_date p) d = true
  end.
Proof.
  unfold latest_published.
  pose proof (latest_fold (papers db) None) as H.
  match goal with |- context [fold_left ?f ?l ?a] =>
    destruct (fold_left f l a) as [d|] end.
  - destruct H as ([H | H] & _ & Hall); [discriminate|]. now split.
  - now destruct H.
Qed.

(** X24.  The latest date that the listing reports is the date of its
    first paper: page 1 starts with a paper published on the latest day of
    the catalogue, and the listing of an empty catalogue reports no date
    and no paper. *)
Theorem index_latest_date_is_first_listed :
  forall db,
    (forall v rest,
        papers_shown (index db 1) = v :: rest ->
        latest_shown (index db 1) = Some (p_published_date (fst v)))
    /\ (papers db = [] ->
        papers_shown (index db 1) = [] /\ latest_shown (index db 1) = None)
    /\ (forall d,
           latest_shown (index db 1) = Some d ->
           (exists p, In p (papers db) /\ p_published_date p = d)
           /\ forall p, In p (papers db) ->
                        date_leb (p_published_date p) d = true).
Proof.
  intros db. rewrite index_page by lia.
  cbn [papers_shown latest_shown Z.to_nat Pos.to_nat Pos.iter_op Nat.sub
       Nat.mul skipn].
  pose proof (latest_published_spec db) as Hlatest.
  split; [|split].
  - intros v rest Hshown.
    destruct (order_by newest_first (papers db)) as [|x l] eqn:Hsorted;
      [discriminate|].
    cbn [firstn with_authors map] in Hshown. inversion Hshown; subst v rest.
    cbn [fst].
    destruct (order_by_head_first _ _ _ Hsorted) as [Hx Hmax].
    destruct (latest_published db) as [d|].
    + destruct Hlatest as ((p & Hp & Hd) & Hall). f_equal.
      apply date_leb_antisym; [|now apply Hall].
      rewrite <- Hd. now apply Hmax.
    + rewrite Hlatest in Hx. contradiction.
  - intros Hempty. rewrite Hempty. cbn. split; [reflexivity|].
    destruct (latest_published db) as [d|]; [|reflexivity].
    destruct Hlatest as ((p & Hp & _) & _). rewrite Hempty in Hp. contradiction.
  - intros d Hd. rewrite Hd in Hlatest. exact Hlatest.
Qed.

Lemma index_latest_date_is_first_listed_witness :
  papers_shown (index after_doe_and_roe 1)
  = [(row_of 1 "2401.12345v1" doe_and_roe, ["Jane A. Doe"; "John Roe"])]
  /\ latest_shown (index after_doe_and_roe 1) = Some (mkDate 2024 1 15).
Proof.
  assert (Hshown : papers_shown (index after_doe_and_roe 1)
                   = [(row_of 1 "2401.12345v1" doe_and_roe,
                       ["Jane A. Doe"; "John Roe"])])
    by (vm_compute; reflexivity).
  split; [exact Hshown|].
  pose proof (index_latest_date_is_first_listed after_doe_and_roe) as H.
  destruct H as [H _]. exact (H _ _ Hshown).
Defined.

(** ** The tag list and its counts *)

Lemma list_sum_swap (A B : Type) (F : A -> B -> nat) (xs : list A) (ys : list B) :
  list_sum (map (fun x => list_sum (map (fun y => F x y) ys)) xs)
  = list_sum (map (fun y => list_sum (map (fun x => F x y) xs)) ys).
Proof.
  induction xs as [|x xs IH].
  - cbn [map list_sum]. symmetry. now apply list_sum_zeros.
  - change (list_sum (map (fun x0 => list_sum (map (fun y => F x0 y) ys)) (x :: xs)))
      with (list_sum (map (fun y => F x y) ys)
            + list_sum (map (fun x0 => list_sum (map (fun y => F x0 y) ys)) xs)).
    rewrite IH, <- list_sum_map_add. f_equal.
Qed.

Lemma filter_flat_map (A B : Type) (P : B -> bool) (f : A -> list B) (l : list A) :
  filter P (flat_map f l) = flat_map (fun x => filter P (f x)) l.
Proof.
  induction l as [|x l IH]; [reflexivity|].
  cbn [flat_map]. now rewrite filter_app, IH.
Qed.

Lemma length_filter_indicator (A : Type) (P : A -> bool) (l : list A) :
  List.length (filter P l) = list_sum (map (fun x => if P x then 1 else 0) l).
Proof.
  induction l as [|x l IH]; [reflexivity|].
  cbn [filter map]. change (list_sum (?a :: ?r)) with (a + list_sum r).
  destruct (P x); cbn [List.length]; now rewrite IH.
Qed.

(** A value that occurs once in a list without repetition *)
Lemma count_once (A : Type) (P : A -> bool) (l : list A) (x : A) :
  NoDup l -> In x l -> (forall y, In y l -> (P y = true <-> y = x)) ->
  List.length (filter P l) = 1.
Proof.
  induction l as [|y l IH]; intros Hnd Hin HP; [contradiction|].
  inversion Hnd as [|? ? Hy Hl]; subst. cbn [filter].
  destruct Hin as [-> | Hin].
  - rewrite (proj2 (HP x (or_introl eq_refl)) eq_refl). cbn [List.length].
    f_equal. rewrite filter_none; [reflexivity|].
    intros z Hz. destruct (P z) eqn:E; [|reflexivity].
    apply HP in E; [|now right]. subst z. contradiction.
  - destruct (P y) eqn:E.
    + apply HP in E; [|now left]. subst y. contradiction.
    + apply IH; auto. intros z Hz. apply HP. now right.
Qed.

Lemma NoDup_of_map (A B : Type) (f : A -> B) (l : list A) :
  NoDup (map f l) -> NoDup l.
Proof.
  induction l as [|x l IH]; intros H; [constructor|].
  inversion H as [|? ? Hx Hl]; subst. constructor; [|now apply IH].
  intros Hin. apply Hx. now apply in_map.
Qed.

Lemma tag_rows_per_link (db : DB) (t : TagRow) (pt : PaperTag) :
  NoDup (map (fun t => (t_name t, t_tag_type t)) (tags db)) ->
  In t (tags db) ->
  List.length
    (filter (fun u => String.eqb (t_name u) (t_name t)
                      && tag_type_eqb (t_tag_type u) (t_tag_type t))
       (filter (fun u => (t_id u =? pt_tag_id pt)%nat) (tags db)))
  = if (pt_tag_id pt =? t_id t)%nat then 1 else 0.
Proof.
  intros Hkeys Ht.
  assert (Hwanted : forall u,
             In u (tags db) ->
             (String.eqb (t_name u) (t_name t)
              && tag_type_eqb (t_tag_type u) (t_tag_type t) = true <-> u = t)).
  { intros u Hu. rewrite andb_true_iff, String.eqb_eq, tag_type_eqb_eq. split.
    - intros [Hn Hty].
      apply (NoDup_map_eq _ _ (fun t => (t_name t, t_tag_type t)) (tags db));
        auto. cbn. congruence.
    - intros ->. now split. }
  destruct (pt_tag_id pt =? t_id t)%nat eqn:E.
  - apply Nat.eqb_eq in E.
    apply (count_once _ _ _ t).
    + apply NoDup_filter. now apply (NoDup_of_map _ _ _ _ Hkeys).
    + apply filter_In. split; [assumption | now apply Nat.eqb_eq].
    + intros u Hu. apply filter_In in Hu as [Hu _]. now apply Hwanted.
  - rewrite filter_none; [reflexivity|].
    intros u Hu. apply filter_In in Hu as [Hu Hid].
    destruct (String.eqb (t_name u) (t_name t)
              && tag_type_eqb (t_tag_type u) (t_tag_type t)) eqn:W;
      [|reflexivity].
    apply (Hwanted u Hu) in W. subst u.
    apply Nat.eqb_eq in Hid. apply Nat.eqb_neq in E. congruence.
Qed.

Lemma rows_bearing_tag (db : DB) (t : TagRow) :
  well_formed db ->
  Forall (fun pt => In (pt_paper_id pt) (map p_id (papers db))) (paper_tags db) ->
  In t (tags db) ->
  List.length
    (filter (fun row : PaperRow * PaperTag * TagRow =>
               String.eqb (t_name (snd row)) (t_name t)
               && tag_type_eqb (t_tag_type (snd row)) (t_tag_type t))
       (tag_join db))
  = List.length (filter (fun pt => (pt_tag_id pt =? t_id t)%nat) (paper_tags db)).
Proof.
  intros Hwf Hfk Ht. unfold tag_join.
  rewrite filter_flat_map, length_flat_map.
  transitivity
    (list_sum
       (map (fun p =>
               list_sum
                 (map (fun pt =>
                         (if (p_id p =? pt_paper_id pt)%nat then 1 else 0)
                         * (if (pt_tag_id pt =? t_id t)%nat then 1 else 0))
                    (paper_tags db)))
          (papers db))).
  - f_equal. apply map_ext. intros p.
    rewrite filter_flat_map, length_flat_map. f_equal.
    apply map_ext. intros pt.
    destruct (p_id p =? pt_paper_id pt)%nat; [|reflexivity].
    rewrite Nat.mul_1_l.
    rewrite <- (tag_rows_per_link db t pt (wf_tag_keys Hwf) Ht).
    induction (filter (fun u => (t_id u =? pt_tag_id pt)%nat) (tags db))
      as [|u l IH]; [reflexivity|].
    cbn [map filter snd].
    destruct (String.eqb (t_name u) (t_name t)
              && tag_type_eqb (t_tag_type u) (t_tag_type t));
      cbn [List.length]; now rewrite IH.
  - rewrite list_sum_swap, length_filter_indicator. f_equal.
    apply map_ext_in. intros pt Hpt.
    rewrite Forall_forall in Hfk. specialize (Hfk pt Hpt).
    apply in_map_iff in Hfk as (q & Hq & Hqin).
    assert (Hone : list_sum
                     (map (fun p => if (p_id p =? pt_paper_id pt)%nat
                                    then 1 else 0) (papers db)) = 1).
    { rewrite <- length_filter_indicator.
      apply (count_once _ _ _ q).
      - apply (NoDup_of_map _ _ p_id). apply Hwf.
      - exact Hqin.
      - intros p Hp. rewrite Nat.eqb_eq. split.
        + intros E. apply (NoDup_map_eq _ _ p_id (papers db)); auto.
          * apply Hwf.
          * congruence.
        + now intros ->. }
    destruct (pt_tag_id pt =? t_id t)%nat.
    + etransitivity; [|exact Hone]. f_equal. apply map_ext. intros p. lia.
    + apply list_sum_zeros. intros p _. lia.
Qed.

Section TagList.

Variable by_type_then_name : TagRow -> TagRow -> bool.
Variable by_name : TagRow -> TagRow -> bool.

Lemma in_get_all_tags (db : DB) (ty : option tag_type) (t : TagRow) (n : nat) :
  In (t, n) (get_all_tags by_type_then_name by_name ty db)
  <-> In t (tags db)
      /\ (forall ty', ty = Some ty' -> t_tag_type t = ty')
      /\ n = List.length
               (filter (fun pt => (pt_tag_id pt =? t_id t)%nat) (paper_tags db)).
Proof.
  unfold get_all_tags. destruct ty as [ty|]; rewrite in_map_iff; split.
  - intros (u & Heq & Hu). inversion Heq; subst. clear Heq.
    apply in_order_by in Hu. apply filter_In in Hu as [Hu Hty].
    apply tag_type_eqb_eq in Hty. split; [assumption|]. split; [|reflexivity].
    intros ty' E. inversion E. now subst.
  - intros (Ht & Hty & ->). exists t. split; [reflexivity|].
    apply in_order_by. apply filter_In. split; [assumption|].
    apply tag_type_eqb_eq. now apply Hty.
  - intros (u & Heq & Hu). inversion Heq; subst. clear Heq.
    apply in_order_by in Hu. split; [assumption|]. split; [discriminate | reflexivity].
  - intros (Ht & _ & ->). exists t. split; [reflexivity|]. now apply in_order_by.
Qed.

(** X25.  The list of tags shows every tag (of the type, when one is
    given) once, the tags that no paper bears too, with count 0.  In a
    catalogue where every Paper-Tag link points to a paper, the count of a
    tag is the number of rows that the query by tag returns for its name
    and type, up to the limit of the query. *)
Theorem get_all_tags_counts_what_search_by_tag_finds :
  forall db ty,
    well_formed db ->
    Forall (fun pt => In (pt_paper_id pt) (map p_id (papers db)))
      (paper_tags db) ->
    Permutation (map fst (get_all_tags by_type_then_name by_name ty db))
      (match ty with
       | Some ty => filter (fun t => tag_type_eqb (t_tag_type t) ty) (tags db)
       | None => tags db
       end)
    /\ (forall t,
           In t (tags db) ->
           (forall ty', ty = Some ty' -> t_tag_type t = ty') ->
           (forall pt, In pt (paper_tags db) -> pt_tag_id pt <> t_id t) ->
           In (t, 0) (get_all_tags by_type_then_name by_name ty db))
    /\ (forall t n limit rows,
           In (t, n) (get_all_tags by_type_then_name by_name ty db) ->
           search_by_tag (t_name t) (Some (t_tag_type t)) limit db = Ok rows ->
           List.length rows = Nat.min (Z.to_nat limit) n).
Proof.
  intros db ty Hwf Hfk. split; [|split].
  - unfold get_all_tags. destruct ty as [ty|];
      rewrite map_map; cbn [fst]; rewrite map_id; apply order_by_permutation.
  - intros t Ht Hty Hno. apply in_get_all_tags.
    split; [assumption|]. split; [assumption|].
    rewrite filter_none; [reflexivity|].
    intros pt Hpt. apply Nat.eqb_neq. now apply Hno.
  - intros t n limit rows Hin Hrun.
    apply in_get_all_tags in Hin as (Ht & _ & ->).
    rewrite <- (rows_bearing_tag db t Hwf Hfk Ht).
    revert Hrun. unfold search_by_tag, sql_limit.
    destruct (limit <? 0)%Z; [discriminate|].
    intros Hrun. inversion Hrun. subst rows.
    now rewrite length_map, length_firstn, order_by_length, length_map.
Qed.

End TagList.

Lemma get_all_tags_counts_what_search_by_tag_finds_witness :
  well_formed one_paper_one_tag
  /\ Forall (fun pt => In (pt_paper_id pt) (map p_id (papers one_paper_one_tag)))
       (paper_tags one_paper_one_tag)
  /\ In (mkTag 1 "symmetric-functions" personal None, 0)
       (get_all_tags (fun _ _ => true) (fun _ _ => true) None one_paper_one_tag).
Proof.
  assert (Hfk : Forall (fun pt => In (pt_paper_id pt)
                                    (map p_id (papers one_paper_one_tag)))
                  (paper_tags one_paper_one_tag)) by constructor.
  split; [exact one_paper_one_tag_well_formed|]. split; [exact Hfk|].
  pose proof (get_all_tags_counts_what_search_by_tag_finds
                (fun _ _ => true) (fun _ _ => true) one_paper_one_tag None
                one_paper_one_tag_well_formed Hfk) as H.
  destruct H as (_ & H & _).
  apply H.
  - now left.
  - discriminate.
  - intros pt [].
Defined.
